(** * The batch ingestion pipeline of the-batch-rag-app

    A shallow embedding of
    - [helpers/ingestion.py]            (IngestionHelper),
    - [helpers/vectorstore_manager.py]  (FaissManager),
    - [preprocessing/documents_processing.py] (VectorStoreBatchProcessor),
    - [preprocessing/image_preprocessing.py]  (ImageCaptioner._encode_image),
    together with the parts of the Python runtime they rest on
    ([str], [json.dumps] on strings, [str.encode], [hashlib.md5], slices,
    floor division, [range]).

    Python integers are [Z]; a Python [str] is the list of its code points;
    [bytes] is a list of octets.  Exceptions are values of [exn] and every
    statement that may raise lives in the state-and-exception monad [M]. *)

From Stdlib Require Import ZArith List Lia Bool.
From Stdlib Require DecimalString.
From stdpp Require Import gmap strings list.

Local Open Scope Z_scope.

(** ** Python strings and bytes *)

Abbreviation py_str := (list Z).
Abbreviation py_bytes := (list Z).

(** A Python literal, written as a Rocq string. *)
Fixpoint py (s : string) : list Z :=
  match s with
  | EmptyString => []
  | String a r => Z.of_nat (Ascii.nat_of_ascii a) :: py r
  end.
#[global] Arguments py : simpl never.

(** Exceptions that the modelled code and its collaborators raise. *)
Inductive exn : Type :=
| ZeroDivisionError
| UnicodeEncodeError
| AttributeError
| OSError            (* open / save_local on the file system *)
| LoadError          (* FAISS.load_local on unreadable files *)
| EmbeddingError     (* embeddings.embed_query / embed_documents *)
| WebLoadError       (* WebBaseLoader.load *)
| LLMError.          (* ChatOpenAI.invoke *)

Inductive result (A : Type) : Type :=
| Ok (a : A)
| Raise (e : exn).
Arguments Ok {A} a.
Arguments Raise {A} e.

Module PyStr.

(** [str.encode] with the utf-8 codec, one code point.  Surrogates are refused
    (UnicodeEncodeError), as CPython does under the strict handler. *)
Definition utf8_char (c : Z) : option (list Z) :=
  if c <? 0x80 then Some [c]
  else if c <? 0x800 then
    Some [Z.lor 0xC0 (Z.shiftr c 6); Z.lor 0x80 (Z.land c 0x3F)]
  else if (0xD800 <=? c) && (c <=? 0xDFFF) then None
  else if c <? 0x10000 then
    Some [Z.lor 0xE0 (Z.shiftr c 12);
          Z.lor 0x80 (Z.land (Z.shiftr c 6) 0x3F);
          Z.lor 0x80 (Z.land c 0x3F)]
  else
    Some [Z.lor 0xF0 (Z.shiftr c 18);
          Z.lor 0x80 (Z.land (Z.shiftr c 12) 0x3F);
          Z.lor 0x80 (Z.land (Z.shiftr c 6) 0x3F);
          Z.lor 0x80 (Z.land c 0x3F)].

Fixpoint encode_utf8 (s : list Z) : result (list Z) :=
  match s with
  | [] => Ok []
  | c :: r =>
      match utf8_char c with
      | None => Raise UnicodeEncodeError
      | Some bs =>
          match encode_utf8 r with
          | Ok rest => Ok (bs ++ rest)
          | Raise e => Raise e
          end
      end
  end.

(** ['{0:x}'.format d] for one hexadecimal digit. *)
Definition hex_digit (d : Z) : Z := if d <? 10 then 48 + d else 87 + d.

(** ['{0:04x}'.format n], for [0 <= n < 0x10000]. *)
Definition hex4 (n : Z) : list Z :=
  [hex_digit (Z.land (Z.shiftr n 12) 0xF);
   hex_digit (Z.land (Z.shiftr n 8) 0xF);
   hex_digit (Z.land (Z.shiftr n 4) 0xF);
   hex_digit (Z.land n 0xF)].

(** json.encoder: the regular expression ESCAPE_ASCII matches a backslash
    (92), a double quote (34), or anything outside the printable range
    32..126. *)
Definition needs_escape (c : Z) : bool :=
  (c =? 92) || (c =? 34) || negb ((32 <=? c) && (c <=? 126)).

(** json.encoder.ESCAPE_DCT, the short escapes. *)
Definition escape_dct (c : Z) : option (list Z) :=
  if c =? 92 then Some [92; 92]            (* backslash backslash *)
  else if c =? 34 then Some [92; 34]       (* backslash quote *)
  else if c =? 8 then Some [92; 98]        (* \b *)
  else if c =? 12 then Some [92; 102]      (* \f *)
  else if c =? 10 then Some [92; 110]      (* \n *)
  else if c =? 13 then Some [92; 114]      (* \r *)
  else if c =? 9 then Some [92; 116]       (* \t *)
  else None.

(** json.encoder.py_encode_basestring_ascii, the [replace] callback. *)
Definition escape_char (c : Z) : list Z :=
  if needs_escape c then
    match escape_dct c with
    | Some e => e
    | None =>
        if c <? 0x10000 then 92 :: 117 :: hex4 c
        else
          let n := c - 0x10000 in
          let s1 := Z.lor 0xd800 (Z.land (Z.shiftr n 10) 0x3ff) in
          let s2 := Z.lor 0xdc00 (Z.land n 0x3ff) in
          (92 :: 117 :: hex4 s1) ++ (92 :: 117 :: hex4 s2)
    end
  else [c].

Definition escape (s : list Z) : list Z := flat_map escape_char s.

(** [json.dumps(s, sort_keys=True, default=str)] for a [str] argument
    (ensure_ascii is left at its default, True). *)
Definition json_dumps (s : list Z) : list Z := 34 :: escape s ++ [34].

(** A Unicode scalar value: a code point that is not a surrogate.  Text
    decoded from a file or a web page consists of these. *)
Definition is_scalar (c : Z) : Prop :=
  0 <= c < 0xD800 \/ 0xDFFF < c < 0x110000.

(** Reading an escape back: the character behind a short escape, and the
    four shapes that the escape of a scalar value can take (itself, a short
    escape, one \u group, a surrogate pair of two). *)
Definition short_inv (x : Z) : Z :=
  if x =? 98 then 8 else if x =? 102 then 12 else if x =? 110 then 10
  else if x =? 114 then 13 else if x =? 116 then 9 else x.

Inductive escape_form (c : Z) : list Z -> Prop :=
| form_plain : c <> 92 -> escape_form c [c]
| form_short x : x <> 117 -> c = short_inv x -> escape_form c [92; x]
| form_u : 0 <= c < 0x10000 -> ~ (0xD800 <= c <= 0xDFFF) ->
    escape_form c (92 :: 117 :: hex4 c)
| form_pair hi lo : 0 <= hi < 1024 -> 0 <= lo < 1024 ->
    c = 0x10000 + 1024 * hi + lo ->
    escape_form c ((92 :: 117 :: hex4 (0xd800 + hi)) ++ (92 :: 117 :: hex4 (0xdc00 + lo))).

End PyStr.

(** ** hashlib.md5 (RFC 1321) *)

Module MD5.

Definition mask32 : Z := 0xffffffff.
Definition add32 (a b : Z) : Z := Z.land (a + b) mask32.
Definition not32 (a : Z) : Z := Z.lxor a mask32.
Definition rotl32 (x c : Z) : Z :=
  Z.land (Z.lor (Z.shiftl x c) (Z.shiftr x (32 - c))) mask32.

Definition S : list Z :=
  [7; 12; 17; 22; 7; 12; 17; 22; 7; 12; 17; 22; 7; 12; 17; 22;
   5; 9; 14; 20; 5; 9; 14; 20; 5; 9; 14; 20; 5; 9; 14; 20;
   4; 11; 16; 23; 4; 11; 16; 23; 4; 11; 16; 23; 4; 11; 16; 23;
   6; 10; 15; 21; 6; 10; 15; 21; 6; 10; 15; 21; 6; 10; 15; 21].

Definition K : list Z :=
  [0xd76aa478; 0xe8c7b756; 0x242070db; 0xc1bdceee;
   0xf57c0faf; 0x4787c62a; 0xa8304613; 0xfd469501;
   0x698098d8; 0x8b44f7af; 0xffff5bb1; 0x895cd7be;
   0x6b901122; 0xfd987193; 0xa679438e; 0x49b40821;
   0xf61e2562; 0xc040b340; 0x265e5a51; 0xe9b6c7aa;
   0xd62f105d; 0x02441453; 0xd8a1e681; 0xe7d3fbc8;
   0x21e1cde6; 0xc33707d6; 0xf4d50d87; 0x455a14ed;
   0xa9e3e905; 0xfcefa3f8; 0x676f02d9; 0x8d2a4c8a;
   0xfffa3942; 0x8771f681; 0x6d9d6122; 0xfde5380c;
   0xa4beea44; 0x4bdecfa9; 0xf6bb4b60; 0xbebfbc70;
   0x289b7ec6; 0xeaa127fa; 0xd4ef3085; 0x04881d05;
   0xd9d4d039; 0xe6db99e5; 0x1fa27cf8; 0xc4ac5665;
   0xf4292244; 0x432aff97; 0xab9423a7; 0xfc93a039;
   0x655b59c3; 0x8f0ccc92; 0xffeff47d; 0x85845dd1;
   0x6fa87e4f; 0xfe2ce6e0; 0xa3014314; 0x4e0811a1;
   0xf7537e82; 0xbd3af235; 0x2ad7d2bb; 0xeb86d391].

(** Little-endian octets of a [w]-octet word and back. *)
Fixpoint le_bytes (w : nat) (x : Z) : list Z :=
  match w with
  | O => []
  | Datatypes.S w' => Z.land x 0xff :: le_bytes w' (Z.shiftr x 8)
  end.

Fixpoint le_word (bs : list Z) : Z :=
  match bs with
  | [] => 0
  | b :: r => Z.lor b (Z.shiftl (le_word r) 8)
  end.

(** The message, one [0x80], zeros up to 56 modulo 64, then the bit length
    on 64 bits. *)
Definition pad (msg : list Z) : list Z :=
  let len := Z.of_nat (length msg) in
  let zeros := Z.to_nat ((55 - len) mod 64) in
  msg ++ [0x80] ++ repeat 0 zeros ++ le_bytes 8 (Z.land (8 * len) 0xffffffffffffffff).

Fixpoint words (n : nat) (block : list Z) : list Z :=
  match n with
  | O => []
  | Datatypes.S n' => le_word (firstn 4 block) :: words n' (skipn 4 block)
  end.

Definition state : Type := Z * Z * Z * Z.

Definition step (m : list Z) (i : Z) (st : state) : state :=
  let '(a, b, c, d) := st in
  let '(f, g) :=
    if i <? 16 then (Z.lor (Z.land b c) (Z.land (not32 b) d), i)
    else if i <? 32 then (Z.lor (Z.land d b) (Z.land (not32 d) c), (5 * i + 1) mod 16)
    else if i <? 48 then (Z.lxor (Z.lxor b c) d, (3 * i + 5) mod 16)
    else (Z.lxor c (Z.lor b (not32 d)), (7 * i) mod 16) in
  let f' := add32 (add32 (add32 f a) (nth (Z.to_nat i) K 0)) (nth (Z.to_nat g) m 0) in
  (d, add32 b (rotl32 f' (nth (Z.to_nat i) S 0)), b, c).

Definition compress (st : state) (block : list Z) : state :=
  let m := words 16 block in
  let '(a, b, c, d) :=
    fold_left (fun s i => step m (Z.of_nat i) s) (seq 0 64) st in
  let '(a0, b0, c0, d0) := st in
  (add32 a0 a, add32 b0 b, add32 c0 c, add32 d0 d).

Fixpoint blocks (n : nat) (st : state) (bs : list Z) : state :=
  match n with
  | O => st
  | Datatypes.S n' => blocks n' (compress st (firstn 64 bs)) (skipn 64 bs)
  end.

Definition init : state := (0x67452301, 0xefcdab89, 0x98badcfe, 0x10325476).

Definition digest (msg : list Z) : list Z :=
  let p := pad msg in
  let '(a, b, c, d) := blocks (length p / 64)%nat init p in
  le_bytes 4 a ++ le_bytes 4 b ++ le_bytes 4 c ++ le_bytes 4 d.

Definition hex_byte (b : Z) : list Z :=
  [PyStr.hex_digit (Z.shiftr b 4); PyStr.hex_digit (Z.land b 0xF)].

(** [hashlib.md5(msg).hexdigest()] *)
Definition hexdigest (msg : list Z) : list Z := flat_map hex_byte (digest msg).

End MD5.

(** ** Result and state-exception monads *)

#[global] Instance result_ret : MRet result := fun _ a => Ok a.
#[global] Instance result_bind : MBind result := fun _ _ f r =>
  match r with
  | Ok a => f a
  | Raise e => Raise e
  end.

(** ** Data model *)

(** Metadata values.  The code reads them with [str(...)] or [.encode]: a
    string, or [None] (which [dict.get] also returns for a missing key). *)
Inductive py_val : Type :=
| VNone
| VStr (s : list Z).

(** [str(v)] *)
Definition str (v : py_val) : list Z :=
  match v with
  | VNone => py "None"
  | VStr s => s
  end.

(** langchain.schema.Document *)
Record Document : Type := mkDocument {
  page_content : list Z;
  metadata : gmap string py_val;
}.

(** [doc.metadata.get(k)] *)
Definition metadata_get (doc : Document) (k : string) : py_val :=
  default VNone (metadata doc !! k).

(** [doc.metadata[k] = v] *)
Definition metadata_set (doc : Document) (k : string) (v : py_val) : Document :=
  {| page_content := page_content doc; metadata := <[k := v]> (metadata doc) |}.

(** The FAISS vector store object: the flat L2 index (its dimension and the
    vectors added so far; a vector is kept as an opaque list) and the values
    of [docstore._dict] in insertion order.  The keys of that dict are fresh
    uuid4 strings which the pipeline never reads. *)
Record VectorStore : Type := mkVectorStore {
  index_dim : nat;
  index_vectors : list (list Z);
  docstore : list Document;
}.

(** What lies at an index path on disk. *)
Inductive IndexFiles : Type :=
| Readable (vs : VectorStore)
| Unreadable.

(** What lies at a text file path: the lines as file iteration yields them,
    or a file that cannot be opened or decoded. *)
Inductive TextFile : Type :=
| Lines (ls : list (list Z))
| NoAccess.

Record FileSystem : Type := mkFileSystem {
  text_files : gmap string TextFile;
  index_dirs : gmap string IndexFiles;
  writable : bool;
}.

(** Calls that leave the process, in the order they are made. *)
Inductive Event : Type :=
| EvLoadLocal (path : string)
| EvSaveLocal (path : string)
| EvEmbedQuery (text : list Z)
| EvAddDocuments (docs : list Document)
| EvWebLoad (urls : list (list Z))
| EvInvoke (prompt : list Z).

(** The collaborators: URL joining, the web loader, the chat model and the
    embedding model. *)
Record World : Type := mkWorld {
  urljoin : list Z -> list Z -> list Z;
  web_load : list (list Z) -> result (list Document);
  llm_invoke : list Z -> result (list Z);
  embed_query : list Z -> result (list Z);
  embed_documents : list (list Z) -> result (list (list Z));
}.

(** The process state: the file system, the [vector_store] attribute of the
    FaissManager (the object that [db] in [process_urls] aliases), and the
    calls made so far. *)
Record State : Type := mkState {
  fs : FileSystem;
  vector_store : option VectorStore;
  trace : list Event;
}.

(** The attributes of a VectorStoreBatchProcessor (and of its FaissManager,
    whose [index_path] is [faiss_index_path]). *)
Record Processor : Type := mkProcessor {
  urls_file_path : string;
  faiss_index_path : string;
  batch_size : Z;
  base_url_prefix : option (list Z);
}.

Definition M (A : Type) : Type := State -> result A * State.

#[global] Instance M_ret : MRet M := fun _ a s => (Ok a, s).
#[global] Instance M_bind : MBind M := fun _ _ f m s =>
  match m s with
  | (Ok a, s') => f a s'
  | (Raise e, s') => (Raise e, s')
  end.

Definition raise {A : Type} (e : exn) : M A := fun s => (Raise e, s).
Definition lift {A : Type} (r : result A) : M A := fun s => (r, s).
Definition get : M State := fun s => (Ok s, s).

(** [try: m except Exception as e: h e] *)
Definition try_except {A : Type} (m : M A) (h : exn -> M A) : M A := fun s =>
  match m s with
  | (Ok a, s') => (Ok a, s')
  | (Raise e, s') => h e s'
  end.

Definition emit (ev : Event) : M unit := fun s =>
  (Ok tt, {| fs := fs s; vector_store := vector_store s; trace := trace s ++ [ev] |}).

Definition set_vector_store (vs : option VectorStore) : M unit := fun s =>
  (Ok tt, {| fs := fs s; vector_store := vs; trace := trace s |}).

Definition set_fs (f : FileSystem) : M unit := fun s =>
  (Ok tt, {| fs := f; vector_store := vector_store s; trace := trace s |}).

(** [for x in l: body x] *)
Fixpoint for_each {A : Type} (l : list A) (body : A -> M unit) : M unit :=
  match l with
  | [] => mret tt
  | x :: r => body x ;; for_each r body
  end.

(** [[f x for x in l]] where [f] may raise. *)
Fixpoint map_M {A B : Type} (f : A -> M B) (l : list A) : M (list B) :=
  match l with
  | [] => mret []
  | x :: r => y ← f x; ys ← map_M f r; mret (y :: ys)
  end.

(** ** Python built-ins *)

Module Py.

(** [s.startswith(p)] *)
Fixpoint startswith (s p : list Z) : bool :=
  match p, s with
  | [], _ => true
  | _ :: _, [] => false
  | a :: p', b :: s' => (a =? b) && startswith s' p'
  end.

(** [str.isspace] for one code point. *)
Definition isspace (c : Z) : bool :=
  ((9 <=? c) && (c <=? 13)) || ((28 <=? c) && (c <=? 32))
  || (c =? 0x85) || (c =? 0xA0) || (c =? 0x1680)
  || ((0x2000 <=? c) && (c <=? 0x200A))
  || (c =? 0x2028) || (c =? 0x2029) || (c =? 0x202F) || (c =? 0x205F)
  || (c =? 0x3000).

Fixpoint lstrip (s : list Z) : list Z :=
  match s with
  | [] => []
  | c :: r => if isspace c then lstrip r else s
  end.

(** [s.strip()] *)
Definition strip (s : list Z) : list Z := rev (lstrip (rev (lstrip s))).

(** Truth value of a list or a string. *)
Definition truthy {A : Type} (l : list A) : bool :=
  match l with
  | [] => false
  | _ :: _ => true
  end.

(** Where a slice bound lands in a sequence of length [len]. *)
Definition clamp (len i : Z) : Z :=
  if i <? 0 then Z.max (i + len) 0 else Z.min i len.

(** [l[a:b]] *)
Definition slice {A : Type} (l : list A) (a b : Z) : list A :=
  let len := Z.of_nat (length l) in
  let lo := clamp len a in
  let hi := clamp len b in
  firstn (Z.to_nat (hi - lo)) (skipn (Z.to_nat lo) l).

(** [a // b] *)
Definition floordiv (a b : Z) : result Z :=
  if b =? 0 then Raise ZeroDivisionError else Ok (a / b).

(** [range(n)] *)
Definition range (n : Z) : list Z := map Z.of_nat (seq 0 (Z.to_nat n)).

End Py.

(** ** helpers/ingestion.py *)

Module IngestionHelper.

(** [compute_doc_hash(doc)], for the [str] argument it is called with:
    the handler around [json.dumps(...).encode] logs and re-raises. *)
Definition hash_input (doc : list Z) : result (list Z) :=
  PyStr.encode_utf8 (PyStr.json_dumps doc).

Definition compute_doc_hash (doc : list Z) : result (list Z) :=
  hash_input ← hash_input doc;
  mret (MD5.hexdigest hash_input).

(** [compute_image_hash(doc)]: [doc.metadata.get(key, default)] with the
    empty string as default, then [.encode], which a None value lacks. *)
Definition compute_image_hash (doc : Document) : result (list Z) :=
  match default (VStr []) (metadata doc !! "encoded_image"%string) with
  | VStr s =>
      hash_input ← PyStr.encode_utf8 s;
      mret (MD5.hexdigest hash_input)
  | VNone => Raise AttributeError
  end.

(** [normalize_url(url, base_url)] *)
Definition normalize_url (W : World) (url : list Z) (base_url : option (list Z))
  : list Z :=
  if negb (Py.startswith url (py "http")) then
    if Py.startswith url (py "//") then py "https:" ++ url
    else if Py.startswith url (py "/") then
      match base_url with
      | Some b => if Py.truthy b then urljoin W b url else py "https:" ++ url
      | None => py "https:" ++ url
      end
    else py "https://" ++ url
  else url.

End IngestionHelper.

(** ** helpers/vectorstore_manager.py *)

Module FaissManager.
Section Manager.

Variable W : World.
Variable index_path : string.

(** [os.path.exists(self.index_path)] *)
Definition path_exists : M bool :=
  s ← get; mret (bool_decide (is_Some (index_dirs (fs s) !! index_path))).

(** [FAISS.load_local(self.index_path, self.embeddings, ...)] *)
Definition load_local : M VectorStore :=
  emit (EvLoadLocal index_path);;
  s ← get;
  match index_dirs (fs s) !! index_path with
  | Some (Readable vs) => mret vs
  | _ => raise LoadError
  end.

(** [vector_store.save_local(self.index_path)] *)
Definition save_local (vs : VectorStore) : M unit :=
  emit (EvSaveLocal index_path);;
  s ← get;
  if writable (fs s) then
    set_fs {| text_files := text_files (fs s);
              index_dirs := <[index_path := Readable vs]> (index_dirs (fs s));
              writable := writable (fs s) |}
  else raise OSError.

(** [FaissManager.save] *)
Definition save : M unit :=
  s ← get;
  match vector_store s with
  | Some vs => save_local vs
  | None => mret tt
  end.

(** [FaissManager.load_or_create] *)
Definition load_or_create : M (option VectorStore) :=
  ex ← path_exists;
  (if ex : bool then
     try_except
       (vs ← load_local; set_vector_store (Some vs))
       (fun e => raise e)
   else
     dummy_embedding ← (emit (EvEmbedQuery (py "hello world"));;
                        lift (embed_query W (py "hello world")));
     set_vector_store
       (Some {| index_dim := length dummy_embedding;
                index_vectors := [];
                docstore := [] |});;
     save);;
  s ← get; mret (vector_store s).

(** [FAISS.add_documents(documents)] on the object in [self.vector_store]:
    the texts are embedded, then vectors and documents are appended. *)
Definition vs_add_documents (documents : list Document) : M unit :=
  emit (EvAddDocuments documents);;
  vectors ← lift (embed_documents W (map page_content documents));
  s ← get;
  match vector_store s with
  | Some vs =>
      set_vector_store
        (Some {| index_dim := index_dim vs;
                 index_vectors := index_vectors vs ++ vectors;
                 docstore := docstore vs ++ documents |})
  | None => raise AttributeError
  end.

(** [FaissManager.add_documents] *)
Definition add_documents (documents : list Document) : M unit :=
  s ← get;
  match vector_store s with
  | None => load_or_create;; mret tt
  | Some _ => mret tt
  end;;
  vs_add_documents documents.

End Manager.
End FaissManager.

(** ** preprocessing/documents_processing.py *)

Module VectorStoreBatchProcessor.
Section Processor.

Variable W : World.
Variable self : Processor.

(** [open(path)] for reading as UTF-8 and the iteration over its lines:
    a missing or unreadable file raises. *)
Definition open_read (path : string) : M (list (list Z)) :=
  s ← get;
  match text_files (fs s) !! path with
  | Some (Lines ls) => mret ls
  | _ => raise OSError
  end.

(** [_read_urls_file]: any exception while opening or reading is logged
    and turned into the empty list. *)
Definition _read_urls_file : M (list (list Z)) :=
  try_except
    (ls ← open_read (urls_file_path self);
     mret (map Py.strip (filter (fun line => Py.truthy (Py.strip line) = true) ls)))
    (fun _ => mret []).

(** [_summarize_text] *)
Definition summarize_prompt (text_element : list Z) : list Z :=
  py "Summarize the following text:" ++ [10; 10]
    ++ text_element ++ [10; 10] ++ py "Summary:".

Definition _summarize_text (text_element : list Z) : M (list Z) :=
  let prompt := summarize_prompt text_element in
  emit (EvInvoke prompt);;
  lift (llm_invoke W prompt).

(** The argument of [compute_doc_hash] in [process_urls]:
    [str(doc.metadata.get(source)) + str(doc.metadata.get(title))]. *)
Definition identity_string (doc : Document) : list Z :=
  str (metadata_get doc "source") ++ str (metadata_get doc "title").

(** The bytes that reach [hashlib.md5] for a document. *)
Definition doc_hash_input (doc : Document) : result (list Z) :=
  IngestionHelper.hash_input (identity_string doc).

(** The bytes that [process_urls] compares: json.dumps of the hexdigest of
    the identity string, encoded. *)
Definition doc_dedup_key (doc : Document) : result (list Z) :=
  h ← IngestionHelper.compute_doc_hash (identity_string doc);
  PyStr.encode_utf8 (PyStr.json_dumps h).

(** The loop that fills [existing_hashes] from [db.docstore._dict.values()]. *)
Fixpoint existing_doc_hashes (docs : list Document) (acc : gset (list Z))
  : result (gset (list Z)) :=
  match docs with
  | [] => Ok acc
  | doc :: r =>
      value_to_hash ← doc_dedup_key doc;
      existing_doc_hashes r (acc ∪ {[value_to_hash]})
  end.

(** The comprehension that builds [unique_documents]. *)
Fixpoint select_unique (key : Document -> result (list Z))
    (existing_hashes : gset (list Z)) (documents : list Document)
  : result (list Document) :=
  match documents with
  | [] => Ok []
  | doc :: r =>
      k ← key doc;
      rest ← select_unique key existing_hashes r;
      mret (if bool_decide (k ∉ existing_hashes) then doc :: rest else rest)
  end.

(** Lines 156 to 173: [existing_hashes] from the store, then
    [unique_documents] from the loaded documents.  The test
    [if db.docstore:] holds for every InMemoryDocstore object, which
    defines neither __bool__ nor __len__. *)
Definition dedup_documents (store : VectorStore) (documents : list Document)
  : result (list Document) :=
  existing_hashes ← existing_doc_hashes (docstore store) ∅;
  select_unique doc_dedup_key existing_hashes documents.

(** The object [db]: the store that the manager holds. *)
Definition db : M VectorStore :=
  s ← get;
  match vector_store s with
  | Some vs => mret vs
  | None => raise AttributeError
  end.

(** The enrichment of one document in the loop over [unique_documents]. *)
Definition enrich (document : Document) : M Document :=
  let document := metadata_set document "type" (VStr (py "text")) in
  summary ← _summarize_text (page_content document);
  mret (metadata_set document "summary" (VStr summary)).

(** The loop over [unique_documents]: the documents are changed in place
    and the same list is then given to [add_documents]. *)
Definition enrich_all (unique_documents : list Document) : M (list Document) :=
  map_M enrich unique_documents.

(** [urls[start:start + self._batch_size]] with
    [start = batch_num * self._batch_size]. *)
Definition batch_urls (urls : list (list Z)) (batch_num : Z) : list (list Z) :=
  let start := batch_num * batch_size self in
  Py.slice urls start (start + batch_size self).

(** The body of the loop over [batch_num] in [process_urls]. *)
Definition process_batch (urls : list (list Z)) (batch_num : Z) : M unit :=
  let batch_urls := batch_urls urls batch_num in
  documents ← (emit (EvWebLoad batch_urls);; lift (web_load W batch_urls));
  store ← db;
  unique_documents ← lift (dedup_documents store documents);
  if Py.truthy unique_documents then
    unique_documents ← enrich_all unique_documents;
    FaissManager.add_documents W (faiss_index_path self) unique_documents;;
    FaissManager.save (faiss_index_path self)
  else mret tt.

(** The number of iterations of the batch loop. *)
Definition total_batches (n : Z) (batch_limit : option Z) : result Z :=
  total_batches ← Py.floordiv (n + batch_size self - 1) (batch_size self);
  mret (match batch_limit with
        | Some l => Z.min total_batches l
        | None => total_batches
        end).

(** [process_urls(batch_limit, urls_limit)] *)
Definition process_urls (batch_limit urls_limit : option Z)
  : M (option VectorStore) :=
  urls ← _read_urls_file;
  if negb (Py.truthy urls) then mret None
  else
    let urls :=
      match base_url_prefix self with
      | Some prefix =>
          if Py.truthy prefix
          then map (fun url => IngestionHelper.normalize_url W url (Some prefix)) urls
          else urls
      | None => urls
      end in
    let urls :=
      match urls_limit with
      | Some l => Py.slice urls 0 l
      | None => urls
      end in
    FaissManager.load_or_create W (faiss_index_path self);;
    total ← lift (total_batches (Z.of_nat (length urls)) batch_limit);
    for_each (Py.range total) (process_batch urls);;
    s ← get; mret (vector_store s).

(** The set comprehension that fills [existing_hashes] in [process_images]. *)
Fixpoint existing_image_hashes (docs : list Document) (acc : gset (list Z))
  : result (gset (list Z)) :=
  match docs with
  | [] => Ok acc
  | doc :: r =>
      h ← IngestionHelper.compute_image_hash doc;
      existing_image_hashes r (acc ∪ {[h]})
  end.

(** Lines 200 to 207: [existing_hashes] and [unique_images]. *)
Definition dedup_images (store : VectorStore) (images : list Document)
  : result (list Document) :=
  existing_hashes ← existing_image_hashes (docstore store) ∅;
  select_unique IngestionHelper.compute_image_hash existing_hashes images.

(** [process_images(indexed_image_documents)] *)
Definition process_images (indexed_image_documents : list Document)
  : M (option VectorStore) :=
  try_except
    (FaissManager.load_or_create W (faiss_index_path self);;
     store ← db;
     unique_images ← lift (dedup_images store indexed_image_documents);
     (if Py.truthy unique_images then
        FaissManager.add_documents W (faiss_index_path self) unique_images;;
        FaissManager.save (faiss_index_path self)
      else mret tt);;
     s ← get; mret (vector_store s))
    (fun _ => mret None).

End Processor.
End VectorStoreBatchProcessor.

(** ** preprocessing/image_preprocessing.py *)

Module ImageCaptioner.

(** [base64.b16encode(data).decode] : two upper-case digits per octet. *)
Definition b16_digit (d : Z) : Z := if d <? 10 then 48 + d else 55 + d.

Definition b16encode (data : list Z) : list Z :=
  flat_map (fun b => [b16_digit (Z.shiftr b 4); b16_digit (Z.land b 0xF)]) data.

(** [_encode_image]: the octets of the file, or the empty string when
    reading it raises. [None] stands for a file that cannot be read. *)
Definition _encode_image (image_file : option (list Z)) : list Z :=
  match image_file with
  | Some data => b16encode data
  | None => []
  end.

(** The Document that [index_image] builds, given the caption, the uuid
    and the absolute path as strings. *)
Definition index_image_document (description idx abs_path : list Z)
    (image_file : option (list Z)) : Document :=
  {| page_content := description;
     metadata :=
       <["id"%string := VStr idx]>
       (<["type"%string := VStr (py "image")]>
       (<["source_file"%string := VStr abs_path]>
       (<["encoded_image"%string := VStr (_encode_image image_file)]> ∅))) |}.

End ImageCaptioner.

(** ** Derived notions used in the statements *)

(** The value that [doc_dedup_key] computes when nothing raises. *)
Definition doc_fingerprint (doc : Document) : list Z :=
  PyStr.json_dumps
    (MD5.hexdigest (PyStr.json_dumps (VectorStoreBatchProcessor.identity_string doc))).

(** The state after further outside calls. *)
Definition traced (s : State) (evs : list Event) : State :=
  {| fs := fs s; vector_store := vector_store s; trace := trace s ++ evs |}.

(** The disk after [save_local] wrote [vs] at [path]. *)
Definition saved_at (path : string) (vs : VectorStore) (f : FileSystem) : FileSystem :=
  {| text_files := text_files f;
     index_dirs := <[path := Readable vs]> (index_dirs f);
     writable := writable f |}.

(** The store that [load_or_create] builds when no index exists. *)
Definition bootstrap_store (dummy_embedding : list Z) : VectorStore :=
  {| index_dim := length dummy_embedding; index_vectors := []; docstore := [] |}.

(** A document after the loop over [unique_documents] gave it [summary]. *)
Definition enriched_with (doc : Document) (summary : list Z) : Document :=
  metadata_set (metadata_set doc "type" (VStr (py "text"))) "summary" (VStr summary).

(** What the chat model is asked about a document. *)
Definition prompt_of (doc : Document) : list Z :=
  VectorStoreBatchProcessor.summarize_prompt (page_content doc).

(** The outcome of enriching [docs] in order, and the chat-model calls made
    on the way: the first failure ends both. *)
Fixpoint enrichment (W : World) (docs : list Document) : result (list Document) :=
  match docs with
  | [] => Ok []
  | doc :: r =>
      summary ← llm_invoke W (prompt_of doc);
      rest ← enrichment W r;
      mret (enriched_with doc summary :: rest)
  end.

Fixpoint enrichment_calls (W : World) (docs : list Document) : list Event :=
  match docs with
  | [] => []
  | doc :: r =>
      EvInvoke (prompt_of doc) ::
      match llm_invoke W (prompt_of doc) with
      | Ok _ => enrichment_calls W r
      | Raise _ => []
      end
  end.

(** The calls of one batch up to and including [add_documents]. *)
Definition batch_calls (W : World) (b : list (list Z)) (unique enriched : list Document)
  : list Event :=
  EvWebLoad b :: enrichment_calls W unique ++ [EvAddDocuments enriched].

(** The candidates whose fingerprint no record of the store has. *)
Definition not_in_store (store : VectorStore) (docs : list Document) : list Document :=
  filter (fun d => doc_fingerprint d ∉ map doc_fingerprint (docstore store)) docs.

(** The store after [add_documents] appended vectors and documents. *)
Definition extended (vs : VectorStore) (vectors : list (list Z)) (docs : list Document)
  : VectorStore :=
  {| index_dim := index_dim vs;
     index_vectors := index_vectors vs ++ vectors;
     docstore := docstore vs ++ docs |}.

(** The URL lists handed to the web loader, in order. *)
Fixpoint web_loaded (t : list Event) : list (list (list Z)) :=
  match t with
  | [] => []
  | EvWebLoad urls :: r => urls :: web_loaded r
  | _ :: r => web_loaded r
  end.

(** Every [save_local] in [t] comes right after an [add_documents] of a
    non-empty list; [inserted] tells whether the call before [t] was one. *)
Fixpoint persist_guarded (inserted : bool) (t : list Event) : bool :=
  match t with
  | [] => true
  | EvSaveLocal _ :: r => inserted && persist_guarded false r
  | EvAddDocuments docs :: r => persist_guarded (Py.truthy docs) r
  | _ :: r => persist_guarded false r
  end.

(** No [add_documents] and no [save_local] among the calls. *)
Definition store_untouched (t : list Event) : Prop :=
  ∀ ev, ev ∈ t -> match ev with
                  | EvAddDocuments _ | EvSaveLocal _ => False
                  | _ => True
                  end.

(** An image document without usable payload: the key is missing or holds
    the empty string that [_encode_image] returns on failure. *)
Definition payload_missing (doc : Document) : Prop :=
  metadata doc !! "encoded_image"%string = None
  ∨ metadata doc !! "encoded_image"%string = Some (VStr []).

(** [hashlib.md5(b'').hexdigest()] *)
Definition md5_of_empty : list Z := py "d41d8cd98f00b204e9800998ecf8427e".

(** ** Concrete inputs *)

Module Scenario.

Definition web_document (content source title : string) : Document :=
  {| page_content := py content;
     metadata := <["source"%string := VStr (py source)]>
                 (<["title"%string := VStr (py title)]> ∅) |}.

(** The same page fetched twice with different text. *)
Definition page_old : Document := web_document "old text" "https://a/1" "Issue 1".
Definition page_new : Document := web_document "new text" "https://a/1" "Issue 1".

(** Two pages whose source and title differ but concatenate alike. *)
Definition page_a_bc : Document := web_document "x" "a" "bc".
Definition page_ab_c : Document := web_document "x" "ab" "c".

(** A page with another title. *)
Definition page_other : Document := web_document "x" "https://a/1" "Issue 2".

(** What the web loader returns for one URL. *)
Definition fetched (url : list Z) : Document :=
  {| page_content := py "Text of " ++ url;
     metadata := <["source"%string := VStr url]>
                 (<["title"%string := VStr (py "The Batch")]> ∅) |}.

(** A world where the web and the embedding model always answer and the
    chat model is [llm]. *)
Definition world (llm : list Z -> result (list Z)) : World :=
  {| urljoin := fun base url => base ++ url;
     web_load := fun urls => Ok (map fetched urls);
     llm_invoke := llm;
     embed_query := fun _ => Ok [0; 0; 0];
     embed_documents := fun texts => Ok (map (fun _ => [0; 0; 0]) texts) |}.

Definition llm_ok (prompt : list Z) : result (list Z) := Ok (py "A summary.").

(** A chat model that fails on the page of https://a/2 only. *)
Definition llm_failing_on_2 (prompt : list Z) : result (list Z) :=
  if bool_decide (prompt = py "Summarize the following text:" ++ [10; 10]
                             ++ py "Text of https://a/2" ++ [10; 10] ++ py "Summary:")
  then Raise LLMError
  else Ok (py "A summary.").

Definition processor (B : Z) : Processor :=
  {| urls_file_path := "article_urls.txt";
     faiss_index_path := "faiss_index";
     batch_size := B;
     base_url_prefix := Some (py "https://www.deeplearning.ai") |}.

Definition line (url : string) : list Z := py url ++ [10].

(** A process that has not loaded a store yet, on a writable disk that
    holds the given text files and index directories. *)
Definition fresh (files : gmap string TextFile) (dirs : gmap string IndexFiles)
  : State :=
  {| fs := {| text_files := files; index_dirs := dirs; writable := true |};
     vector_store := None;
     trace := [] |}.

(** The source list of the concrete scenario of the specification. *)
Definition urls_1_1_2 : gmap string TextFile :=
  {[ "article_urls.txt"%string :=
       Lines [line "https://a/1"; line "https://a/1"; line "https://a/2"] ]}.

Definition urls_1_2_3 : gmap string TextFile :=
  {[ "article_urls.txt"%string :=
       Lines [line "https://a/1"; line "https://a/2"; line "https://a/3"] ]}.

Definition unreadable_urls : gmap string TextFile :=
  {[ "article_urls.txt"%string := NoAccess ]}.

Definition empty_urls : gmap string TextFile :=
  {[ "article_urls.txt"%string := Lines [] ]}.

Definition empty_store : VectorStore :=
  {| index_dim := 3; index_vectors := []; docstore := [] |}.

(** The state once the scenario of the specification has run, and the store
    it leaves in the manager. *)
Definition after_first_run : State :=
  snd (VectorStoreBatchProcessor.process_urls (world llm_ok) (processor 2)
         None None (fresh urls_1_1_2 ∅)).

Definition store_after_first_run : VectorStore :=
  default empty_store (vector_store after_first_run).

(** The state once [load_or_create] has bootstrapped the index. *)
Definition bootstrapped (files : gmap string TextFile) : State :=
  snd (FaissManager.load_or_create (world llm_ok) "faiss_index" (fresh files ∅)).

Definition three_urls : list (list Z) :=
  [py "https://a/1"; py "https://a/1"; py "https://a/2"].

Definition five_urls : list (list Z) :=
  [py "https://a/1"; py "https://a/2"; py "https://a/3";
   py "https://a/4"; py "https://a/5"].

(** A store that holds one text document, and an image that was read. *)
Definition store_with_text : VectorStore :=
  {| index_dim := 3; index_vectors := [[0; 0; 0]];
     docstore := [enriched_with (fetched (py "https://a/1")) (py "A summary.")] |}.

Definition good_image : Document :=
  ImageCaptioner.index_image_document (py "a robot") (py "id-3")
    (py "/data/images/3.png") (Some [0xFF; 0xD8; 0xFF]).

(** Two images whose files could not be read. *)
Definition broken_image_1 : Document :=
  ImageCaptioner.index_image_document (py "") (py "id-1") (py "/data/images/1.png") None.
Definition broken_image_2 : Document :=
  ImageCaptioner.index_image_document (py "") (py "id-2") (py "/data/images/2.png") None.

End Scenario.

(** * Further code of the repository *)

(** ** More Python built-ins *)

Module PyMore.

(** [needle in hay] for two strings. *)
Fixpoint contains (needle hay : list Z) : bool :=
  Py.startswith hay needle
  || match hay with
     | [] => false
     | _ :: r => contains needle r
     end.

(** [s.endswith(suffix)] *)
Definition endswith (s suffix : list Z) : bool :=
  Py.startswith (rev s) (rev suffix).

(** [str(i)] for an integer. *)
Definition str_of_int (i : Z) : list Z :=
  py (DecimalString.NilZero.string_of_int (Z.to_int i)).

(** [sep.join(parts)] *)
Fixpoint join (sep : list Z) (parts : list (list Z)) : list Z :=
  match parts with
  | [] => []
  | [p] => p
  | p :: r => p ++ sep ++ join sep r
  end.

(** [list(dict.fromkeys(l))]: the keys in the order of their first
    occurrence. *)
Definition dict_fromkeys (l : list (list Z)) : list (list Z) :=
  fold_left (fun keys x => if bool_decide (x ∈ keys) then keys else keys ++ [x]) l [].

(** [os.path.join(a, b)] of posixpath. *)
Definition path_join (a b : list Z) : list Z :=
  if Py.startswith b (py "/") then b
  else if negb (Py.truthy a) || endswith a (py "/") then a ++ b
  else a ++ py "/" ++ b.

(** The lines that iterating over a text file opened with the default
    [newline=None] yields for the characters [s]: carriage return, line feed
    and the pair of both end a line and are read as one line feed; [cur] is
    the line read so far. *)
Fixpoint text_lines_from (cur s : list Z) : list (list Z) :=
  match s with
  | [] => if Py.truthy cur then [cur] else []
  | c :: r =>
      if c =? 10 then (cur ++ [10]) :: text_lines_from [] r
      else if c =? 13 then
        match r with
        | c' :: r' =>
            if c' =? 10 then (cur ++ [10]) :: text_lines_from [] r'
            else (cur ++ [10]) :: text_lines_from [] r
        | [] => (cur ++ [10]) :: text_lines_from [] r
        end
      else text_lines_from (cur ++ [c]) r
  end.

Definition text_lines (s : list Z) : list (list Z) := text_lines_from [] s.

(** The [limit and len(items) >= limit] tests of the scrapers: an absent
    limit and the limit 0 never stop a loop. *)
Definition limit_reached (limit : option Z) (len : nat) : bool :=
  match limit with
  | Some l => negb (l =? 0) && (l <=? Z.of_nat len)
  | None => false
  end.
#[global] Arguments limit_reached : simpl never.

End PyMore.

(** ** Writing a text file *)

Module TextIO.

(** What [f.write] calls with [chunks] leave in a file opened for writing
    as UTF-8, and the error that ended them, if any: a chunk that cannot be
    encoded raises and the chunks before it stay written. *)
Fixpoint written (chunks : list (list Z)) : list Z * option exn :=
  match chunks with
  | [] => ([], None)
  | chunk :: r =>
      match PyStr.encode_utf8 chunk with
      | Ok _ => let '(rest, err) := written r in (chunk ++ rest, err)
      | Raise e => ([], Some e)
      end
  end.

(** [with open(path, "w", encoding="utf-8") as f: for c in chunks: f.write(c)]:
    opening fails on a disk that refuses writes; otherwise the file is
    replaced by what was written before the block ended. *)
Definition write_text_file (path : string) (chunks : list (list Z)) : M unit :=
  s ← get;
  if writable (fs s) then
    let '(content, err) := written chunks in
    set_fs {| text_files := <[path := Lines (PyMore.text_lines content)]> (text_files (fs s));
              index_dirs := index_dirs (fs s);
              writable := writable (fs s) |};;
    match err with
    | Some e => raise e
    | None => mret tt
    end
  else raise OSError.

End TextIO.

(** ** ingestion/sitemap_scraper.py *)

(** What the site answers through the two fetching methods of a scraper
    that has a logger: the entries of the sitemap index (the text of a [loc]
    element, None for an empty one) and the article URLs of one sitemap.
    With a logger these methods catch every exception of the request and of
    the parser themselves and return a list. *)
Record Sitemaps : Type := mkSitemaps {
  index_entries : list py_val;
  article_entries : py_val -> list (list Z);
}.

(** A logger object; its methods return normally. *)
Inductive Logger : Type := StdLogger.

(** A scraper object.  The constructor stores its [logger] argument
    unchecked, and the default of that argument is None. *)
Record Scraper : Type := mkScraper {
  logger : option Logger;
  site : Sitemaps;
}.

Module TheBatchSitemapScraper.
Section Scraper.

Variable self : Scraper.

(** [self.logger.info(...)], [self.logger.debug(...)] and
    [self.logger.error(...)]: AttributeError on a scraper whose logger is
    None. *)
Definition log : M unit :=
  match logger self with
  | Some _ => mret tt
  | None => raise AttributeError
  end.

(** [fetch_sitemap_index]: the try block starts with a call of the logger
    and every handler calls the logger before it returns the empty list. *)
Definition fetch_sitemap_index : M (list py_val) :=
  try_except
    (log;; mret (index_entries (site self)))
    (fun _ => log;; mret []).

(** [fetch_article_urls_from_sitemap(sitemap_url)], built the same way. *)
Definition fetch_article_urls_from_sitemap (sitemap_url : py_val) : M (list (list Z)) :=
  try_except
    (log;; mret (article_entries (site self) sitemap_url))
    (fun _ => log;; mret []).

(** The loop of [get_articles_from_sitemap_index] over the sitemaps. *)
Fixpoint articles_loop (sitemap_urls : list py_val) (all_article_urls : list (list Z))
  : M (list (list Z)) :=
  match sitemap_urls with
  | [] => mret all_article_urls
  | sitemap_url :: r =>
      log;;
      article_urls ← fetch_article_urls_from_sitemap sitemap_url;
      let all_article_urls := all_article_urls ++ article_urls in
      log;;
      articles_loop r all_article_urls
  end.

(** [get_articles_from_sitemap_index] *)
Definition get_articles_from_sitemap_index : M (list (list Z)) :=
  try_except
    (sitemap_urls ← fetch_sitemap_index;
     log;;
     all_article_urls ← articles_loop sitemap_urls [];
     let unique_urls := PyMore.dict_fromkeys all_article_urls in
     log;;
     log;;
     mret unique_urls)
    (fun _ => log;; mret []).

(** The loop of [save_all_article_urls] that fills [filtered_urls].  Its one
    call of the logger, when the limit is reached, comes after the call
    that precedes the loop has returned. *)
Fixpoint filter_loop (limit : option Z) (all_article_urls filtered_urls : list (list Z))
  : list (list Z) :=
  match all_article_urls with
  | [] => filtered_urls
  | url :: r =>
      if PyMore.contains (py "/tag/") url then filter_loop limit r filtered_urls
      else if PyMore.contains (py "/page/") url then filter_loop limit r filtered_urls
      else if PyMore.contains (py "/category/") url then filter_loop limit r filtered_urls
      else if PyMore.contains (py "/author/") url then filter_loop limit r filtered_urls
      else if negb (PyMore.contains (py "/the-batch/") url)
        then filter_loop limit r filtered_urls
      else
        let filtered_urls := filtered_urls ++ [url] in
        if PyMore.limit_reached limit (length filtered_urls) then filtered_urls
        else filter_loop limit r filtered_urls
  end.

(** [save_all_article_urls(output_file, limit)]: the list is fetched and
    filtered outside the try block, which holds the writing only.  The
    second [log] stands for the calls of the logger between the loop and
    the try block. *)
Definition save_all_article_urls (output_file : string) (limit : option Z)
  : M (list (list Z)) :=
  all_article_urls ← get_articles_from_sitemap_index;
  log;;
  let filtered_urls := filter_loop limit all_article_urls [] in
  log;;
  try_except
    (TextIO.write_text_file output_file (map (fun url => url ++ [10]) filtered_urls);;
     log;;
     mret filtered_urls)
    (fun _ => log;; mret []).

End Scraper.
End TheBatchSitemapScraper.

(** ** preprocessing/image_preprocessing.py, the directory walk *)

(** What the operating system and the caption model answer: the triples of
    [os.walk] (directory path and file names), [str.lower], the octets of a
    file (None when it cannot be read), [os.path.abspath], the caption of an
    image (empty when captioning fails) and the uuid4 drawn at the n-th
    call. *)
Record ImageWorld : Type := mkImageWorld {
  walk : list (list Z * list (list Z));
  lower : list Z -> list Z;
  read_binary : list Z -> option (list Z);
  abspath : list Z -> list Z;
  caption_image : list Z -> list Z;
  uuid4 : nat -> list Z;
}.

Module ImageDirectory.
Section Directory.

Variable os : ImageWorld.

(** [filename.lower().endswith((".jpg", ".jpeg", ".png"))] *)
Definition is_image_name (filename : list Z) : bool :=
  let name := lower os filename in
  PyMore.endswith name (py ".jpg") || PyMore.endswith name (py ".jpeg")
  || PyMore.endswith name (py ".png").

(** The loop over [filenames] of one directory. *)
Fixpoint scan_files (limit : option Z) (dirpath : list Z) (filenames : list (list Z))
    (image_paths : list (list Z)) : list (list Z) :=
  match filenames with
  | [] => image_paths
  | filename :: r =>
      if is_image_name filename then
        let image_paths := image_paths ++ [PyMore.path_join dirpath filename] in
        if PyMore.limit_reached limit (length image_paths) then image_paths
        else scan_files limit dirpath r image_paths
      else scan_files limit dirpath r image_paths
  end.

(** The loop over the triples of [os.walk]. *)
Fixpoint scan_dirs (limit : option Z) (triples : list (list Z * list (list Z)))
    (image_paths : list (list Z)) : list (list Z) :=
  match triples with
  | [] => image_paths
  | (dirpath, filenames) :: r =>
      let image_paths := scan_files limit dirpath filenames image_paths in
      if PyMore.limit_reached limit (length image_paths) then image_paths
      else scan_dirs limit r image_paths
  end.

(** [index_image(image_path)], at its n-th call: the document it wraps. *)
Definition index_image (n : nat) (image_path : list Z) : Document :=
  ImageCaptioner.index_image_document (caption_image os image_path) (uuid4 os n)
    (abspath os image_path) (read_binary os image_path).

(** The documents that [index_images_in_directory(root_folder, limit)]
    returns, [walk os] being the walk of the root folder. *)
Definition index_images_in_directory (limit : option Z) : list Document :=
  let image_paths := scan_dirs limit (walk os) [] in
  imap index_image image_paths.

End Directory.
End ImageDirectory.

(** ** frontend/app.py *)

Module Frontend.

(** Why [base64.b16decode] refuses its argument. *)
Inductive b16_error : Type :=
| NotAString          (* TypeError: the argument is None *)
| NonAscii            (* ValueError: the string has a non-ASCII character *)
| NonBase16Digit      (* binascii.Error: a character outside 0-9A-F *)
| OddLength.          (* binascii.Error: an odd number of digits *)

Definition is_b16_digit (c : Z) : bool :=
  ((48 <=? c) && (c <=? 57)) || ((65 <=? c) && (c <=? 70)).

Definition b16_value (c : Z) : Z := if c <=? 57 then c - 48 else c - 55.

(** [binascii.unhexlify] on upper-case digits. *)
Fixpoint unhexlify (s : list Z) : option (list Z) :=
  match s with
  | [] => Some []
  | h :: r =>
      match r with
      | [] => None
      | l :: r' =>
          match unhexlify r' with
          | Some rest => Some (16 * b16_value h + b16_value l :: rest)
          | None => None
          end
      end
  end.

(** [base64.b16decode(s)] for a string, with casefold left False. *)
Definition b16decode (s : list Z) : b16_error + list Z :=
  if negb (forallb (fun c => (0 <=? c) && (c <? 128)) s) then inl NonAscii
  else if negb (forallb is_b16_digit s) then inl NonBase16Digit
  else match unhexlify s with
       | Some data => inr data
       | None => inl OddLength
       end.

(** The bytes that the result page decodes for an image document:
    [base64.b16decode(doc.metadata.get(key, default))] with the empty string
    as default. *)
Definition image_bytes (doc : Document) : b16_error + list Z :=
  match default (VStr []) (metadata doc !! "encoded_image"%string) with
  | VStr s => b16decode s
  | VNone => inl NotAString
  end.

(** config.TOKEN_LIMIT *)
Definition TOKEN_LIMIT : Z := 12000.

Section Context.

(** [count_tokens], the length of the tiktoken encoding of a text. *)
Variable count_tokens : list Z -> Z.

(** The text of the i-th document of the context. *)
Definition doc_text (i : Z) (doc : Document) : list Z :=
  py "Article " ++ PyMore.str_of_int i ++ py ": " ++ page_content doc.

(** The loop of [build_context] over [enumerate(docs, start=i)]. *)
Fixpoint context_loop (docs : list Document) (i : Z)
    (context_parts : list (list Z)) (total_tokens : Z) : list (list Z) :=
  match docs with
  | [] => context_parts
  | doc :: r =>
      let doc_text := doc_text i doc in
      let doc_tokens := count_tokens doc_text in
      if total_tokens + doc_tokens >? TOKEN_LIMIT then context_parts
      else context_loop r (i + 1) (context_parts ++ [doc_text]) (total_tokens + doc_tokens)
  end.

(** [build_context(docs)] *)
Definition build_context (docs : list Document) : list Z :=
  PyMore.join [10; 10] (context_loop docs 1 [] 0).

End Context.

End Frontend.

(** ** Vocabulary for the statements about this code *)

(** The article URLs that the sitemaps of a site list, each once, in the
    order of their first listing. *)
Definition listed_articles (web : Sitemaps) : list (list Z) :=
  PyMore.dict_fromkeys (flat_map (article_entries web) (index_entries web)).

(** The URLs that [save_all_article_urls] keeps: an article of The Batch
    that is no tag, page, category or author listing. *)
Definition is_article (url : list Z) : bool :=
  negb (PyMore.contains (py "/tag/") url)
  && negb (PyMore.contains (py "/page/") url)
  && negb (PyMore.contains (py "/category/") url)
  && negb (PyMore.contains (py "/author/") url)
  && PyMore.contains (py "/the-batch/") url.

(** The first items that a loop with a limit keeps: all of them without a
    limit or with limit 0, otherwise [limit] of them and at least one. *)
Definition limited {A : Type} (limit : option Z) (l : list A) : list A :=
  match limit with
  | None => l
  | Some n => if n =? 0 then l else take (Z.to_nat (Z.max n 1)) l
  end.

(** The image paths of one walked directory, and of a whole walk. *)
Definition images_of (os : ImageWorld) (triple : list Z * list (list Z))
  : list (list Z) :=
  map (PyMore.path_join (fst triple))
    (filter (fun name => ImageDirectory.is_image_name os name = true) (snd triple)).

Definition all_images (os : ImageWorld) : list (list Z) :=
  flat_map (images_of os) (walk os).

(** The texts of the documents of a context, numbered from [i]. *)
Fixpoint article_texts (i : Z) (docs : list Document) : list (list Z) :=
  match docs with
  | [] => []
  | doc :: r => Frontend.doc_text i doc :: article_texts (i + 1) r
  end.

(** The sum of the token counts of some texts. *)
Definition tokens_of (count_tokens : list Z -> Z) (texts : list (list Z)) : Z :=
  fold_right Z.add 0 (map count_tokens texts).

(** A string with something in it and no white space at either end. *)
Definition trimmed (u : list Z) : Prop :=
  u <> []
  ∧ (∀ c r, u = c :: r -> Py.isspace c = false)
  ∧ (∀ c r, u = r ++ [c] -> Py.isspace c = false).

(** An octet of a file. *)
Definition octet (b : Z) : Prop := 0 <= b < 256.

(** A URL that a text file keeps as it is: text of scalar values on one
    line, with no white space at its ends. *)
Definition clean_url (u : list Z) : Prop :=
  trimmed u ∧ ((10 ∉ u) ∧ (13 ∉ u)) ∧ Forall PyStr.is_scalar u.

(** A line of a text file: no line feed and no carriage return in it. *)
Definition one_line (u : list Z) : Prop := (10 ∉ u) ∧ (13 ∉ u).

(** ** Further derived notions *)

(** What [_read_urls_file] returns for a file whose lines are [ls]. *)
Definition stripped_lines (ls : list (list Z)) : list (list Z) :=
  map Py.strip (filter (fun line => Py.truthy (Py.strip line) = true) ls).

(** The URL list that the batch loop of [process_urls] walks, for a list
    file whose lines are [ls]. *)
Definition source_urls (W : World) (self : Processor) (ls : list (list Z))
    (urls_limit : option Z) : list (list Z) :=
  let urls := stripped_lines ls in
  let urls :=
    match base_url_prefix self with
    | Some prefix =>
        if Py.truthy prefix
        then map (fun url => IngestionHelper.normalize_url W url (Some prefix)) urls
        else urls
    | None => urls
    end in
  match urls_limit with
  | Some l => Py.slice urls 0 l
  | None => urls
  end.

(** The store that the manager holds is the one at [path] on disk. *)
Definition synced (path : string) (s : State) : Prop :=
  ∃ vs, vector_store s = Some vs ∧ index_dirs (fs s) !! path = Some (Readable vs).

(** The web loads of the batches [ks], one call each. *)
Definition web_loads (self : Processor) (urls : list (list Z)) (ks : list Z)
  : list Event :=
  map (fun k => EvWebLoad (VectorStoreBatchProcessor.batch_urls self urls k)) ks.

(** ** Further concrete inputs *)

Module MoreScenario.

(** A world whose embedding model is down. *)
Definition offline_world : World :=
  {| urljoin := fun base url => base ++ url;
     web_load := fun urls => Ok (map Scenario.fetched urls);
     llm_invoke := Scenario.llm_ok;
     embed_query := fun _ => Raise EmbeddingError;
     embed_documents := fun _ => Raise EmbeddingError |}.

(** A process without a store on a disk that refuses writes. *)
Definition read_only (files : gmap string TextFile) (dirs : gmap string IndexFiles)
  : State :=
  {| fs := {| text_files := files; index_dirs := dirs; writable := false |};
     vector_store := None;
     trace := [] |}.

(** A disk that holds an index with one text document. *)
Definition disk_with_text : gmap string IndexFiles :=
  {[ "faiss_index"%string := Readable Scenario.store_with_text ]}.

(** The state once [process_urls] has run over three URLs in batches of
    two under a batch limit of one, and the store it leaves in the manager. *)
Definition after_limited_run : State :=
  snd (VectorStoreBatchProcessor.process_urls (Scenario.world Scenario.llm_ok)
         (Scenario.processor 2) (Some 1) None (Scenario.fresh Scenario.urls_1_2_3 ∅)).

Definition store_after_limited_run : VectorStore :=
  default Scenario.empty_store (vector_store after_limited_run).

End MoreScenario.

Module ImageScenario.

(** [str.lower] on ASCII text. *)
Definition ascii_lower (s : list Z) : list Z :=
  map (fun c => if (65 <=? c) && (c <=? 90) then c + 32 else c) s.

(** A folder with three images in two directories, one of them unreadable. *)
Definition folder : ImageWorld :=
  {| walk := [(py "/data/images", [py "a.PNG"; py "notes.txt"; py "b.jpg"]);
              (py "/data/images/sub", [py "c.jpeg"])];
     lower := ascii_lower;
     read_binary := fun path =>
       if bool_decide (path = py "/data/images/b.jpg") then None
       else Some [0xFF; 0xD8; 0xFF];
     abspath := fun path => path;
     caption_image := fun _ => py "a robot";
     uuid4 := fun n => py "id-" ++ PyMore.str_of_int (Z.of_nat n) |}.

(** A sitemap index with two sitemaps that share an article. *)
Definition sitemaps : Sitemaps :=
  {| index_entries := [VStr (py "https://x/sitemap-0.xml"); VNone;
                       VStr (py "https://x/sitemap-1.xml")];
     article_entries := fun sitemap_url =>
       match sitemap_url with
       | VStr u =>
           if bool_decide (u = py "https://x/sitemap-0.xml")
           then [py "https://x/the-batch/issue-1/"; py "https://x/the-batch/tag/ai/"]
           else [py "https://x/the-batch/issue-1/"; py "https://x/the-batch/issue-2/"]
       | VNone => []
       end |}.

(** A scraper of that site as the executor builds it, with a logger, and
    one built with the default of the constructor. *)
Definition scraper : Scraper := {| logger := Some StdLogger; site := sitemaps |}.

Definition bare_scraper : Scraper := {| logger := None; site := sitemaps |}.

(** A count of tokens: the number of characters. *)
Definition count_chars (text : list Z) : Z := Z.of_nat (length text).

Definition long_document : Document :=
  {| page_content := repeat 97 (Z.to_nat 11990); metadata := ∅ |}.

End ImageScenario.

(** * Properties of the runtime layer *)

(** The embedding of md5 and of json.dumps agrees with CPython on test
    vectors: the RFC 1321 digests of the empty string and of abc, a message
    of two blocks, and a string that exercises every kind of escape. *)
Example md5_empty : MD5.hexdigest [] = py "d41d8cd98f00b204e9800998ecf8427e".
Proof. vm_compute. reflexivity. Qed.

Example md5_abc : MD5.hexdigest (py "abc") = py "900150983cd24fb0d6963f7d28e17f72".
Proof. vm_compute. reflexivity. Qed.

Example md5_two_blocks :
  MD5.hexdigest (repeat 97 70) = py "0f5c6c4e740bfcc08c3c26ccb2673d46".
Proof. vm_compute. reflexivity. Qed.

Example encode_utf8_sample :
  PyStr.encode_utf8 [0x41; 0xe9; 0x20ac; 0x1F600]
  = Ok [0x41; 0xc3; 0xa9; 0xe2; 0x82; 0xac; 0xf0; 0x9f; 0x98; 0x80].
Proof. vm_compute. reflexivity. Qed.

Example encode_utf8_surrogate : PyStr.encode_utf8 [0x41; 0xd800] = Raise UnicodeEncodeError.
Proof. vm_compute. reflexivity. Qed.

Example slice_samples :
  Py.slice [1; 2; 3; 4; 5] 2 4 = [3; 4]
  ∧ Py.slice [1; 2; 3; 4; 5] 4 6 = [5]
  ∧ Py.slice [1; 2; 3; 4; 5] 6 8 = []
  ∧ Py.slice [1; 2; 3; 4; 5] 0 (-1) = [1; 2; 3; 4]
  ∧ Py.slice [1; 2; 3; 4; 5] (-2) 9 = [4; 5].
Proof. repeat split. Qed.

Example strip_sample : Py.strip (py "  https://a/1 " ++ [13; 10]) = py "https://a/1".
Proof. vm_compute. reflexivity. Qed.

Example json_dumps_sample :
  PyStr.json_dumps [97; 34; 98; 92; 99; 10; 1; 0xe9; 0x1F600]
  = [34] ++ py "a\" ++ [34] ++ py "b\\c\n\u0001\u00e9\ud83d\ude00" ++ [34].
Proof. vm_compute. reflexivity. Qed.


Module PyStrFacts.
Import PyStr.

Lemma land_15 x : Z.land x 0xF = x mod 16.
Proof. change 0xF with (Z.ones 4). rewrite Z.land_ones by lia. reflexivity. Qed.

Lemma land_1023 x : Z.land x 0x3ff = x mod 1024.
Proof. change 0x3ff with (Z.ones 10). rewrite Z.land_ones by lia. reflexivity. Qed.

Lemma shiftr_div x k : 0 <= k -> Z.shiftr x k = x / 2 ^ k.
Proof. apply Z.shiftr_div_pow2. Qed.

Lemma lor_high_low a y :
  Z.land a 0x3ff = 0 -> 0 <= y < 1024 -> Z.lor a y = a + y.
Proof.
  intros Ha Hy.
  assert (Hl : Z.land a y = 0).
  { rewrite <- (Z.mod_small y 1024) by lia.
    rewrite <- land_1023, (Z.land_comm y), Z.land_assoc, Ha. apply Z.land_0_l. }
  rewrite <- Z.lxor_lor by exact Hl.
  symmetry. apply Z.add_nocarry_lxor. exact Hl.
Qed.

Lemma hex_digit_range d : 0 <= d < 16 -> 48 <= hex_digit d < 103.
Proof. unfold hex_digit. intros H. destruct (d <? 10) eqn:E; lia. Qed.

Lemma hex_digit_inj a b :
  0 <= a < 16 -> 0 <= b < 16 -> hex_digit a = hex_digit b -> a = b.
Proof.
  unfold hex_digit. intros Ha Hb.
  destruct (a <? 10) eqn:Ea, (b <? 10) eqn:Eb; lia.
Qed.

Lemma hex4_digits n :
  hex4 n = [hex_digit ((n / 4096) mod 16); hex_digit ((n / 256) mod 16);
            hex_digit ((n / 16) mod 16); hex_digit (n mod 16)].
Proof.
  unfold hex4. rewrite !land_15, !shiftr_div by lia. reflexivity.
Qed.

(** Four hexadecimal digits determine the low sixteen bits. *)
Lemma hex4_inj n m :
  0 <= n < 65536 -> 0 <= m < 65536 -> hex4 n = hex4 m -> n = m.
Proof.
  intros Hn Hm. rewrite !hex4_digits. intros H.
  injection H as H3 H2 H1 H0.
  apply hex_digit_inj in H3; [| apply Z.mod_pos_bound; lia ..].
  apply hex_digit_inj in H2; [| apply Z.mod_pos_bound; lia ..].
  apply hex_digit_inj in H1; [| apply Z.mod_pos_bound; lia ..].
  apply hex_digit_inj in H0; [| apply Z.mod_pos_bound; lia ..].
  Z.div_mod_to_equations. lia.
Qed.

Lemma hex4_ascii n x : x ∈ hex4 n -> 0 <= x < 128.
Proof.
  rewrite hex4_digits. intros H.
  assert (forall d, 0 <= d < 16 -> 0 <= hex_digit d < 128) as Hd.
  { intros d Hd. pose proof (hex_digit_range d Hd). lia. }
  repeat (apply elem_of_cons in H as [-> | H];
          [apply Hd, Z.mod_pos_bound; lia |]).
  inversion H.
Qed.

End PyStrFacts.

Module JsonFacts.
Import PyStr PyStrFacts.
#[local] Arguments hex4 : simpl never.

Lemma escape_char_form c : is_scalar c -> escape_form c (escape_char c).
Proof.
  intros Hc. unfold escape_char.
  destruct (needs_escape c) eqn:En.
  2: { apply form_plain. intros ->. done. }
  destruct (escape_dct c) as [e |] eqn:Ed.
  { unfold escape_dct in Ed.
    repeat match type of Ed with
           | (if (c =? ?k) then _ else _) = _ =>
               destruct (Z.eqb_spec c k) as [-> | ?]
           end; simplify_eq; by apply form_short. }
  assert (c <> 92 /\ c <> 34) as [N92 N34].
  { split; intros ->; done. }
  assert (c < 32 \/ 126 < c) as Hout.
  { unfold needs_escape in En.
    destruct (Z.eqb_spec c 92), (Z.eqb_spec c 34); try done.
    destruct (Z.leb_spec 32 c), (Z.leb_spec c 126); try done; lia. }
  clear En Ed. unfold is_scalar in Hc.
  destruct (Z.ltb_spec c 0x10000).
  - apply form_u; lia.
  - rewrite !land_1023, shiftr_div by lia.
    rewrite !lor_high_low by (try reflexivity; apply Z.mod_pos_bound; lia).
    apply form_pair; try (apply Z.mod_pos_bound; lia).
    Z.div_mod_to_equations. lia.
Qed.

Ltac hex4_eq a b :=
  let E := fresh "E" in
  assert (hex4 a = hex4 b) as E by (unfold hex4; congruence);
  apply hex4_inj in E; [| lia | lia].

(** The escapes of scalar values form a prefix code. *)
Lemma escape_form_prefix c1 c2 e1 e2 r1 r2 :
  escape_form c1 e1 -> escape_form c2 e2 ->
  e1 ++ r1 = e2 ++ r2 -> c1 = c2 /\ r1 = r2.
Proof.
  intros F1 F2 E.
  destruct F1 as [N1 | x1 Nx1 I1 | R1 S1 | hi1 lo1 Rh1 Rl1 I1];
    destruct F2 as [N2 | x2 Nx2 I2 | R2 S2 | hi2 lo2 Rh2 Rl2 I2];
    rewrite <- ?app_assoc in E; simpl in E; simplify_eq; try done.
  - hex4_eq c1 c2. done.
  - exfalso. hex4_eq c1 (0xd800 + hi2). lia.
  - exfalso. hex4_eq (0xd800 + hi1) c2. lia.
  - hex4_eq (0xd800 + hi1) (0xd800 + hi2). hex4_eq (0xdc00 + lo1) (0xdc00 + lo2).
    split; [lia | done].
Qed.

Lemma escape_char_nonempty c : escape_char c <> [].
Proof.
  unfold escape_char. destruct (needs_escape c); [| done].
  unfold escape_dct.
  repeat match goal with |- context [if ?b then _ else _] => destruct b end; done.
Qed.

(** [escape] is injective on strings of scalar values. *)
Lemma escape_inj s1 : ∀ s2,
  Forall is_scalar s1 -> Forall is_scalar s2 ->
  escape s1 = escape s2 -> s1 = s2.
Proof.
  induction s1 as [| c1 s1 IH]; intros [| c2 s2] H1 H2 E; simpl in E.
  - done.
  - symmetry in E. apply app_eq_nil in E as [E _].
    by apply escape_char_nonempty in E.
  - apply app_eq_nil in E as [E _]. by apply escape_char_nonempty in E.
  - apply Forall_cons in H1 as [Hc1 H1]. apply Forall_cons in H2 as [Hc2 H2].
    destruct (escape_form_prefix c1 c2 _ _ _ _
                (escape_char_form c1 Hc1) (escape_char_form c2 Hc2) E)
      as [-> E'].
    f_equal. by apply IH.
Qed.

Lemma json_dumps_inj s1 s2 :
  Forall is_scalar s1 -> Forall is_scalar s2 ->
  json_dumps s1 = json_dumps s2 -> s1 = s2.
Proof.
  unfold json_dumps. intros H1 H2 E. injection E as E.
  apply app_inv_tail in E. by apply escape_inj.
Qed.

(** Without the restriction to scalar values [json.dumps] is not
    injective: a surrogate pair and the code point it encodes escape to
    the same text. *)
Example json_dumps_surrogates :
  json_dumps [0xD83D; 0xDE00] = json_dumps [0x1F600].
Proof. reflexivity. Qed.

Lemma escape_char_ascii c x : x ∈ escape_char c -> 0 <= x < 128.
Proof.
  unfold escape_char.
  destruct (needs_escape c) eqn:En.
  - destruct (escape_dct c) as [e |] eqn:Ed.
    + unfold escape_dct in Ed.
      repeat match type of Ed with
             | (if ?b then _ else _) = _ => destruct b
             end; simplify_eq;
        intros H; repeat (apply elem_of_cons in H as [-> | H]; [lia |]);
        inversion H.
    + destruct (c <? 65536).
      * intros H. apply elem_of_cons in H as [-> | H]; [lia |].
        apply elem_of_cons in H as [-> | H]; [lia |].
        by apply hex4_ascii in H.
      * intros H. apply elem_of_app in H as [H | H];
          (apply elem_of_cons in H as [-> | H]; [lia |];
           apply elem_of_cons in H as [-> | H]; [lia |];
           by apply hex4_ascii in H).
  - intros H. apply list_elem_of_singleton in H as ->.
    unfold needs_escape in En.
    destruct (Z.leb_spec 32 c), (Z.leb_spec c 126);
      rewrite ?orb_true_r in En; simpl in En; try done; lia.
Qed.

Lemma json_dumps_ascii s : Forall (fun x => 0 <= x < 128) (json_dumps s).
Proof.
  unfold json_dumps, escape. apply Forall_cons. split; [lia |].
  apply Forall_app. split; [| apply Forall_singleton; lia].
  apply Forall_forall. intros x Hx. apply list_elem_of_In in Hx.
  apply in_flat_map in Hx as (c & _ & Hx).
  apply list_elem_of_In in Hx. by apply escape_char_ascii in Hx.
Qed.

(** Encoding pure ASCII text cannot fail and changes nothing. *)
Lemma encode_utf8_ascii s :
  Forall (fun x => 0 <= x < 128) s -> encode_utf8 s = Ok s.
Proof.
  induction 1 as [| c s Hc _ IH]; [done |].
  simpl. unfold utf8_char.
  destruct (Z.ltb_spec c 128); [| lia]. by rewrite IH.
Qed.

Lemma encode_json_dumps s : encode_utf8 (json_dumps s) = Ok (json_dumps s).
Proof. apply encode_utf8_ascii, json_dumps_ascii. Qed.

End JsonFacts.

(** * Properties of helpers/ingestion.py *)

Module IngestionFacts.
Import PyStr JsonFacts IngestionHelper VectorStoreBatchProcessor.

Lemma hash_input_ok s : hash_input s = Ok (json_dumps s).
Proof. apply encode_json_dumps. Qed.

(** [compute_doc_hash] never raises on a string. *)
Lemma compute_doc_hash_ok s :
  compute_doc_hash s = Ok (MD5.hexdigest (json_dumps s)).
Proof. unfold compute_doc_hash. by rewrite hash_input_ok. Qed.

Lemma doc_dedup_key_ok doc : doc_dedup_key doc = Ok (doc_fingerprint doc).
Proof.
  unfold doc_dedup_key. rewrite compute_doc_hash_ok. simpl.
  apply encode_json_dumps.
Qed.

Lemma identity_string_eq d1 d2 :
  metadata_get d1 "source" = metadata_get d2 "source" ->
  metadata_get d1 "title" = metadata_get d2 "title" ->
  identity_string d1 = identity_string d2.
Proof. unfold identity_string. by intros -> ->. Qed.

End IngestionFacts.

(** C5. The document fingerprint is a function of the source and title
    metadata alone: two documents with equal source and equal title have the
    same md5 hexdigest and the same dedup key, whatever their page content,
    and both are computed without raising. *)
Theorem doc_fingerprint_depends_on_source_and_title (d1 d2 : Document) :
  metadata_get d1 "source" = metadata_get d2 "source" ->
  metadata_get d1 "title" = metadata_get d2 "title" ->
  ∃ h k,
    IngestionHelper.compute_doc_hash (VectorStoreBatchProcessor.identity_string d1) = Ok h ∧
    IngestionHelper.compute_doc_hash (VectorStoreBatchProcessor.identity_string d2) = Ok h ∧
    VectorStoreBatchProcessor.doc_dedup_key d1 = Ok k ∧
    VectorStoreBatchProcessor.doc_dedup_key d2 = Ok k.
Proof.
  intros Hs Ht.
  pose proof (IngestionFacts.identity_string_eq d1 d2 Hs Ht) as E.
  exists (MD5.hexdigest (PyStr.json_dumps (VectorStoreBatchProcessor.identity_string d1))),
         (doc_fingerprint d1).
  rewrite !IngestionFacts.doc_dedup_key_ok, !IngestionFacts.compute_doc_hash_ok.
  unfold doc_fingerprint. rewrite E. done.
Qed.

Lemma doc_fingerprint_depends_on_source_and_title_witness :
  page_content Scenario.page_old <> page_content Scenario.page_new ∧
  ∃ h k,
    IngestionHelper.compute_doc_hash
      (VectorStoreBatchProcessor.identity_string Scenario.page_old) = Ok h ∧
    IngestionHelper.compute_doc_hash
      (VectorStoreBatchProcessor.identity_string Scenario.page_new) = Ok h ∧
    VectorStoreBatchProcessor.doc_dedup_key Scenario.page_old = Ok k ∧
    VectorStoreBatchProcessor.doc_dedup_key Scenario.page_new = Ok k.
Proof.
  split; [vm_compute; discriminate |].
  apply (doc_fingerprint_depends_on_source_and_title Scenario.page_old Scenario.page_new);
    reflexivity.
Defined.

(** C6, as stated, fails: the two fields are concatenated with nothing
    between them, so the pairs (a, bc) and (ab, c) reach md5 as the same
    bytes. *)
Lemma hash_input_separator_counterexample :
  (metadata_get Scenario.page_a_bc "source", metadata_get Scenario.page_a_bc "title")
    <> (metadata_get Scenario.page_ab_c "source", metadata_get Scenario.page_ab_c "title")
  ∧ VectorStoreBatchProcessor.doc_hash_input Scenario.page_a_bc
    = VectorStoreBatchProcessor.doc_hash_input Scenario.page_ab_c.
Proof. split; [vm_compute; discriminate | vm_compute; reflexivity]. Qed.

(** C6, amended. The bytes fed to md5 are an injective encoding of the
    concatenation [str(source) + str(title)]: two documents whose
    concatenations differ (as strings of Unicode scalar values) are hashed
    from different bytes, and building those bytes never raises. *)
Theorem hash_input_injective_on_identity_string (d1 d2 : Document) :
  Forall PyStr.is_scalar (VectorStoreBatchProcessor.identity_string d1) ->
  Forall PyStr.is_scalar (VectorStoreBatchProcessor.identity_string d2) ->
  VectorStoreBatchProcessor.identity_string d1
    <> VectorStoreBatchProcessor.identity_string d2 ->
  ∃ b1 b2,
    VectorStoreBatchProcessor.doc_hash_input d1 = Ok b1 ∧
    VectorStoreBatchProcessor.doc_hash_input d2 = Ok b2 ∧
    b1 <> b2.
Proof.
  intros H1 H2 Hne.
  exists (PyStr.json_dumps (VectorStoreBatchProcessor.identity_string d1)),
         (PyStr.json_dumps (VectorStoreBatchProcessor.identity_string d2)).
  unfold VectorStoreBatchProcessor.doc_hash_input.
  rewrite !IngestionFacts.hash_input_ok. repeat split.
  intros E. apply Hne. by apply JsonFacts.json_dumps_inj.
Qed.

Lemma hash_input_injective_on_identity_string_witness :
  ∃ b1 b2,
    VectorStoreBatchProcessor.doc_hash_input Scenario.page_old = Ok b1 ∧
    VectorStoreBatchProcessor.doc_hash_input Scenario.page_other = Ok b2 ∧
    b1 <> b2.
Proof.
  apply (hash_input_injective_on_identity_string Scenario.page_old Scenario.page_other).
  - let l := eval vm_compute in (VectorStoreBatchProcessor.identity_string Scenario.page_old) in
    change (Forall PyStr.is_scalar l).
    repeat (constructor; [left; lia |]). constructor.
  - let l := eval vm_compute in (VectorStoreBatchProcessor.identity_string Scenario.page_other) in
    change (Forall PyStr.is_scalar l).
    repeat (constructor; [left; lia |]). constructor.
  - vm_compute. discriminate.
Defined.

(** * Properties of helpers/vectorstore_manager.py *)

(** C9. [save] on a manager whose [vector_store] is still None returns
    normally and changes nothing: the file system, the manager and the list
    of outside calls are what they were. *)
Theorem save_without_store_is_noop (index_path : string) (s : State) :
  vector_store s = None ->
  FaissManager.save index_path s = (Ok tt, s).
Proof.
  intros H. unfold FaissManager.save, mbind, M_bind, get. by rewrite H.
Qed.

Lemma save_without_store_is_noop_witness :
  FaissManager.save "faiss_index" (Scenario.fresh ∅ ∅) = (Ok tt, Scenario.fresh ∅ ∅).
Proof. apply (save_without_store_is_noop "faiss_index" (Scenario.fresh ∅ ∅)). reflexivity. Defined.


(** C3. [load_or_create]: an index that exists and is readable is loaded
    into the manager; one that exists but cannot be read makes the single
    [load_local] call fail and the error reaches the caller, with the manager
    and the disk as they were; when none exists, the probe embedding of
    [hello world] gives the dimension of a new store without documents, which
    is written to the index path at once, before any [add_documents]. *)
Theorem load_or_create_loads_or_bootstraps (W : World) (path : string) (s : State) :
  (∀ vs, index_dirs (fs s) !! path = Some (Readable vs) ->
     FaissManager.load_or_create W path s
     = (Ok (Some vs),
        {| fs := fs s; vector_store := Some vs;
           trace := trace s ++ [EvLoadLocal path] |}))
  ∧ (index_dirs (fs s) !! path = Some Unreadable ->
     FaissManager.load_or_create W path s
     = (Raise LoadError, traced s [EvLoadLocal path]))
  ∧ (∀ dummy, index_dirs (fs s) !! path = None ->
     embed_query W (py "hello world") = Ok dummy ->
     writable (fs s) = true ->
     FaissManager.load_or_create W path s
     = (Ok (Some (bootstrap_store dummy)),
        {| fs := saved_at path (bootstrap_store dummy) (fs s);
           vector_store := Some (bootstrap_store dummy);
           trace := trace s ++ [EvEmbedQuery (py "hello world"); EvSaveLocal path] |})).
Proof.
  unfold FaissManager.load_or_create, FaissManager.path_exists,
    FaissManager.load_local, FaissManager.save, FaissManager.save_local,
    try_except, mbind, M_bind, mret, M_ret, get, emit, lift, raise,
    set_vector_store, set_fs, traced, saved_at.
  repeat split.
  - intros vs H. repeat (progress (simpl; rewrite ?H)). reflexivity.
  - intros H. repeat (progress (simpl; rewrite ?H)). reflexivity.
  - intros dummy H He Hw. repeat (progress (simpl; rewrite ?H, ?He, ?Hw)).
    rewrite <- app_assoc. reflexivity.
Qed.

Lemma load_or_create_loads_or_bootstraps_witness :
  FaissManager.load_or_create (Scenario.world Scenario.llm_ok) "faiss_index"
    (Scenario.fresh ∅ {[ "faiss_index"%string := Readable Scenario.empty_store ]})
  = (Ok (Some Scenario.empty_store),
     {| fs := fs (Scenario.fresh ∅ {[ "faiss_index"%string := Readable Scenario.empty_store ]});
        vector_store := Some Scenario.empty_store;
        trace := [EvLoadLocal "faiss_index"] |})
  ∧ FaissManager.load_or_create (Scenario.world Scenario.llm_ok) "faiss_index"
      (Scenario.fresh ∅ {[ "faiss_index"%string := Unreadable ]})
    = (Raise LoadError,
       traced (Scenario.fresh ∅ {[ "faiss_index"%string := Unreadable ]})
         [EvLoadLocal "faiss_index"])
  ∧ FaissManager.load_or_create (Scenario.world Scenario.llm_ok) "faiss_index"
      (Scenario.fresh ∅ ∅)
    = (Ok (Some Scenario.empty_store),
       {| fs := saved_at "faiss_index" Scenario.empty_store (fs (Scenario.fresh ∅ ∅));
          vector_store := Some Scenario.empty_store;
          trace := [EvEmbedQuery (py "hello world"); EvSaveLocal "faiss_index"] |}).
Proof.
  split; [| split].
  - apply (proj1 (load_or_create_loads_or_bootstraps (Scenario.world Scenario.llm_ok)
                    "faiss_index"
                    (Scenario.fresh ∅ {[ "faiss_index"%string := Readable Scenario.empty_store ]}))).
    reflexivity.
  - apply (proj1 (proj2 (load_or_create_loads_or_bootstraps (Scenario.world Scenario.llm_ok)
                    "faiss_index"
                    (Scenario.fresh ∅ {[ "faiss_index"%string := Unreadable ]})))).
    reflexivity.
  - apply (proj2 (proj2 (load_or_create_loads_or_bootstraps (Scenario.world Scenario.llm_ok)
                    "faiss_index" (Scenario.fresh ∅ ∅))) [0; 0; 0]);
      reflexivity.
Defined.

(** * Properties of preprocessing/documents_processing.py *)

Lemma traced_nil (s : State) : traced s [] = s.
Proof. destruct s. unfold traced. simpl. by rewrite app_nil_r. Qed.

Lemma traced_app (s : State) (a b : list Event) :
  traced (traced s a) b = traced s (a ++ b).
Proof. unfold traced. simpl. by rewrite app_assoc. Qed.

Module ProcessorFacts.
Section Facts.
Import VectorStoreBatchProcessor.

Variable W : World.
Variable self : Processor.

Lemma existing_doc_hashes_ok docs acc :
  existing_doc_hashes docs acc
  = Ok (acc ∪ list_to_set (map doc_fingerprint docs)).
Proof.
  revert acc. induction docs as [| d docs IH]; intros acc; simpl.
  - by rewrite (right_id_L ∅ (∪)).
  - rewrite IngestionFacts.doc_dedup_key_ok. simpl. rewrite IH.
    by rewrite (assoc_L (∪)).
Qed.

Lemma select_unique_ok (ex : gset (list Z)) docs :
  select_unique doc_dedup_key ex docs
  = Ok (filter (fun d => doc_fingerprint d ∉ ex) docs).
Proof.
  induction docs as [| d docs IH]; simpl; [done |].
  rewrite IngestionFacts.doc_dedup_key_ok. simpl. rewrite IH. simpl.
  unfold mret, result_ret. f_equal.
  rewrite filter_cons. by repeat case_decide; case_bool_decide.
Qed.

(** The dedup filter of [process_urls] never raises and keeps, in order,
    the candidates whose fingerprint no stored record has. *)
Lemma dedup_documents_ok store docs :
  dedup_documents store docs = Ok (not_in_store store docs).
Proof.
  unfold dedup_documents. rewrite existing_doc_hashes_ok. simpl.
  rewrite select_unique_ok. f_equal. unfold not_in_store.
  apply list_filter_iff. intros d.
  by rewrite (left_id_L ∅ (∪)), elem_of_list_to_set.
Qed.

Lemma enrich_run doc s :
  enrich W doc s
  = (match llm_invoke W (prompt_of doc) with
     | Ok summary => Ok (enriched_with doc summary)
     | Raise e => Raise e
     end, traced s [EvInvoke (prompt_of doc)]).
Proof.
  unfold enrich, _summarize_text, mbind, M_bind, emit, lift, prompt_of. simpl.
  by destruct (llm_invoke W _).
Qed.

Lemma enrich_all_run docs s :
  enrich_all W docs s = (enrichment W docs, traced s (enrichment_calls W docs)).
Proof.
  unfold enrich_all. revert s.
  induction docs as [| d docs IH]; intros s; simpl.
  - by rewrite traced_nil.
  - unfold mbind at 1, M_bind at 1. rewrite enrich_run.
    destruct (llm_invoke W (prompt_of d)) as [summary | e]; simpl; [| done].
    unfold mbind at 1, M_bind at 1. rewrite IH, traced_app. simpl.
    by destruct (enrichment W docs).
Qed.

Lemma add_documents_run docs s vs :
  vector_store s = Some vs ->
  FaissManager.add_documents W (faiss_index_path self) docs s
  = match embed_documents W (map page_content docs) with
    | Ok vectors =>
        (Ok tt, {| fs := fs s;
                   vector_store := Some (extended vs vectors docs);
                   trace := trace s ++ [EvAddDocuments docs] |})
    | Raise e => (Raise e, traced s [EvAddDocuments docs])
    end.
Proof.
  intros H.
  unfold FaissManager.add_documents, FaissManager.vs_add_documents,
    mbind, M_bind, get, emit, lift, set_vector_store, raise, traced.
  rewrite H. simpl.
  destruct (embed_documents W (map page_content docs)); simpl; by rewrite ?H.
Qed.

Lemma save_run s vs :
  vector_store s = Some vs ->
  FaissManager.save (faiss_index_path self) s
  = if writable (fs s)
    then (Ok tt, {| fs := saved_at (faiss_index_path self) vs (fs s);
                    vector_store := Some vs;
                    trace := trace s ++ [EvSaveLocal (faiss_index_path self)] |})
    else (Raise OSError, traced s [EvSaveLocal (faiss_index_path self)]).
Proof.
  intros H.
  unfold FaissManager.save, FaissManager.save_local,
    mbind, M_bind, get, emit, set_fs, raise, traced, saved_at.
  rewrite H. simpl. destruct (writable (fs s)); simpl; by rewrite ?H.
Qed.

(** One iteration of the batch loop, case by case. *)
Lemma process_batch_run urls k s vs :
  vector_store s = Some vs ->
  process_batch W self urls k s
  = let b := batch_urls self urls k in
    match web_load W b with
    | Raise e => (Raise e, traced s [EvWebLoad b])
    | Ok docs =>
        let unique := not_in_store vs docs in
        if Py.truthy unique then
          match enrichment W unique with
          | Raise e => (Raise e, traced s (EvWebLoad b :: enrichment_calls W unique))
          | Ok enriched =>
              match embed_documents W (map page_content enriched) with
              | Raise e => (Raise e, traced s (batch_calls W b unique enriched))
              | Ok vectors =>
                  let vs' := extended vs vectors enriched in
                  let t := trace s ++ batch_calls W b unique enriched
                             ++ [EvSaveLocal (faiss_index_path self)] in
                  if writable (fs s) then
                    (Ok tt, {| fs := saved_at (faiss_index_path self) vs' (fs s);
                               vector_store := Some vs';
                               trace := t |})
                  else
                    (Raise OSError, {| fs := fs s; vector_store := Some vs'; trace := t |})
              end
          end
        else (Ok tt, traced s [EvWebLoad b])
    end.
Proof.
  intros H. destruct s as [f v t]. simpl in H. subst v.
  unfold process_batch. cbv zeta.
  unfold mbind at 1, M_bind at 1. unfold mbind at 1, M_bind at 1.
  unfold emit at 1, lift at 1.
  destruct (web_load W (batch_urls self urls k)) as [docs | e]; [| done].
  unfold mbind at 1, M_bind at 1, db, mbind at 1, M_bind at 1, get. simpl.
  unfold mbind at 1, M_bind at 1, lift at 1. rewrite dedup_documents_ok.
  destruct (Py.truthy (not_in_store vs docs)); [| done].
  unfold mbind at 1, M_bind at 1. rewrite enrich_all_run.
  destruct (enrichment W (not_in_store vs docs)) as [enriched | e];
    [| unfold traced; simpl; by rewrite <- app_assoc].
  unfold mbind at 1, M_bind at 1.
  rewrite (add_documents_run _ _ vs) by done.
  unfold batch_calls, traced. simpl.
  destruct (embed_documents W (map page_content enriched)) as [vectors | e].
  - rewrite (save_run _ (extended vs vectors enriched)) by done.
    unfold traced. simpl. rewrite <- !app_assoc. simpl.
    by destruct (writable f).
  - rewrite <- !app_assoc. simpl. done.
Qed.

Lemma enrichment_length docs enriched :
  enrichment W docs = Ok enriched -> length enriched = length docs.
Proof.
  revert enriched. induction docs as [| d docs IH]; intros enriched; simpl.
  - by intros [= <-].
  - destruct (llm_invoke W (prompt_of d)); simpl; [| done].
    destruct (enrichment W docs) as [rest |]; simpl; [| done].
    intros [= <-]. simpl. f_equal. by apply IH.
Qed.

Lemma enrichment_truthy docs enriched :
  enrichment W docs = Ok enriched -> Py.truthy enriched = Py.truthy docs.
Proof.
  intros H. apply enrichment_length in H. by destruct docs, enriched.
Qed.

Lemma persist_guarded_mono b t :
  persist_guarded false t = true -> persist_guarded b t = true.
Proof. destruct t as [| [] t]; simpl; try done. Qed.

Lemma persist_guarded_app b t1 t2 :
  persist_guarded b t1 = true -> persist_guarded false t2 = true ->
  persist_guarded b (t1 ++ t2) = true.
Proof.
  revert b. induction t1 as [| ev t1 IH]; intros b H1 H2; simpl.
  - by apply persist_guarded_mono.
  - destruct ev; simpl in *; try by apply IH.
    apply andb_true_iff in H1 as [-> H1]. simpl. by apply IH.
Qed.

Lemma persist_guarded_calls b docs :
  persist_guarded b (enrichment_calls W docs) = true.
Proof.
  revert b. induction docs as [| d docs IH]; intros b; simpl; [done |].
  by destruct (llm_invoke W (prompt_of d)).
Qed.

Lemma web_loaded_app t1 t2 : web_loaded (t1 ++ t2) = web_loaded t1 ++ web_loaded t2.
Proof.
  induction t1 as [| ev t1 IH]; simpl; [done |].
  destruct ev; simpl; by rewrite ?IH.
Qed.

Lemma web_loaded_calls docs : web_loaded (enrichment_calls W docs) = [].
Proof.
  induction docs as [| d docs IH]; simpl; [done |].
  by destruct (llm_invoke W (prompt_of d)).
Qed.

(** Whatever one batch does, the manager keeps a store, the trace only
    grows, and a [save_local] in the new part follows a non-empty
    [add_documents]. *)
Lemma process_batch_guarded urls k s vs r s' :
  vector_store s = Some vs ->
  process_batch W self urls k s = (r, s') ->
  is_Some (vector_store s') ∧
  ∃ t, trace s' = trace s ++ t ∧ persist_guarded false t = true.
Proof.
  intros H. rewrite (process_batch_run urls k s vs H). cbv zeta.
  destruct (web_load W _) as [docs | e].
  2: { intros [= <- <-]. split; [simpl; rewrite ?H; by eexists |]. by eexists. }
  destruct (Py.truthy (not_in_store vs docs)) eqn:Hu.
  2: { intros [= <- <-]. split; [simpl; rewrite ?H; by eexists |]. by eexists. }
  destruct (enrichment W (not_in_store vs docs)) as [enriched | e] eqn:He.
  2: { intros [= <- <-]. split; [simpl; rewrite ?H; by eexists |]. eexists. split; [done |].
       simpl. apply persist_guarded_calls. }
  assert (persist_guarded false
            (batch_calls W (batch_urls self urls k) (not_in_store vs docs) enriched
             ++ [EvSaveLocal (faiss_index_path self)]) = true) as Hg.
  { unfold batch_calls. simpl. rewrite <- app_assoc.
    apply persist_guarded_app; [apply persist_guarded_calls |].
    simpl. by rewrite (enrichment_truthy _ _ He), Hu. }
  assert (persist_guarded false
            (batch_calls W (batch_urls self urls k) (not_in_store vs docs) enriched)
          = true) as Hg'.
  { unfold batch_calls. simpl.
    apply persist_guarded_app; [apply persist_guarded_calls | done]. }
  destruct (embed_documents W _) as [vectors | e].
  2: { intros [= <- <-]. split; [simpl; rewrite ?H; by eexists |]. by eexists. }
  destruct (writable (fs s)); intros [= <- <-]; (split; [simpl; by eexists |]); by eexists.
Qed.

Lemma batch_loop_guarded urls ks : ∀ s vs r s',
  vector_store s = Some vs ->
  for_each ks (process_batch W self urls) s = (r, s') ->
  ∃ t, trace s' = trace s ++ t ∧ persist_guarded false t = true.
Proof.
  induction ks as [| k ks IH]; intros s vs r s' H; simpl.
  - intros [= <- <-]. exists []. by rewrite app_nil_r.
  - unfold mbind, M_bind.
    destruct (process_batch W self urls k s) as [r1 s1] eqn:E1.
    destruct (process_batch_guarded _ _ _ _ _ _ H E1) as [[vs1 Hv1] (t1 & Ht1 & Hg1)].
    destruct r1 as [[] | e].
    + intros E2. destruct (IH _ _ _ _ Hv1 E2) as (t2 & Ht2 & Hg2).
      exists (t1 ++ t2). split; [by rewrite Ht2, Ht1, app_assoc |].
      by apply persist_guarded_app.
    + intros [= <- <-]. by exists t1.
Qed.

Lemma batch_loop_web_loaded urls ks : ∀ s vs s',
  vector_store s = Some vs ->
  for_each ks (process_batch W self urls) s = (Ok tt, s') ->
  ∃ t, trace s' = trace s ++ t ∧ web_loaded t = map (batch_urls self urls) ks.
Proof.
  induction ks as [| k ks IH]; intros s vs s' H; simpl.
  - intros [= <-]. exists []. by rewrite app_nil_r.
  - unfold mbind, M_bind.
    destruct (process_batch W self urls k s) as [r1 s1] eqn:E1.
    destruct r1 as [[] | e]; [| done].
    intros E2.
    destruct (process_batch_guarded _ _ _ _ _ _ H E1) as [[vs1 Hv1] _].
    destruct (IH _ _ _ Hv1 E2) as (t2 & Ht2 & Hw2).
    rewrite (process_batch_run urls k s vs H) in E1. cbv zeta in E1.
    assert (∃ t1, trace s1 = trace s ++ t1
                  ∧ web_loaded t1 = [batch_urls self urls k]) as (t1 & Ht1 & Hw1).
    { destruct (web_load W _) as [docs | e]; [| done].
      destruct (Py.truthy _).
      2: { injection E1 as <-. by eexists. }
      destruct (enrichment W _) as [enriched | e]; [| done].
      destruct (embed_documents W _) as [vectors | e]; [| done].
      destruct (writable (fs s)); [| done].
      injection E1 as <-. eexists. split; [done |].
      unfold batch_calls. simpl.
      by rewrite !web_loaded_app, web_loaded_calls. }
    exists (t1 ++ t2). split; [by rewrite Ht2, Ht1, app_assoc |].
    by rewrite web_loaded_app, Hw1, Hw2.
Qed.

(** *** Slices and batch counts *)

Lemma slice_nonneg {A : Type} (l : list A) (a n : Z) :
  0 <= a -> 0 <= n ->
  Py.slice l a (a + n) = take (Z.to_nat n) (drop (Z.to_nat a) l).
Proof.
  intros Ha Hn. unfold Py.slice, Py.clamp.
  destruct (Z.ltb_spec a 0); [lia |].
  destruct (Z.ltb_spec (a + n) 0); [lia |].
  set (len := Z.of_nat (length l)).
  destruct (Z.le_gt_cases len a) as [Hge | Hlt].
  - rewrite !(drop_ge l) by lia. by rewrite !take_nil.
  - rewrite (Z.min_l a len) by lia.
    destruct (Z.le_gt_cases (a + n) len) as [Hb | Hb].
    + rewrite Z.min_l by lia. f_equal. lia.
    + rewrite Z.min_r by lia.
      rewrite !take_ge; [done | rewrite length_drop; lia ..].
Qed.

Lemma batch_urls_contiguous urls k :
  0 < batch_size self -> 0 <= k ->
  batch_urls self urls k
  = take (Z.to_nat (batch_size self))
      (drop (Z.to_nat (k * batch_size self)) urls).
Proof.
  intros HB Hk. unfold batch_urls. cbv zeta. apply slice_nonneg; nia.
Qed.

Lemma batches_concat urls (m : nat) :
  0 < batch_size self ->
  concat (map (batch_urls self urls) (map Z.of_nat (seq 0 m)))
  = take (m * Z.to_nat (batch_size self)) urls.
Proof.
  intros HB. induction m as [| m IH]; [done |].
  rewrite seq_S, !map_app, concat_app, IH. simpl. rewrite app_nil_r.
  rewrite batch_urls_contiguous by lia.
  replace (Z.to_nat (Z.of_nat m * batch_size self))
    with (m * Z.to_nat (batch_size self))%nat by nia.
  rewrite take_take_drop. f_equal. lia.
Qed.

Lemma total_batches_ceil (n : Z) :
  0 < batch_size self ->
  ∃ t, total_batches self n None = Ok t
       ∧ (t - 1) * batch_size self < n <= t * batch_size self.
Proof.
  intros HB. unfold total_batches, Py.floordiv.
  destruct (Z.eqb_spec (batch_size self) 0); [lia |]. simpl.
  eexists. split; [done |].
  pose proof (Z.div_mod (n + batch_size self - 1) (batch_size self)).
  pose proof (Z.mod_pos_bound (n + batch_size self - 1) (batch_size self)).
  nia.
Qed.

Lemma total_batches_limit (n L t : Z) :
  total_batches self n None = Ok t ->
  total_batches self n (Some L) = Ok (Z.min t L).
Proof.
  unfold total_batches. destruct (Py.floordiv _ _); simpl; [| done].
  by intros [= ->].
Qed.

End Facts.
End ProcessorFacts.

(** C7. A batch none of whose documents is new returns normally after its
    web load alone: no [add_documents], no [save_local], and the disk and the
    store of the manager are what they were.  And however the batch loop
    ends, every [save_local] it makes comes right after an [add_documents] of
    a non-empty list. *)
Theorem no_new_documents_no_insert_no_persist
    (W : World) (self : Processor) (urls : list (list Z)) (s : State) (vs : VectorStore) :
  vector_store s = Some vs ->
  (∀ k docs,
     web_load W (VectorStoreBatchProcessor.batch_urls self urls k) = Ok docs ->
     not_in_store vs docs = [] ->
     ∃ s', VectorStoreBatchProcessor.process_batch W self urls k s = (Ok tt, s')
           ∧ fs s' = fs s
           ∧ vector_store s' = vector_store s
           ∧ trace s' = trace s ++ [EvWebLoad (VectorStoreBatchProcessor.batch_urls self urls k)])
  ∧ (∀ ks r s',
       for_each ks (VectorStoreBatchProcessor.process_batch W self urls) s = (r, s') ->
       ∃ t, trace s' = trace s ++ t ∧ persist_guarded false t = true).
Proof.
  intros H. split.
  - intros k docs Hl Hu.
    rewrite (ProcessorFacts.process_batch_run W self urls k s vs H). cbv zeta.
    rewrite Hl, Hu. simpl. by eexists.
  - intros ks r s'. by apply ProcessorFacts.batch_loop_guarded with vs.
Qed.

Lemma no_new_documents_no_insert_no_persist_witness :
  (∃ s', VectorStoreBatchProcessor.process_batch (Scenario.world Scenario.llm_ok)
           (Scenario.processor 2) Scenario.three_urls 0 Scenario.after_first_run
         = (Ok tt, s')
         ∧ fs s' = fs Scenario.after_first_run
         ∧ vector_store s' = vector_store Scenario.after_first_run
         ∧ trace s' = trace Scenario.after_first_run
                      ++ [EvWebLoad [py "https://a/1"; py "https://a/1"]])
  ∧ (∃ t, trace (snd (for_each [0; 1]
                        (VectorStoreBatchProcessor.process_batch (Scenario.world Scenario.llm_ok)
                           (Scenario.processor 2) Scenario.three_urls)
                        Scenario.after_first_run))
          = trace Scenario.after_first_run ++ t
          ∧ persist_guarded false t = true).
Proof.
  destruct (no_new_documents_no_insert_no_persist (Scenario.world Scenario.llm_ok)
              (Scenario.processor 2) Scenario.three_urls Scenario.after_first_run
              Scenario.store_after_first_run) as [Ha Hb].
  { vm_compute. reflexivity. }
  split.
  - apply (Ha 0 (map Scenario.fetched [py "https://a/1"; py "https://a/1"])).
    + reflexivity.
    + vm_compute. reflexivity.
  - eapply Hb. apply surjective_pairing.
Defined.

(** C1, as stated, fails: in the scenario of the specification (URL list
    a/1, a/1, a/2 and batches of two) the first batch commits both copies of
    a/1, and the store ends with three records, two of them with the same
    source and title. *)
Lemma same_batch_duplicates_counterexample :
  ∃ vs s',
    VectorStoreBatchProcessor.process_urls (Scenario.world Scenario.llm_ok)
      (Scenario.processor 2) None None (Scenario.fresh Scenario.urls_1_1_2 ∅)
    = (Ok (Some vs), s')
    ∧ map (fun d => (metadata_get d "source", metadata_get d "title")) (docstore vs)
      = [(VStr (py "https://a/1"), VStr (py "The Batch"));
         (VStr (py "https://a/1"), VStr (py "The Batch"));
         (VStr (py "https://a/2"), VStr (py "The Batch"))].
Proof.
  eexists _, _. split.
  - vm_compute. reflexivity.
  - vm_compute. reflexivity.
Qed.

(** C1, amended. The dedup filter of a batch never raises and compares each
    candidate with the records of the store only: the survivors are, in
    order, exactly the candidates whose fingerprint no stored record has,
    whatever else the batch holds.  When at least one survives and
    enrichment, embedding and saving succeed, the batch appends one enriched
    record per survivor to the store and writes that store to the index
    path. *)
Theorem dedup_compares_with_store_only
    (W : World) (self : Processor) (urls : list (list Z)) (k : Z)
    (s : State) (vs : VectorStore) (docs enriched : list Document)
    (vectors : list (list Z)) :
  vector_store s = Some vs ->
  web_load W (VectorStoreBatchProcessor.batch_urls self urls k) = Ok docs ->
  not_in_store vs docs <> [] ->
  enrichment W (not_in_store vs docs) = Ok enriched ->
  embed_documents W (map page_content enriched) = Ok vectors ->
  writable (fs s) = true ->
  VectorStoreBatchProcessor.dedup_documents vs docs = Ok (not_in_store vs docs)
  ∧ (∀ d, d ∈ not_in_store vs docs
          ↔ d ∈ docs ∧ doc_fingerprint d ∉ map doc_fingerprint (docstore vs))
  ∧ length enriched = length (not_in_store vs docs)
  ∧ ∃ s', VectorStoreBatchProcessor.process_batch W self urls k s = (Ok tt, s')
          ∧ vector_store s' = Some (extended vs vectors enriched)
          ∧ index_dirs (fs s') !! faiss_index_path self
            = Some (Readable (extended vs vectors enriched)).
Proof.
  intros H Hl Hu He Hv Hw.
  split; [apply ProcessorFacts.dedup_documents_ok |].
  split.
  { intros d. unfold not_in_store. rewrite list_elem_of_filter. tauto. }
  split; [by apply ProcessorFacts.enrichment_length with W |].
  rewrite (ProcessorFacts.process_batch_run W self urls k s vs H). cbv zeta.
  rewrite Hl.
  destruct (not_in_store vs docs) as [| d u] eqn:E; [done |].
  simpl Py.truthy. cbv iota. rewrite He, Hv, Hw.
  eexists. split; [done |]. split; [done |].
  simpl. apply lookup_insert_eq.
Qed.

Lemma dedup_compares_with_store_only_witness :
  ∃ s', VectorStoreBatchProcessor.process_batch (Scenario.world Scenario.llm_ok)
          (Scenario.processor 2) Scenario.three_urls 0
          (Scenario.bootstrapped Scenario.urls_1_1_2)
        = (Ok tt, s')
        ∧ (docstore <$> vector_store s')
          = Some [enriched_with (Scenario.fetched (py "https://a/1")) (py "A summary.");
                  enriched_with (Scenario.fetched (py "https://a/1")) (py "A summary.")].
Proof.
  destruct (dedup_compares_with_store_only (Scenario.world Scenario.llm_ok)
              (Scenario.processor 2) Scenario.three_urls 0
              (Scenario.bootstrapped Scenario.urls_1_1_2) Scenario.empty_store
              (map Scenario.fetched [py "https://a/1"; py "https://a/1"])
              [enriched_with (Scenario.fetched (py "https://a/1")) (py "A summary.");
               enriched_with (Scenario.fetched (py "https://a/1")) (py "A summary.")]
              [[0; 0; 0]; [0; 0; 0]])
    as (_ & _ & _ & s' & Hrun & Hstore & _).
  - vm_compute. reflexivity.
  - reflexivity.
  - vm_compute. discriminate.
  - vm_compute. reflexivity.
  - reflexivity.
  - reflexivity.
  - exists s'. split; [exact Hrun |]. rewrite Hstore. reflexivity.
Defined.




(** C8, as stated, fails: with a source list that cannot be read,
    [_read_urls_file] returns the empty list and [process_urls] returns None
    without raising, exactly as it does for a list file without lines. *)
Lemma source_read_error_counterexample :
  fst (VectorStoreBatchProcessor._read_urls_file (Scenario.processor 2)
         (Scenario.fresh Scenario.unreadable_urls ∅)) = Ok []
  ∧ fst (VectorStoreBatchProcessor.process_urls (Scenario.world Scenario.llm_ok)
           (Scenario.processor 2) None None (Scenario.fresh Scenario.unreadable_urls ∅))
    = Ok None
  ∧ fst (VectorStoreBatchProcessor.process_urls (Scenario.world Scenario.llm_ok)
           (Scenario.processor 2) None None (Scenario.fresh ∅ ∅))
    = Ok None
  ∧ fst (VectorStoreBatchProcessor.process_urls (Scenario.world Scenario.llm_ok)
           (Scenario.processor 2) None None (Scenario.fresh Scenario.empty_urls ∅))
    = Ok None.
Proof. repeat split; vm_compute; reflexivity. Qed.

(** C8, amended. A source list that is missing or cannot be read is turned
    into the empty list inside [_read_urls_file]; [process_urls] then
    returns None without raising, and nothing else happens: no store is
    loaded or created, no batch runs, and the state is what it was. *)
Theorem unreadable_source_list_yields_none
    (W : World) (self : Processor) (batch_limit urls_limit : option Z) (s : State) :
  text_files (fs s) !! urls_file_path self = None
  ∨ text_files (fs s) !! urls_file_path self = Some NoAccess ->
  VectorStoreBatchProcessor._read_urls_file self s = (Ok [], s)
  ∧ VectorStoreBatchProcessor.process_urls W self batch_limit urls_limit s = (Ok None, s).
Proof.
  intros H.
  assert (VectorStoreBatchProcessor._read_urls_file self s = (Ok [], s)) as Hr.
  { unfold VectorStoreBatchProcessor._read_urls_file,
      VectorStoreBatchProcessor.open_read, try_except, mbind, M_bind, get, raise.
    by destruct H as [-> | ->]. }
  split; [exact Hr |].
  unfold VectorStoreBatchProcessor.process_urls, mbind, M_bind. by rewrite Hr.
Qed.

Lemma unreadable_source_list_yields_none_witness :
  VectorStoreBatchProcessor._read_urls_file (Scenario.processor 2)
    (Scenario.fresh Scenario.unreadable_urls ∅)
  = (Ok [], Scenario.fresh Scenario.unreadable_urls ∅)
  ∧ VectorStoreBatchProcessor.process_urls (Scenario.world Scenario.llm_ok)
      (Scenario.processor 2) (Some 1) None (Scenario.fresh Scenario.unreadable_urls ∅)
    = (Ok None, Scenario.fresh Scenario.unreadable_urls ∅).
Proof.
  apply (unreadable_source_list_yields_none (Scenario.world Scenario.llm_ok)
           (Scenario.processor 2) (Some 1) None (Scenario.fresh Scenario.unreadable_urls ∅)).
  right. reflexivity.
Defined.

Module ImageFacts.
Import IngestionHelper VectorStoreBatchProcessor.

Lemma image_hash_of_missing_payload doc :
  payload_missing doc -> compute_image_hash doc = Ok md5_of_empty.
Proof.
  unfold compute_image_hash. intros [-> | ->]; simpl; f_equal.
Qed.

Lemma existing_image_hashes_covers docs : ∀ acc hashes,
  existing_image_hashes docs acc = Ok hashes ->
  acc ⊆ hashes
  ∧ (∀ r h, r ∈ docs -> compute_image_hash r = Ok h -> h ∈ hashes)
  ∧ (∀ h, h ∈ hashes -> h ∈ acc ∨ ∃ r, r ∈ docs ∧ compute_image_hash r = Ok h).
Proof.
  induction docs as [| d docs IH]; intros acc hashes; simpl.
  - intros [= <-]. split; [done |]. split; [| by left].
    intros r h Hr. by inversion Hr.
  - destruct (compute_image_hash d) as [hd |] eqn:Ed; simpl; [| done].
    intros E. destruct (IH _ _ E) as (Hsub & Hin & Hout).
    split; [intros x Hx; apply Hsub; by apply elem_of_union_l |]. split.
    + intros r h Hr Hh. apply elem_of_cons in Hr as [-> | Hr].
      * apply Hsub. rewrite Ed in Hh. injection Hh as <-.
        apply elem_of_union_r. by apply elem_of_singleton.
      * by apply Hin with r.
    + intros h Hh. destruct (Hout h Hh) as [Hacc | (r & Hr & Hrh)].
      * apply elem_of_union in Hacc as [Hacc | Hacc]; [by left |].
        apply elem_of_singleton in Hacc as ->. right. exists d.
        split; [apply list_elem_of_here | done].
      * right. exists r. split; [by apply list_elem_of_further | done].
Qed.

Lemma select_unique_sound (key : Document -> result (list Z)) ex docs : ∀ us,
  select_unique key ex docs = Ok us ->
  ∀ d, d ∈ us -> ∃ h, key d = Ok h ∧ h ∉ ex.
Proof.
  induction docs as [| x docs IH]; intros us; simpl.
  - intros [= <-] d Hd. by inversion Hd.
  - destruct (key x) as [hx |] eqn:Ex; simpl; [| done].
    destruct (select_unique key ex docs) as [rest |]; simpl; [| done].
    unfold mret, result_ret. intros [= <-] d Hd.
    case_bool_decide as Hx.
    + apply elem_of_cons in Hd as [-> | Hd]; [by exists hx |]. by apply (IH rest).
    + by apply (IH rest).
Qed.

Lemma select_unique_all (key : Document -> result (list Z)) ex docs :
  (∀ d, d ∈ docs -> ∃ h, key d = Ok h ∧ h ∉ ex) ->
  select_unique key ex docs = Ok docs.
Proof.
  induction docs as [| x docs IH]; intros H; simpl; [done |].
  destruct (H x (list_elem_of_here _ _)) as (hx & -> & Hx). simpl.
  rewrite IH by (intros d Hd; apply H; by apply list_elem_of_further). simpl.
  unfold mret, result_ret. by rewrite bool_decide_eq_true_2.
Qed.

End ImageFacts.

(** C10, as stated, fails in its consequence: two images whose files could
    not be encoded, given to one call of [process_images] on a new index,
    are both committed. *)
Lemma unencoded_images_counterexample :
  payload_missing Scenario.broken_image_1 ∧ payload_missing Scenario.broken_image_2
  ∧ ∃ vs s',
      VectorStoreBatchProcessor.process_images (Scenario.world Scenario.llm_ok)
        (Scenario.processor 2) [Scenario.broken_image_1; Scenario.broken_image_2]
        (Scenario.fresh ∅ ∅)
      = (Ok (Some vs), s')
      ∧ docstore vs = [Scenario.broken_image_1; Scenario.broken_image_2]
      ∧ index_dirs (fs s') !! "faiss_index" = Some (Readable vs).
Proof.
  split; [right; vm_compute; reflexivity |].
  split; [right; vm_compute; reflexivity |].
  eexists _, _. split; [vm_compute; reflexivity |].
  split; vm_compute; reflexivity.
Qed.

(** C10, amended. Every image document whose [encoded_image] is missing or
    empty has the md5 of the empty byte string as its fingerprint.  The image
    filter compares candidates with the records of the store only: once the
    store holds one record without payload (a text document is one), no
    such image survives the filter; while the store holds no record with
    that fingerprint, every such image given to one call survives it. *)
Theorem missing_payload_images_share_fingerprint :
  (∀ d, payload_missing d -> IngestionHelper.compute_image_hash d = Ok md5_of_empty)
  ∧ (∀ store images unique r,
       VectorStoreBatchProcessor.dedup_images store images = Ok unique ->
       r ∈ docstore store -> payload_missing r ->
       ∀ d, d ∈ unique -> ¬ payload_missing d)
  ∧ (∀ store images,
       (∀ r, r ∈ docstore store ->
             ∃ h, IngestionHelper.compute_image_hash r = Ok h ∧ h <> md5_of_empty) ->
       Forall payload_missing images ->
       VectorStoreBatchProcessor.dedup_images store images = Ok images).
Proof.
  split; [apply ImageFacts.image_hash_of_missing_payload |]. split.
  - intros store images unique r Hrun Hr Hmiss d Hd Hdm.
    unfold VectorStoreBatchProcessor.dedup_images in Hrun.
    destruct (VectorStoreBatchProcessor.existing_image_hashes (docstore store) ∅)
      as [hashes |] eqn:Eh; simpl in Hrun; [| done].
    destruct (ImageFacts.existing_image_hashes_covers _ _ _ Eh) as (_ & Hin & _).
    destruct (ImageFacts.select_unique_sound _ _ _ _ Hrun d Hd) as (h & Hh & Hnot).
    rewrite (ImageFacts.image_hash_of_missing_payload d Hdm) in Hh.
    injection Hh as <-. apply Hnot.
    apply (Hin r _ Hr). by apply ImageFacts.image_hash_of_missing_payload.
  - intros store images Hstore Himg.
    unfold VectorStoreBatchProcessor.dedup_images.
    assert (∃ hashes,
              VectorStoreBatchProcessor.existing_image_hashes (docstore store) ∅ = Ok hashes)
      as [hashes Eh].
    { generalize (∅ : gset (list Z)).
      induction (docstore store) as [| x l IH]; intros acc; simpl; [by eexists |].
      destruct (Hstore x (list_elem_of_here _ _)) as (h & -> & _). simpl.
      apply IH. intros r Hr. apply Hstore. by apply list_elem_of_further. }
    rewrite Eh. simpl.
    destruct (ImageFacts.existing_image_hashes_covers _ _ _ Eh) as (_ & _ & Hout).
    apply ImageFacts.select_unique_all. intros d Hd.
    exists md5_of_empty. split.
    + apply ImageFacts.image_hash_of_missing_payload.
      rewrite Forall_forall in Himg. by apply Himg.
    + intros Hmem. destruct (Hout _ Hmem) as [Hacc | (r & Hr & Hrh)].
      * by apply not_elem_of_empty in Hacc.
      * destruct (Hstore r Hr) as (h & Hh & Hne). congruence.
Qed.

Lemma missing_payload_images_share_fingerprint_witness :
  IngestionHelper.compute_image_hash Scenario.broken_image_1 = Ok md5_of_empty
  ∧ (∀ d, d ∈ [Scenario.good_image] -> ¬ payload_missing d)
  ∧ VectorStoreBatchProcessor.dedup_images Scenario.empty_store
      [Scenario.broken_image_1; Scenario.broken_image_2]
    = Ok [Scenario.broken_image_1; Scenario.broken_image_2].
Proof.
  destruct missing_payload_images_share_fingerprint as (H1 & H2 & H3).
  split; [| split].
  - apply H1. right. reflexivity.
  - apply (H2 Scenario.store_with_text [Scenario.broken_image_1; Scenario.good_image]
              [Scenario.good_image]
              (enriched_with (Scenario.fetched (py "https://a/1")) (py "A summary."))).
    + vm_compute. reflexivity.
    + apply list_elem_of_here.
    + left. reflexivity.
  - apply H3.
    + intros r Hr. inversion Hr.
    + repeat constructor; right; reflexivity.
Defined.

(** * Further properties of the pipeline *)

Module PipelineFacts.
Section Facts.
Import VectorStoreBatchProcessor.

Variable W : World.
Variable self : Processor.

(** [load_or_create], case by case. *)
Lemma load_or_create_run path s :
  FaissManager.load_or_create W path s
  = match index_dirs (fs s) !! path with
    | Some (Readable vs) =>
        (Ok (Some vs),
         {| fs := fs s; vector_store := Some vs;
            trace := trace s ++ [EvLoadLocal path] |})
    | Some Unreadable =>
        (Raise LoadError, traced s [EvLoadLocal path])
    | None =>
        match embed_query W (py "hello world") with
        | Raise e => (Raise e, traced s [EvEmbedQuery (py "hello world")])
        | Ok dummy =>
            let t := trace s ++ [EvEmbedQuery (py "hello world");
                                 EvSaveLocal path] in
            if writable (fs s) then
              (Ok (Some (bootstrap_store dummy)),
               {| fs := saved_at path (bootstrap_store dummy) (fs s);
                  vector_store := Some (bootstrap_store dummy);
                  trace := t |})
            else
              (Raise OSError,
               {| fs := fs s; vector_store := Some (bootstrap_store dummy); trace := t |})
        end
    end.
Proof.
  unfold FaissManager.load_or_create, FaissManager.path_exists,
    FaissManager.load_local, FaissManager.save, FaissManager.save_local,
    try_except, mbind, M_bind, mret, M_ret, get, emit, lift, raise,
    set_vector_store, set_fs, traced, saved_at, bootstrap_store.
  destruct (index_dirs (fs s) !! path) as [[vs |] |] eqn:E;
    simpl; rewrite ?E; simpl; try done.
  destruct (embed_query W (py "hello world")) as [dummy | e]; simpl; [| done].
  destruct (writable (fs s)); simpl; by rewrite <- app_assoc.
Qed.

Lemma fingerprint_enriched d summary :
  doc_fingerprint (enriched_with d summary) = doc_fingerprint d.
Proof.
  unfold doc_fingerprint, identity_string, enriched_with, metadata_set, metadata_get.
  simpl. by rewrite !lookup_insert_ne.
Qed.

Lemma enrichment_fingerprints docs : ∀ enriched,
  enrichment W docs = Ok enriched ->
  map doc_fingerprint enriched = map doc_fingerprint docs.
Proof.
  induction docs as [| d docs IH]; intros enriched; simpl.
  - by intros [= <-].
  - destruct (llm_invoke W (prompt_of d)); simpl; [| done].
    destruct (enrichment W docs) as [rest |]; simpl; [| done].
    intros [= <-]. simpl. rewrite fingerprint_enriched. f_equal. by apply IH.
Qed.

Lemma not_in_store_nil vs docs :
  not_in_store vs docs = []
  ↔ ∀ d, d ∈ docs -> doc_fingerprint d ∈ map doc_fingerprint (docstore vs).
Proof.
  unfold not_in_store. split.
  - intros H d Hd.
    destruct (decide (doc_fingerprint d ∈ map doc_fingerprint (docstore vs)))
      as [Hin | Hout]; [done |].
    exfalso. by eapply (filter_nil_not_elem_of _ _ d H).
  - intros H. induction docs as [| d docs IH]; [done |].
    rewrite filter_cons_False.
    + apply IH. intros x Hx. apply H. by apply list_elem_of_further.
    + intros Hn. apply Hn, H, list_elem_of_here.
Qed.

Lemma covered_mono vs vs' docs :
  docstore vs `prefix_of` docstore vs' ->
  not_in_store vs docs = [] -> not_in_store vs' docs = [].
Proof.
  rewrite !not_in_store_nil. intros [ext Hext] H d Hd.
  rewrite Hext, map_app. apply elem_of_app. left. by apply H.
Qed.

Lemma covered_after_commit vs docs vectors enriched :
  enrichment W (not_in_store vs docs) = Ok enriched ->
  not_in_store (extended vs vectors enriched) docs = [].
Proof.
  intros He. apply not_in_store_nil. intros d Hd. simpl.
  rewrite map_app, (enrichment_fingerprints _ _ He). apply elem_of_app.
  destruct (decide (doc_fingerprint d ∈ map doc_fingerprint (docstore vs)))
    as [Hin | Hout]; [by left | right].
  apply list_elem_of_fmap. exists d. split; [done |].
  unfold not_in_store. by apply list_elem_of_filter.
Qed.

(** What a batch that returns normally leaves behind. *)
Lemma process_batch_ok urls k s vs s' :
  vector_store s = Some vs ->
  process_batch W self urls k s = (Ok tt, s') ->
  ∃ vs' docs,
    vector_store s' = Some vs'
    ∧ docstore vs `prefix_of` docstore vs'
    ∧ index_dim vs' = index_dim vs
    ∧ web_load W (batch_urls self urls k) = Ok docs
    ∧ not_in_store vs' docs = []
    ∧ text_files (fs s') = text_files (fs s)
    ∧ writable (fs s') = writable (fs s)
    ∧ (synced (faiss_index_path self) s -> synced (faiss_index_path self) s').
Proof.
  intros H. rewrite (ProcessorFacts.process_batch_run W self urls k s vs H). cbv zeta.
  destruct (web_load W _) as [docs | e]; [| done].
  destruct (Py.truthy (not_in_store vs docs)) eqn:Hu.
  - destruct (enrichment W (not_in_store vs docs)) as [enriched | e] eqn:He; [| done].
    destruct (embed_documents W _) as [vectors | e]; [| done].
    destruct (writable (fs s)) eqn:Hw; [| done].
    intros [= <-]. exists (extended vs vectors enriched), docs. simpl.
    split; [done |]. split; [by apply prefix_app_r |]. split; [done |].
    split; [done |]. split; [by apply covered_after_commit |].
    split; [done |]. split; [done |].
    intros _. eexists. split; [done |]. simpl. apply lookup_insert_eq.
  - intros [= <-]. exists vs, docs. simpl.
    split; [done |]. split; [done |]. split; [done |]. split; [done |].
    split; [by destruct (not_in_store vs docs) |]. done.
Qed.

(** A batch all of whose documents the store has is a web load and nothing
    else. *)
Lemma process_batch_covered urls k s vs docs :
  vector_store s = Some vs ->
  web_load W (batch_urls self urls k) = Ok docs ->
  not_in_store vs docs = [] ->
  process_batch W self urls k s = (Ok tt, traced s [EvWebLoad (batch_urls self urls k)]).
Proof.
  intros H Hl Hc.
  rewrite (ProcessorFacts.process_batch_run W self urls k s vs H). cbv zeta.
  by rewrite Hl, Hc.
Qed.

Lemma batch_loop_ok urls ks : ∀ s vs s',
  vector_store s = Some vs ->
  for_each ks (process_batch W self urls) s = (Ok tt, s') ->
  ∃ vs',
    vector_store s' = Some vs'
    ∧ docstore vs `prefix_of` docstore vs'
    ∧ index_dim vs' = index_dim vs
    ∧ (∀ k, k ∈ ks -> ∃ docs, web_load W (batch_urls self urls k) = Ok docs
                              ∧ not_in_store vs' docs = [])
    ∧ text_files (fs s') = text_files (fs s)
    ∧ writable (fs s') = writable (fs s)
    ∧ (synced (faiss_index_path self) s -> synced (faiss_index_path self) s').
Proof.
  induction ks as [| k ks IH]; intros s vs s' H; simpl.
  - intros [= <-]. exists vs. repeat split; try done.
    intros k Hk. by inversion Hk.
  - unfold mbind, M_bind.
    destruct (process_batch W self urls k s) as [[[] | e] s1] eqn:E1; [| done].
    intros E2.
    destruct (process_batch_ok _ _ _ _ _ H E1)
      as (vs1 & docs & Hv1 & Hp1 & Hd1 & Hl1 & Hc1 & Ht1 & Hw1 & Hs1).
    destruct (IH _ _ _ Hv1 E2) as (vs2 & Hv2 & Hp2 & Hd2 & Hc2 & Ht2 & Hw2 & Hs2).
    exists vs2. split; [done |]. split; [by etrans |]. split; [congruence |].
    split; [| split; [congruence | split; [congruence | tauto]]].
    intros x Hx. apply elem_of_cons in Hx as [-> | Hx]; [| by apply Hc2].
    exists docs. split; [done |]. by apply covered_mono with vs1.
Qed.

(** A loop over batches that the store covers makes its web loads and
    nothing else. *)
Lemma batch_loop_covered urls ks : ∀ s vs,
  vector_store s = Some vs ->
  (∀ k, k ∈ ks -> ∃ docs, web_load W (batch_urls self urls k) = Ok docs
                          ∧ not_in_store vs docs = []) ->
  for_each ks (process_batch W self urls) s = (Ok tt, traced s (web_loads self urls ks)).
Proof.
  induction ks as [| k ks IH]; intros s vs H Hc; simpl.
  - by rewrite traced_nil.
  - destruct (Hc k (list_elem_of_here _ _)) as (docs & Hl & Hd).
    unfold mbind, M_bind.
    rewrite (process_batch_covered urls k s vs docs H Hl Hd).
    rewrite (IH _ vs); [by rewrite traced_app | done |].
    intros x Hx. apply Hc. by apply list_elem_of_further.
Qed.

(** What [load_or_create] leaves behind when it returns normally. *)
Lemma load_or_create_ok s r sa :
  FaissManager.load_or_create W (faiss_index_path self) s = (Ok r, sa) ->
  ∃ va t,
    r = Some va
    ∧ vector_store sa = Some va
    ∧ synced (faiss_index_path self) sa
    ∧ text_files (fs sa) = text_files (fs s)
    ∧ writable (fs sa) = writable (fs s)
    ∧ trace sa = trace s ++ t
    ∧ web_loaded t = []
    ∧ (∀ v0, index_dirs (fs s) !! faiss_index_path self = Some (Readable v0) -> va = v0).
Proof.
  rewrite load_or_create_run.
  destruct (index_dirs (fs s) !! faiss_index_path self) as [[v0 |] |] eqn:E; [| done |].
  - intros [= <- <-]. exists v0. eexists. simpl.
    split; [done |]. split; [done |]. split; [by exists v0 |].
    split; [done |]. split; [done |]. split; [done |]. split; [done |].
    by intros ? [= ->].
  - destruct (embed_query W (py "hello world")) as [dummy | e]; [| done]. cbv zeta.
    destruct (writable (fs s)) eqn:Hw; [| done].
    intros [= <- <-]. eexists. eexists. simpl.
    split; [done |]. split; [done |].
    split; [eexists; split; [done |]; simpl; apply lookup_insert_eq |].
    split; [done |]. split; [done |]. split; [done |]. split; [done |]. done.
Qed.

Lemma read_urls_file_run s :
  _read_urls_file self s
  = (Ok match text_files (fs s) !! urls_file_path self with
        | Some (Lines ls) => stripped_lines ls
        | _ => []
        end, s).
Proof.
  unfold _read_urls_file, open_read, try_except, mbind, M_bind, get, raise.
  by destruct (text_files (fs s) !! urls_file_path self) as [[ls |] |].
Qed.

(** [process_urls] after the list file was read. *)
Lemma process_urls_run batch_limit urls_limit s :
  process_urls W self batch_limit urls_limit s
  = match text_files (fs s) !! urls_file_path self with
    | Some (Lines ls) =>
        if Py.truthy (stripped_lines ls) then
          let urls := source_urls W self ls urls_limit in
          (FaissManager.load_or_create W (faiss_index_path self);;
           total ← lift (total_batches self (Z.of_nat (length urls)) batch_limit);
           for_each (Py.range total) (process_batch W self urls);;
           s ← get; mret (vector_store s)) s
        else (Ok None, s)
    | _ => (Ok None, s)
    end.
Proof.
  unfold process_urls. unfold mbind at 1, M_bind at 1. rewrite read_urls_file_run.
  destruct (text_files (fs s) !! urls_file_path self) as [[ls |] |]; try done.
  by destruct (Py.truthy (stripped_lines ls)).
Qed.

(** The steps of a run of [process_urls] that returned a store. *)
Lemma process_urls_ok batch_limit urls_limit s vs s1 :
  process_urls W self batch_limit urls_limit s = (Ok (Some vs), s1) ->
  ∃ ls ra sa total,
    text_files (fs s) !! urls_file_path self = Some (Lines ls)
    ∧ Py.truthy (stripped_lines ls) = true
    ∧ FaissManager.load_or_create W (faiss_index_path self) s = (Ok ra, sa)
    ∧ total_batches self
        (Z.of_nat (length (source_urls W self ls urls_limit))) batch_limit = Ok total
    ∧ for_each (Py.range total)
        (process_batch W self (source_urls W self ls urls_limit)) sa = (Ok tt, s1)
    ∧ vector_store s1 = Some vs.
Proof.
  rewrite process_urls_run.
  destruct (text_files (fs s) !! urls_file_path self) as [[ls |] |]; try done.
  destruct (Py.truthy (stripped_lines ls)) eqn:Ht; [| done]. cbv zeta.
  unfold mbind at 1, M_bind at 1.
  destruct (FaissManager.load_or_create W (faiss_index_path self) s) as [[ra | e] sa]; [| done].
  unfold mbind at 1, M_bind at 1, lift.
  destruct (total_batches self _ batch_limit) as [total | e] eqn:Et; [| done].
  unfold mbind at 1, M_bind at 1.
  destruct (for_each (Py.range total) _ sa) as [[[] | e] sb] eqn:El; [| done].
  unfold mbind, M_bind, get, mret, M_ret. intros [= Hv <-].
  by exists ls, ra, sa, total.
Qed.

Lemma process_batch_any urls k s vs vd r s' :
  vector_store s = Some vs ->
  index_dirs (fs s) !! faiss_index_path self = Some (Readable vd) ->
  docstore vd `prefix_of` docstore vs ->
  process_batch W self urls k s = (r, s') ->
  ∃ vs' vd',
    vector_store s' = Some vs'
    ∧ index_dirs (fs s') !! faiss_index_path self = Some (Readable vd')
    ∧ docstore vs `prefix_of` docstore vs'
    ∧ docstore vd `prefix_of` docstore vd'
    ∧ docstore vd' `prefix_of` docstore vs'.
Proof.
  intros H Hd Hp. rewrite (ProcessorFacts.process_batch_run W self urls k s vs H). cbv zeta.
  assert (∀ r0 t, (r0, traced s t) = (r, s') ->
            ∃ vs' vd',
              vector_store s' = Some vs'
              ∧ index_dirs (fs s') !! faiss_index_path self = Some (Readable vd')
              ∧ docstore vs `prefix_of` docstore vs'
              ∧ docstore vd `prefix_of` docstore vd'
              ∧ docstore vd' `prefix_of` docstore vs') as Hsame.
  { intros r0 t [= <- <-]. by exists vs, vd. }
  destruct (web_load W _) as [docs | e]; [| apply Hsame].
  destruct (Py.truthy (not_in_store vs docs)); [| apply Hsame].
  destruct (enrichment W (not_in_store vs docs)) as [enriched | e]; [| apply Hsame].
  destruct (embed_documents W _) as [vectors | e]; [| apply Hsame].
  destruct (writable (fs s)); intros [= <- <-].
  - exists (extended vs vectors enriched), (extended vs vectors enriched). simpl.
    split; [done |]. split; [apply lookup_insert_eq |].
    split; [by apply prefix_app_r |].
    split; [by apply prefix_app_r |]. done.
  - exists (extended vs vectors enriched), vd. simpl.
    split; [done |]. split; [done |]. split; [by apply prefix_app_r |].
    split; [done |]. by apply prefix_app_r.
Qed.

(** The web loads of a run of [process_urls] that returned a store: one per
    batch number below the loop count. *)
Lemma process_urls_batches batch_limit urls_limit s vs s1 :
  0 < batch_size self ->
  process_urls W self batch_limit urls_limit s = (Ok (Some vs), s1) ->
  ∃ ls t new,
    text_files (fs s) !! urls_file_path self = Some (Lines ls)
    ∧ total_batches self (Z.of_nat (length (source_urls W self ls urls_limit))) None = Ok t
    ∧ (t - 1) * batch_size self
      < Z.of_nat (length (source_urls W self ls urls_limit))
      <= t * batch_size self
    ∧ trace s1 = trace s ++ new
    ∧ web_loaded new
      = map (batch_urls self (source_urls W self ls urls_limit))
          (Py.range match batch_limit with
                    | Some l => Z.min t l
                    | None => t
                    end).
Proof.
  intros HB Hrun.
  destruct (process_urls_ok _ _ _ _ _ Hrun)
    as (ls & ra & sa & total & Hf & Ht & Hl & Htot & Hloop & Hv).
  destruct (load_or_create_ok _ _ _ Hl)
    as (va & ta & -> & Hva & Hsa & Htf & Hw & Hta & Hwa & _).
  destruct (ProcessorFacts.batch_loop_web_loaded W self _ _ _ _ _ Hva Hloop)
    as (tb & Htb & Hwb).
  destruct (ProcessorFacts.total_batches_ceil self
              (Z.of_nat (length (source_urls W self ls urls_limit))) HB)
    as (t & Ht' & Hceil).
  exists ls, t, (ta ++ tb). split; [done |]. split; [done |]. split; [done |].
  split; [by rewrite Htb, Hta, app_assoc |].
  rewrite ProcessorFacts.web_loaded_app, Hwa, Hwb. simpl. do 2 f_equal.
  destruct batch_limit as [l |].
  - rewrite (ProcessorFacts.total_batches_limit self _ l t Ht') in Htot. congruence.
  - congruence.
Qed.

End Facts.
End PipelineFacts.

(** C4. With a positive batch size, a run of [process_urls] that returns a
    store has handed the web loader one batch per batch number below the
    loop count, in order.  The loop count is the ceiling of the number of
    URLs over the batch size, or the batch limit when that is smaller;
    batch [k] is the slice of [batch_size] URLs that starts at
    [k * batch_size], whatever the limit.  Under a limit [L] below the
    ceiling the batches loaded are together the first [L * batch_size]
    URLs, and that many; without a limit, or with one that is not below the
    ceiling, they are together the whole list. *)
Theorem batch_accounting
    (W : World) (self : Processor) (batch_limit urls_limit : option Z)
    (s s1 : State) (vs : VectorStore) :
  0 < batch_size self ->
  VectorStoreBatchProcessor.process_urls W self batch_limit urls_limit s
  = (Ok (Some vs), s1) ->
  ∃ ls urls t new,
    text_files (fs s) !! urls_file_path self = Some (Lines ls)
    ∧ urls = source_urls W self ls urls_limit
    ∧ (t - 1) * batch_size self < Z.of_nat (length urls) <= t * batch_size self
    ∧ (∀ k, 0 <= k ->
         VectorStoreBatchProcessor.batch_urls self urls k
         = take (Z.to_nat (batch_size self))
             (drop (Z.to_nat (k * batch_size self)) urls))
    ∧ trace s1 = trace s ++ new
    ∧ web_loaded new
      = map (VectorStoreBatchProcessor.batch_urls self urls)
          (Py.range match batch_limit with
                    | Some L => Z.min t L
                    | None => t
                    end)
    ∧ (∀ L, batch_limit = Some L -> L < t ->
         concat (web_loaded new) = take (Z.to_nat (L * batch_size self)) urls
         ∧ length (concat (web_loaded new)) = Z.to_nat (L * batch_size self))
    ∧ (batch_limit = None ∨ (∃ L, batch_limit = Some L ∧ t <= L) ->
         concat (web_loaded new) = urls).
Proof.
  intros HB Hrun.
  destruct (PipelineFacts.process_urls_batches W self _ _ _ _ _ HB Hrun)
    as (ls & t & new & Hf & Ht & Hceil & Htr & Hw).
  exists ls, (source_urls W self ls urls_limit), t, new.
  set (urls := source_urls W self ls urls_limit) in *.
  split; [done |]. split; [done |]. split; [done |].
  split; [intros k Hk; by apply ProcessorFacts.batch_urls_contiguous |].
  split; [done |]. split; [done |].
  assert (0 <= t) as Ht0 by nia.
  split.
  - intros L -> HL.
    assert (concat (web_loaded new) = take (Z.to_nat (L * batch_size self)) urls) as Hc.
    { rewrite Hw. unfold Py.range. rewrite ProcessorFacts.batches_concat by done.
      f_equal. nia. }
    split; [done |]. rewrite Hc, length_take. nia.
  - intros Hall.
    assert (match batch_limit with Some L => Z.min t L | None => t end = t) as E.
    { destruct Hall as [-> | (L & -> & HL)]; [done | lia]. }
    rewrite Hw, E. unfold Py.range. rewrite ProcessorFacts.batches_concat by done.
    apply take_ge. nia.
Qed.

Lemma batch_accounting_witness :
  ∃ new,
    trace MoreScenario.after_limited_run
    = trace (Scenario.fresh Scenario.urls_1_2_3 ∅) ++ new
    ∧ concat (web_loaded new) = [py "https://a/1"; py "https://a/2"].
Proof.
  destruct (batch_accounting (Scenario.world Scenario.llm_ok) (Scenario.processor 2)
              (Some 1) None (Scenario.fresh Scenario.urls_1_2_3 ∅)
              MoreScenario.after_limited_run MoreScenario.store_after_limited_run)
    as (ls & urls & t & new & Hf & Hu & Hceil & _ & Htr & _ & Hlim & _).
  { reflexivity. }
  { vm_compute. reflexivity. }
  assert (ls = [Scenario.line "https://a/1"; Scenario.line "https://a/2";
                Scenario.line "https://a/3"]) as ->.
  { vm_compute in Hf. vm_compute. congruence. }
  assert (urls = [py "https://a/1"; py "https://a/2"; py "https://a/3"]) as ->.
  { rewrite Hu. vm_compute. reflexivity. }
  destruct (Hlim 1 eq_refl) as [Hc _].
  { simpl in Hceil. change (batch_size (Scenario.processor 2)) with 2 in Hceil. lia. }
  exists new. split; [exact Htr | exact Hc].
Defined.

(** X1. Running [process_urls] again after a run that returned a store, in a
    world that answers as before, returns the same store and commits
    nothing: the disk is unchanged and the second run makes no
    [add_documents] and no [save_local] call. *)
Theorem process_urls_idempotent
    (W : World) (self : Processor) (batch_limit urls_limit : option Z)
    (s s1 : State) (vs : VectorStore) :
  VectorStoreBatchProcessor.process_urls W self batch_limit urls_limit s
  = (Ok (Some vs), s1) ->
  ∃ s2 t,
    VectorStoreBatchProcessor.process_urls W self batch_limit urls_limit s1
    = (Ok (Some vs), s2)
    ∧ fs s2 = fs s1
    ∧ trace s2 = trace s1 ++ t
    ∧ store_untouched t.
Proof.
  intros Hrun.
  destruct (PipelineFacts.process_urls_ok W self _ _ _ _ _ Hrun)
    as (ls & ra & sa & total & Hf & Ht & Hl & Htot & Hloop & Hv).
  destruct (PipelineFacts.load_or_create_ok W self _ _ _ Hl)
    as (va & ta & -> & Hva & Hsa & Htf & Hw & Hta & _ & _).
  destruct (PipelineFacts.batch_loop_ok W self _ _ _ _ _ Hva Hloop)
    as (vs' & Hv' & _ & _ & Hcov & Htf' & _ & Hsync).
  rewrite Hv in Hv'. injection Hv' as <-.
  destruct (Hsync Hsa) as (vd & Hvd & Hdisk). rewrite Hv in Hvd. injection Hvd as <-.
  rewrite PipelineFacts.process_urls_run.
  rewrite Htf', Htf, Hf, Ht. cbv zeta.
  unfold mbind at 1, M_bind at 1.
  rewrite PipelineFacts.load_or_create_run, Hdisk.
  unfold mbind at 1, M_bind at 1, lift. rewrite Htot.
  unfold mbind at 1, M_bind at 1.
  rewrite (PipelineFacts.batch_loop_covered W self _ _ _ vs); [| done | done].
  unfold mbind, M_bind, get, mret, M_ret. simpl.
  eexists _, _. split; [done |]. simpl. split; [done |].
  split; [by rewrite <- app_assoc |].
  intros ev Hev. apply elem_of_app in Hev as [Hev | Hev].
  - by apply list_elem_of_singleton in Hev as ->.
  - unfold web_loads in Hev. apply list_elem_of_fmap in Hev as (k & -> & _). done.
Qed.

Lemma process_urls_idempotent_witness :
  ∃ s2 t,
    VectorStoreBatchProcessor.process_urls (Scenario.world Scenario.llm_ok)
      (Scenario.processor 2) None None Scenario.after_first_run
    = (Ok (Some Scenario.store_after_first_run), s2)
    ∧ fs s2 = fs Scenario.after_first_run
    ∧ trace s2 = trace Scenario.after_first_run ++ t
    ∧ store_untouched t.
Proof.
  apply (process_urls_idempotent (Scenario.world Scenario.llm_ok) (Scenario.processor 2)
           None None (Scenario.fresh Scenario.urls_1_1_2 ∅)).
  vm_compute. reflexivity.
Defined.

(** X2. The store that [process_urls] returns is the store it leaves on
    disk at the index path and in the manager, and the run does not touch
    the text files. *)
Theorem process_urls_returns_persisted_store
    (W : World) (self : Processor) (batch_limit urls_limit : option Z)
    (s s1 : State) (vs : VectorStore) :
  VectorStoreBatchProcessor.process_urls W self batch_limit urls_limit s
  = (Ok (Some vs), s1) ->
  vector_store s1 = Some vs
  ∧ index_dirs (fs s1) !! faiss_index_path self = Some (Readable vs)
  ∧ text_files (fs s1) = text_files (fs s).
Proof.
  intros Hrun.
  destruct (PipelineFacts.process_urls_ok W self _ _ _ _ _ Hrun)
    as (ls & ra & sa & total & Hf & Ht & Hl & Htot & Hloop & Hv).
  destruct (PipelineFacts.load_or_create_ok W self _ _ _ Hl)
    as (va & ta & -> & Hva & Hsa & Htf & Hw & Hta & _ & _).
  destruct (PipelineFacts.batch_loop_ok W self _ _ _ _ _ Hva Hloop)
    as (vs' & Hv' & _ & _ & Hcov & Htf' & _ & Hsync).
  destruct (Hsync Hsa) as (vd & Hvd & Hdisk).
  rewrite Hv in Hvd. injection Hvd as <-.
  split; [done |]. split; [done |]. congruence.
Qed.

Lemma process_urls_returns_persisted_store_witness :
  vector_store Scenario.after_first_run = Some Scenario.store_after_first_run
  ∧ index_dirs (fs Scenario.after_first_run) !! "faiss_index"
    = Some (Readable Scenario.store_after_first_run)
  ∧ text_files (fs Scenario.after_first_run) = Scenario.urls_1_1_2.
Proof.
  apply (process_urls_returns_persisted_store (Scenario.world Scenario.llm_ok)
           (Scenario.processor 2) None None (Scenario.fresh Scenario.urls_1_1_2 ∅)).
  vm_compute. reflexivity.
Defined.

(** X3. However the batch loop ends, it only appends: the records that the
    manager held are still there, in place, and the store on disk is the
    store it was plus whole batches, never ahead of the one in memory. *)
Theorem batch_loop_only_appends
    (W : World) (self : Processor) (urls : list (list Z)) (ks : list Z)
    (s s' : State) (vs vd : VectorStore) (r : result unit) :
  vector_store s = Some vs ->
  index_dirs (fs s) !! faiss_index_path self = Some (Readable vd) ->
  docstore vd `prefix_of` docstore vs ->
  for_each ks (VectorStoreBatchProcessor.process_batch W self urls) s = (r, s') ->
  ∃ vs' vd',
    vector_store s' = Some vs'
    ∧ index_dirs (fs s') !! faiss_index_path self = Some (Readable vd')
    ∧ docstore vs `prefix_of` docstore vs'
    ∧ docstore vd `prefix_of` docstore vd'
    ∧ docstore vd' `prefix_of` docstore vs'.
Proof.
  revert s vs vd. induction ks as [| k ks IH]; intros s vs vd H Hd Hp; simpl.
  - intros [= <- <-]. by exists vs, vd.
  - unfold mbind, M_bind.
    destruct (VectorStoreBatchProcessor.process_batch W self urls k s) as [r1 s1] eqn:E1.
    destruct (PipelineFacts.process_batch_any W self _ _ _ _ _ _ _ H Hd Hp E1)
      as (vs1 & vd1 & Hv1 & Hd1 & Hp1 & Hq1 & Hr1).
    destruct r1 as [[] | e].
    + intros E2. destruct (IH _ _ _ Hv1 Hd1 Hr1 E2) as (vs2 & vd2 & ? & ? & ? & ? & ?).
      exists vs2, vd2. split; [done |]. split; [done |].
      split; [by etrans |]. split; [by etrans |]. done.
    + intros [= <- <-]. by exists vs1, vd1.
Qed.

Lemma batch_loop_only_appends_witness :
  ∃ vs' vd',
    vector_store
      (snd (for_each [0; 1]
              (VectorStoreBatchProcessor.process_batch
                 (Scenario.world Scenario.llm_failing_on_2) (Scenario.processor 2)
                 Scenario.five_urls)
              (Scenario.bootstrapped ∅))) = Some vs'
    ∧ index_dirs
        (fs (snd (for_each [0; 1]
                    (VectorStoreBatchProcessor.process_batch
                       (Scenario.world Scenario.llm_failing_on_2) (Scenario.processor 2)
                       Scenario.five_urls)
                    (Scenario.bootstrapped ∅)))) !! "faiss_index" = Some (Readable vd')
    ∧ docstore Scenario.empty_store `prefix_of` docstore vs'
    ∧ docstore Scenario.empty_store `prefix_of` docstore vd'
    ∧ docstore vd' `prefix_of` docstore vs'.
Proof.
  eapply (batch_loop_only_appends (Scenario.world Scenario.llm_failing_on_2)
            (Scenario.processor 2) Scenario.five_urls [0; 1]
            (Scenario.bootstrapped ∅) _ Scenario.empty_store Scenario.empty_store).
  - vm_compute. reflexivity.
  - vm_compute. reflexivity.
  - exists []. reflexivity.
  - apply surjective_pairing.
Defined.

(** X4. With a positive batch size and no batch limit, a run of
    [process_urls] that returns a store has handed the web loader every URL
    of the source list exactly once and in order: the batches it loaded,
    put end to end, are the list. *)
Theorem process_urls_loads_every_url_once
    (W : World) (self : Processor) (urls_limit : option Z)
    (s s1 : State) (vs : VectorStore) :
  0 < batch_size self ->
  VectorStoreBatchProcessor.process_urls W self None urls_limit s = (Ok (Some vs), s1) ->
  ∃ ls t,
    text_files (fs s) !! urls_file_path self = Some (Lines ls)
    ∧ trace s1 = trace s ++ t
    ∧ concat (web_loaded t) = source_urls W self ls urls_limit.
Proof.
  intros HB Hrun.
  destruct (PipelineFacts.process_urls_ok W self _ _ _ _ _ Hrun)
    as (ls & ra & sa & total & Hf & Ht & Hl & Htot & Hloop & Hv).
  destruct (PipelineFacts.load_or_create_ok W self _ _ _ Hl)
    as (va & ta & -> & Hva & Hsa & Htf & Hw & Hta & Hwa & _).
  destruct (ProcessorFacts.batch_loop_web_loaded W self _ _ _ _ _ Hva Hloop)
    as (tb & Htb & Hwb).
  exists ls, (ta ++ tb). split; [done |].
  split; [by rewrite Htb, Hta, app_assoc |].
  rewrite ProcessorFacts.web_loaded_app, Hwa, Hwb. simpl.
  set (urls := source_urls W self ls urls_limit) in *.
  destruct (ProcessorFacts.total_batches_ceil self (Z.of_nat (length urls)) HB)
    as (t & Ht' & Hceil).
  rewrite Ht' in Htot. injection Htot as <-.
  unfold Py.range. rewrite ProcessorFacts.batches_concat by done.
  apply take_ge. nia.
Qed.

Lemma process_urls_loads_every_url_once_witness :
  ∃ ls t,
    text_files (fs (Scenario.fresh Scenario.urls_1_1_2 ∅)) !! "article_urls.txt"
    = Some (Lines ls)
    ∧ trace Scenario.after_first_run = trace (Scenario.fresh Scenario.urls_1_1_2 ∅) ++ t
    ∧ concat (web_loaded t)
      = source_urls (Scenario.world Scenario.llm_ok) (Scenario.processor 2) ls None.
Proof.
  apply (process_urls_loads_every_url_once (Scenario.world Scenario.llm_ok)
           (Scenario.processor 2) None (Scenario.fresh Scenario.urls_1_1_2 ∅)
           Scenario.after_first_run Scenario.store_after_first_run).
  - reflexivity.
  - vm_compute. reflexivity.
Defined.

(** X5. With batch size 0 and a list file that holds at least one URL,
    [process_urls] raises ZeroDivisionError, and it does so after
    [load_or_create] ran (so the index may just have been created on disk)
    and before any web load. *)
Theorem process_urls_zero_batch_size
    (W : World) (self : Processor) (batch_limit urls_limit : option Z)
    (s sa : State) (ls : list (list Z)) (ra : option VectorStore) :
  batch_size self = 0 ->
  text_files (fs s) !! urls_file_path self = Some (Lines ls) ->
  Py.truthy (stripped_lines ls) = true ->
  FaissManager.load_or_create W (faiss_index_path self) s = (Ok ra, sa) ->
  VectorStoreBatchProcessor.process_urls W self batch_limit urls_limit s
  = (Raise ZeroDivisionError, sa)
  ∧ synced (faiss_index_path self) sa
  ∧ ∃ t, trace sa = trace s ++ t ∧ web_loaded t = [].
Proof.
  intros HB Hf Ht Hl.
  destruct (PipelineFacts.load_or_create_ok W self _ _ _ Hl)
    as (va & ta & -> & Hva & Hsa & Htf & Hw & Hta & Hwa & _).
  split; [| split; [done | by exists ta]].
  rewrite PipelineFacts.process_urls_run, Hf, Ht. cbv zeta.
  unfold mbind at 1, M_bind at 1. rewrite Hl.
  unfold mbind at 1, M_bind at 1, lift.
  unfold VectorStoreBatchProcessor.total_batches, Py.floordiv. by rewrite HB.
Qed.

Lemma process_urls_zero_batch_size_witness :
  VectorStoreBatchProcessor.process_urls (Scenario.world Scenario.llm_ok)
    (Scenario.processor 0) None None (Scenario.fresh Scenario.urls_1_1_2 ∅)
  = (Raise ZeroDivisionError, Scenario.bootstrapped Scenario.urls_1_1_2)
  ∧ synced "faiss_index" (Scenario.bootstrapped Scenario.urls_1_1_2)
  ∧ ∃ t, trace (Scenario.bootstrapped Scenario.urls_1_1_2)
         = trace (Scenario.fresh Scenario.urls_1_1_2 ∅) ++ t
         ∧ web_loaded t = [].
Proof.
  apply (process_urls_zero_batch_size (Scenario.world Scenario.llm_ok)
           (Scenario.processor 0) None None (Scenario.fresh Scenario.urls_1_1_2 ∅)
           (Scenario.bootstrapped Scenario.urls_1_1_2)
           [Scenario.line "https://a/1"; Scenario.line "https://a/1";
            Scenario.line "https://a/2"]
           (Some Scenario.empty_store)).
  - reflexivity.
  - reflexivity.
  - vm_compute. reflexivity.
  - vm_compute. reflexivity.
Defined.

(** * Further properties of the store manager *)

(** X6. When no index exists and the bootstrap fails: a failing probe
    embedding reaches the caller and leaves manager and disk as they were;
    a failing write reaches the caller too, but the manager already holds
    the new empty store while the disk has no index. *)
Theorem bootstrap_failures (W : World) (path : string) (s : State) :
  index_dirs (fs s) !! path = None ->
  (∀ e, embed_query W (py "hello world") = Raise e ->
        FaissManager.load_or_create W path s
        = (Raise e, traced s [EvEmbedQuery (py "hello world")]))
  ∧ (∀ dummy, embed_query W (py "hello world") = Ok dummy ->
              writable (fs s) = false ->
              ∃ s', FaissManager.load_or_create W path s = (Raise OSError, s')
                    ∧ fs s' = fs s
                    ∧ vector_store s' = Some (bootstrap_store dummy)).
Proof.
  intros H. split.
  - intros e He. by rewrite PipelineFacts.load_or_create_run, H, He.
  - intros dummy He Hw. rewrite PipelineFacts.load_or_create_run, H, He. cbv zeta.
    rewrite Hw. by eexists.
Qed.

Lemma bootstrap_failures_witness :
  FaissManager.load_or_create MoreScenario.offline_world "faiss_index" (Scenario.fresh ∅ ∅)
  = (Raise EmbeddingError, traced (Scenario.fresh ∅ ∅) [EvEmbedQuery (py "hello world")])
  ∧ ∃ s', FaissManager.load_or_create (Scenario.world Scenario.llm_ok) "faiss_index"
            (MoreScenario.read_only ∅ ∅) = (Raise OSError, s')
          ∧ fs s' = fs (MoreScenario.read_only ∅ ∅)
          ∧ vector_store s' = Some Scenario.empty_store.
Proof.
  split.
  - destruct (bootstrap_failures MoreScenario.offline_world "faiss_index"
                (Scenario.fresh ∅ ∅)) as [Ha _]; [reflexivity |].
    apply Ha. reflexivity.
  - destruct (bootstrap_failures (Scenario.world Scenario.llm_ok) "faiss_index"
                (MoreScenario.read_only ∅ ∅)) as [_ Hb]; [reflexivity |].
    apply (Hb [0; 0; 0]); reflexivity.
Defined.

(** X7. What [save] writes, [load_or_create] reads back: after a save on a
    writable disk, loading the index path from any process state over that
    disk puts the saved store into the manager, whatever it held before,
    and leaves the disk alone. *)
Theorem save_then_load_round_trip (W : World) (path : string) (s : State) (vs : VectorStore) :
  vector_store s = Some vs ->
  writable (fs s) = true ->
  ∃ s1,
    FaissManager.save path s = (Ok tt, s1)
    ∧ ∀ s2, fs s2 = fs s1 ->
        ∃ s3, FaissManager.load_or_create W path s2 = (Ok (Some vs), s3)
              ∧ vector_store s3 = Some vs
              ∧ fs s3 = fs s2.
Proof.
  intros H Hw.
  pose proof (ProcessorFacts.save_run (mkProcessor "" path 0 None) s vs H) as Hs.
  simpl in Hs. rewrite Hw in Hs.
  eexists. split; [exact Hs |].
  intros s2 Hfs. rewrite PipelineFacts.load_or_create_run, Hfs. simpl.
  rewrite lookup_insert_eq. by eexists.
Qed.

Lemma save_then_load_round_trip_witness :
  ∃ s1,
    FaissManager.save "faiss_index"
      {| fs := fs (Scenario.fresh ∅ ∅);
         vector_store := Some Scenario.store_with_text;
         trace := [] |} = (Ok tt, s1)
    ∧ ∀ s2, fs s2 = fs s1 ->
        ∃ s3, FaissManager.load_or_create (Scenario.world Scenario.llm_ok) "faiss_index" s2
              = (Ok (Some Scenario.store_with_text), s3)
              ∧ vector_store s3 = Some Scenario.store_with_text
              ∧ fs s3 = fs s2.
Proof.
  apply (save_then_load_round_trip (Scenario.world Scenario.llm_ok) "faiss_index"
           {| fs := fs (Scenario.fresh ∅ ∅);
              vector_store := Some Scenario.store_with_text;
              trace := [] |} Scenario.store_with_text); reflexivity.
Defined.

(** X8. [add_documents] on a manager that holds a store works in memory
    only: the disk is as it was; when the embedding model answers, the
    documents are appended after the records already held, and when it
    fails the error reaches the caller and the store is unchanged. *)
Theorem add_documents_appends_in_memory
    (W : World) (path : string) (docs : list Document) (s : State) (vs : VectorStore) :
  vector_store s = Some vs ->
  ∃ r s',
    FaissManager.add_documents W path docs s = (r, s')
    ∧ fs s' = fs s
    ∧ match r with
      | Ok _ => ∃ vectors,
          embed_documents W (map page_content docs) = Ok vectors
          ∧ vector_store s' = Some (extended vs vectors docs)
      | Raise e =>
          embed_documents W (map page_content docs) = Raise e
          ∧ vector_store s' = Some vs
      end.
Proof.
  intros H.
  pose proof (ProcessorFacts.add_documents_run W (mkProcessor "" path 0 None) docs s vs H)
    as Hrun.
  simpl in Hrun. rewrite Hrun.
  destruct (embed_documents W (map page_content docs)) as [vectors | e].
  - eexists _, _. split; [done |]. split; [done |]. by exists vectors.
  - eexists _, _. split; [done |]. by split.
Qed.

Lemma add_documents_appends_in_memory_witness :
  ∃ r s',
    FaissManager.add_documents (Scenario.world Scenario.llm_ok) "faiss_index"
      [Scenario.page_old] (Scenario.bootstrapped ∅) = (r, s')
    ∧ fs s' = fs (Scenario.bootstrapped ∅)
    ∧ match r with
      | Ok _ => ∃ vectors,
          embed_documents (Scenario.world Scenario.llm_ok)
            (map page_content [Scenario.page_old]) = Ok vectors
          ∧ vector_store s' = Some (extended Scenario.empty_store vectors [Scenario.page_old])
      | Raise e =>
          embed_documents (Scenario.world Scenario.llm_ok)
            (map page_content [Scenario.page_old]) = Raise e
          ∧ vector_store s' = Some Scenario.empty_store
      end.
Proof.
  apply (add_documents_appends_in_memory (Scenario.world Scenario.llm_ok) "faiss_index"
           [Scenario.page_old] (Scenario.bootstrapped ∅) Scenario.empty_store).
  vm_compute. reflexivity.
Defined.

(** X9. [add_documents] on a manager without a store loads the index first:
    over a readable index the documents are appended to the loaded store,
    in memory only; over an unreadable one the load error reaches the
    caller and the manager still has no store. *)
Theorem add_documents_loads_first
    (W : World) (path : string) (docs : list Document) (s : State) :
  vector_store s = None ->
  (∀ v0 vectors,
     index_dirs (fs s) !! path = Some (Readable v0) ->
     embed_documents W (map page_content docs) = Ok vectors ->
     ∃ s', FaissManager.add_documents W path docs s = (Ok tt, s')
           ∧ vector_store s' = Some (extended v0 vectors docs)
           ∧ fs s' = fs s)
  ∧ (index_dirs (fs s) !! path = Some Unreadable ->
     ∃ s', FaissManager.add_documents W path docs s = (Raise LoadError, s')
           ∧ vector_store s' = None
           ∧ fs s' = fs s).
Proof.
  intros H. split.
  - intros v0 vectors Hd He.
    unfold FaissManager.add_documents. unfold mbind at 1, M_bind at 1, get.
    rewrite H. unfold mbind at 1, M_bind at 1. unfold mbind at 1, M_bind at 1.
    rewrite PipelineFacts.load_or_create_run, Hd.
    unfold FaissManager.vs_add_documents, mbind, M_bind, mret, M_ret, emit, lift, get,
      set_vector_store. simpl. rewrite He. simpl. by eexists.
  - intros Hd.
    unfold FaissManager.add_documents. unfold mbind at 1, M_bind at 1, get.
    rewrite H. unfold mbind at 1, M_bind at 1. unfold mbind at 1, M_bind at 1.
    rewrite PipelineFacts.load_or_create_run, Hd.
    eexists. split; [done |]. by rewrite <- H.
Qed.

Lemma add_documents_loads_first_witness :
  (∃ s', FaissManager.add_documents (Scenario.world Scenario.llm_ok) "faiss_index"
           [Scenario.page_old] (Scenario.fresh ∅ MoreScenario.disk_with_text) = (Ok tt, s')
         ∧ vector_store s'
           = Some (extended Scenario.store_with_text [[0; 0; 0]] [Scenario.page_old])
         ∧ fs s' = fs (Scenario.fresh ∅ MoreScenario.disk_with_text))
  ∧ (∃ s', FaissManager.add_documents (Scenario.world Scenario.llm_ok) "faiss_index"
             [Scenario.page_old]
             (Scenario.fresh ∅ {[ "faiss_index"%string := Unreadable ]})
           = (Raise LoadError, s')
           ∧ vector_store s' = None
           ∧ fs s' = fs (Scenario.fresh ∅ {[ "faiss_index"%string := Unreadable ]})).
Proof.
  split.
  - destruct (add_documents_loads_first (Scenario.world Scenario.llm_ok) "faiss_index"
                [Scenario.page_old] (Scenario.fresh ∅ MoreScenario.disk_with_text))
      as [Ha _]; [reflexivity |].
    apply Ha; reflexivity.
  - destruct (add_documents_loads_first (Scenario.world Scenario.llm_ok) "faiss_index"
                [Scenario.page_old]
                (Scenario.fresh ∅ {[ "faiss_index"%string := Unreadable ]}))
      as [_ Hb]; [reflexivity |].
    apply Hb; reflexivity.
Defined.

(** * Further properties of the image path *)

Module ImagePipelineFacts.
Section Facts.
Import IngestionHelper VectorStoreBatchProcessor.

Variable W : World.
Variable self : Processor.

(** [process_images], case by case. *)
Lemma process_images_run images s :
  process_images W self images s
  = match FaissManager.load_or_create W (faiss_index_path self) s with
    | (Raise e, sa) => (Ok None, sa)
    | (Ok _, sa) =>
        match vector_store sa with
        | None => (Ok None, sa)
        | Some va =>
            match dedup_images va images with
            | Raise e => (Ok None, sa)
            | Ok unique =>
                if Py.truthy unique then
                  match embed_documents W (map page_content unique) with
                  | Raise e => (Ok None, traced sa [EvAddDocuments unique])
                  | Ok vectors =>
                      let vs' := extended va vectors unique in
                      let t := trace sa ++ [EvAddDocuments unique;
                                            EvSaveLocal (faiss_index_path self)] in
                      if writable (fs sa) then
                        (Ok (Some vs'),
                         {| fs := saved_at (faiss_index_path self) vs' (fs sa);
                            vector_store := Some vs'; trace := t |})
                      else
                        (Ok None, {| fs := fs sa; vector_store := Some vs'; trace := t |})
                  end
                else (Ok (Some va), sa)
            end
        end
    end.
Proof.
  unfold process_images, try_except.
  unfold mbind at 1, M_bind at 1.
  destruct (FaissManager.load_or_create W (faiss_index_path self) s) as [[ra | e] sa];
    [| done].
  unfold mbind at 1, M_bind at 1, db, mbind at 1, M_bind at 1, get.
  destruct (vector_store sa) as [va |] eqn:Hva; [| done]. simpl.
  unfold mbind at 1, M_bind at 1, lift.
  destruct (dedup_images va images) as [unique | e]; [| done].
  unfold mbind at 1, M_bind at 1.
  destruct (Py.truthy unique).
  - unfold mbind at 1, M_bind at 1.
    rewrite (ProcessorFacts.add_documents_run W self unique sa va Hva).
    destruct (embed_documents W (map page_content unique)) as [vectors | e]; [| done].
    rewrite (ProcessorFacts.save_run self _ (extended va vectors unique)) by done.
    simpl. destruct (writable (fs sa)); simpl.
    + unfold mbind, M_bind, get, mret, M_ret. simpl. by rewrite <- app_assoc.
    + unfold traced. simpl. by rewrite <- app_assoc.
  - unfold mbind, M_bind, mret, M_ret, get. simpl. by rewrite Hva.
Qed.

Lemma existing_image_hashes_app l1 l2 acc :
  existing_image_hashes (l1 ++ l2) acc
  = (h1 ← existing_image_hashes l1 acc; existing_image_hashes l2 h1).
Proof.
  revert acc. induction l1 as [| d l1 IH]; intros acc; simpl; [done |].
  destruct (compute_image_hash d); simpl; [apply IH | done].
Qed.

Lemma select_unique_keys (key : Document -> result (list Z)) ex docs us :
  select_unique key ex docs = Ok us ->
  ∀ d, d ∈ docs -> ∃ h, key d = Ok h ∧ (h ∈ ex ∨ d ∈ us).
Proof.
  revert us. induction docs as [| x docs IH]; intros us; simpl.
  - intros _ d Hd. by inversion Hd.
  - destruct (key x) as [hx |] eqn:Ex; simpl; [| done].
    destruct (select_unique key ex docs) as [rest |]; simpl; [| done].
    unfold mret, result_ret. intros [= <-] d Hd.
    apply elem_of_cons in Hd as [-> | Hd].
    + exists hx. split; [done |]. case_bool_decide as Hx.
      * right. apply list_elem_of_here.
      * by left.
    + destruct (IH rest eq_refl d Hd) as (h & Hh & [Hin | Hin]).
      * exists h. by split; [| left].
      * exists h. split; [done |]. right. case_bool_decide; [| done].
        by apply list_elem_of_further.
Qed.

Lemma select_unique_none (key : Document -> result (list Z)) ex docs :
  (∀ d, d ∈ docs -> ∃ h, key d = Ok h ∧ h ∈ ex) ->
  select_unique key ex docs = Ok [].
Proof.
  induction docs as [| x docs IH]; intros H; simpl; [done |].
  destruct (H x (list_elem_of_here _ _)) as (hx & -> & Hx). simpl.
  rewrite IH by (intros d Hd; apply H; by apply list_elem_of_further). simpl.
  unfold mret, result_ret. by rewrite bool_decide_eq_false_2 by (by intros Hn).
Qed.

Lemma existing_image_hashes_total docs acc :
  (∀ d, d ∈ docs -> ∃ h, compute_image_hash d = Ok h) ->
  ∃ hashes, existing_image_hashes docs acc = Ok hashes.
Proof.
  revert acc. induction docs as [| x docs IH]; intros acc H; simpl; [by eexists |].
  destruct (H x (list_elem_of_here _ _)) as (hx & ->). simpl.
  apply IH. intros d Hd. apply H. by apply list_elem_of_further.
Qed.

(** Once the images that passed the filter are in the store, none passes
    it again. *)
Lemma dedup_images_after_commit va images unique vectors :
  dedup_images va images = Ok unique ->
  dedup_images (extended va vectors unique) images = Ok [].
Proof.
  unfold dedup_images. intros H.
  destruct (existing_image_hashes (docstore va) ∅) as [hashes |] eqn:Eh; simpl in H;
    [| done].
  pose proof (select_unique_keys _ _ _ _ H) as Hkeys.
  assert (∀ d, d ∈ unique -> ∃ h, compute_image_hash d = Ok h) as Hu.
  { intros d Hd. destruct (ImageFacts.select_unique_sound _ _ _ _ H d Hd) as (h & Hh & _).
    by exists h. }
  simpl. rewrite existing_image_hashes_app, Eh. simpl.
  destruct (existing_image_hashes_total unique hashes Hu) as [hashes' Eh'].
  rewrite Eh'. simpl.
  destruct (ImageFacts.existing_image_hashes_covers _ _ _ Eh') as (Hsub & Hin & _).
  apply select_unique_none. intros d Hd.
  destruct (Hkeys d Hd) as (h & Hh & [Hold | Hnew]).
  - exists h. split; [done |]. by apply Hsub.
  - exists h. split; [done |]. by apply (Hin d).
Qed.

End Facts.
End ImagePipelineFacts.

(** X10. [process_images] never raises: whatever fails inside, it returns
    None.  When it returns a store, that store is the one the manager holds
    and the one at the index path on disk. *)
Theorem process_images_swallows_errors
    (W : World) (self : Processor) (images : list Document) (s : State) :
  ∃ r s',
    VectorStoreBatchProcessor.process_images W self images s = (Ok r, s')
    ∧ ∀ vs, r = Some vs ->
        vector_store s' = Some vs
        ∧ index_dirs (fs s') !! faiss_index_path self = Some (Readable vs).
Proof.
  rewrite ImagePipelineFacts.process_images_run.
  destruct (FaissManager.load_or_create W (faiss_index_path self) s) as [[ra | e] sa] eqn:El;
    [| by eexists _, _].
  destruct (PipelineFacts.load_or_create_ok W self _ _ _ El)
    as (va & ta & -> & Hva & (vd & Hvd & Hdisk) & _).
  rewrite Hva in *. injection Hvd as <-.
  destruct (VectorStoreBatchProcessor.dedup_images va images) as [unique | e];
    [| by eexists _, _].
  destruct (Py.truthy unique).
  - destruct (embed_documents W _) as [vectors | e]; [| by eexists _, _]. cbv zeta.
    destruct (writable (fs sa)); [| by eexists _, _].
    eexists _, _. split; [done |]. intros vs [= <-]. simpl.
    split; [done |]. apply lookup_insert_eq.
  - eexists _, _. split; [done |]. by intros vs [= <-].
Qed.

(** X11. Calling [process_images] again with the same images after a call
    that returned a store returns that store and commits nothing: every
    image is now a duplicate, the disk is unchanged, and the second call
    makes no [add_documents] and no [save_local] call. *)
Theorem process_images_idempotent
    (W : World) (self : Processor) (images : list Document)
    (s s1 : State) (vs : VectorStore) :
  VectorStoreBatchProcessor.process_images W self images s = (Ok (Some vs), s1) ->
  ∃ s2 t,
    VectorStoreBatchProcessor.process_images W self images s1 = (Ok (Some vs), s2)
    ∧ fs s2 = fs s1
    ∧ trace s2 = trace s1 ++ t
    ∧ store_untouched t.
Proof.
  rewrite ImagePipelineFacts.process_images_run.
  destruct (FaissManager.load_or_create W (faiss_index_path self) s) as [[ra | e] sa] eqn:El;
    [| done].
  destruct (PipelineFacts.load_or_create_ok W self _ _ _ El)
    as (va & ta & -> & Hva & (vd & Hvd & Hdisk) & _).
  rewrite Hva in *. injection Hvd as <-.
  destruct (VectorStoreBatchProcessor.dedup_images va images) as [unique | e] eqn:Ed;
    [| done].
  assert (∀ v s1',
            index_dirs (fs s1') !! faiss_index_path self = Some (Readable v) ->
            VectorStoreBatchProcessor.dedup_images v images = Ok [] ->
            ∃ s2 t,
              VectorStoreBatchProcessor.process_images W self images s1' = (Ok (Some v), s2)
              ∧ fs s2 = fs s1' ∧ trace s2 = trace s1' ++ t ∧ store_untouched t) as Hagain.
  { intros v s1' Hd Hz.
    rewrite ImagePipelineFacts.process_images_run, PipelineFacts.load_or_create_run, Hd.
    simpl. rewrite Hz. simpl.
    eexists _, _. split; [done |]. split; [done |]. split; [done |].
    intros ev Hev. by apply list_elem_of_singleton in Hev as ->. }
  destruct (Py.truthy unique) eqn:Hu.
  - destruct (embed_documents W _) as [vectors | e]; [| done]. cbv zeta.
    destruct (writable (fs sa)); [| done].
    intros [= <- <-]. apply Hagain.
    + simpl. apply lookup_insert_eq.
    + by apply ImagePipelineFacts.dedup_images_after_commit.
  - intros [= <- <-]. apply Hagain; [done |].
    by destruct unique.
Qed.

Lemma process_images_idempotent_witness :
  ∃ s2 t,
    VectorStoreBatchProcessor.process_images (Scenario.world Scenario.llm_ok)
      (Scenario.processor 2) [Scenario.broken_image_1; Scenario.good_image]
      (snd (VectorStoreBatchProcessor.process_images (Scenario.world Scenario.llm_ok)
              (Scenario.processor 2) [Scenario.broken_image_1; Scenario.good_image]
              (Scenario.fresh ∅ ∅)))
    = (Ok (Some (extended Scenario.empty_store [[0; 0; 0]; [0; 0; 0]]
                   [Scenario.broken_image_1; Scenario.good_image])), s2)
    ∧ fs s2
      = fs (snd (VectorStoreBatchProcessor.process_images (Scenario.world Scenario.llm_ok)
                   (Scenario.processor 2) [Scenario.broken_image_1; Scenario.good_image]
                   (Scenario.fresh ∅ ∅)))
    ∧ trace s2
      = trace (snd (VectorStoreBatchProcessor.process_images (Scenario.world Scenario.llm_ok)
                      (Scenario.processor 2) [Scenario.broken_image_1; Scenario.good_image]
                      (Scenario.fresh ∅ ∅))) ++ t
    ∧ store_untouched t.
Proof.
  apply (process_images_idempotent (Scenario.world Scenario.llm_ok) (Scenario.processor 2)
           [Scenario.broken_image_1; Scenario.good_image] (Scenario.fresh ∅ ∅)).
  vm_compute. reflexivity.
Defined.

(** * Further properties of the helpers *)

Module StripFacts.

Lemma lstrip_head s c r : Py.lstrip s = c :: r -> Py.isspace c = false.
Proof.
  induction s as [| a s IH]; simpl; [done |].
  destruct (Py.isspace a) eqn:Ea; [exact IH |]. by intros [= <- <-].
Qed.

Lemma lstrip_fixed c r : Py.isspace c = false -> Py.lstrip (c :: r) = c :: r.
Proof. simpl. by intros ->. Qed.

Lemma lstrip_suffix s : ∃ pre, s = pre ++ Py.lstrip s.
Proof.
  induction s as [| a s [pre IH]]; simpl; [by exists [] |].
  destruct (Py.isspace a).
  - exists (a :: pre). simpl. by rewrite <- IH.
  - by exists [].
Qed.

(** The shape of [strip s]: empty, or with a first and a last character that
    are not white space. *)
Lemma strip_shape s :
  Py.strip s = []
  ∨ ∃ c r c' r', Py.strip s = rev (c :: r)
                 ∧ Py.isspace c = false
                 ∧ rev (c :: r) = c' :: r'
                 ∧ Py.isspace c' = false.
Proof.
  unfold Py.strip.
  destruct (Py.lstrip (rev (Py.lstrip s))) as [| c r] eqn:Eu; [by left |].
  right.
  pose proof (lstrip_head _ _ _ Eu) as Hc.
  destruct (lstrip_suffix (rev (Py.lstrip s))) as [pre Hpre].
  rewrite Eu in Hpre.
  assert (Py.lstrip s = rev (c :: r) ++ rev pre) as Ht.
  { rewrite <- (rev_involutive (Py.lstrip s)), Hpre, rev_app_distr. done. }
  destruct (rev (c :: r)) as [| c' r'] eqn:Er.
  { apply (f_equal (@length Z)) in Er. rewrite length_rev in Er. done. }
  exists c, r, c', r'. split; [by rewrite Er |]. split; [done |]. split; [done |].
  simpl in Ht. by apply lstrip_head in Ht.
Qed.

Lemma strip_idempotent s : Py.strip (Py.strip s) = Py.strip s.
Proof.
  destruct (strip_shape s) as [-> | (c & r & c' & r' & -> & Hc & Er & Hc')]; [done |].
  unfold Py.strip at 1. rewrite Er.
  rewrite (lstrip_fixed c' r') by done.
  rewrite <- Er, rev_involutive. by rewrite lstrip_fixed.
Qed.

Lemma strip_trimmed s : Py.strip s <> [] -> trimmed (Py.strip s).
Proof.
  intros Hne. split; [done |].
  destruct (strip_shape s) as [E | (c & r & c' & r' & E & Hc & Er & Hc')]; [done |].
  rewrite E. split.
  - intros c0 r0 H0. rewrite Er in H0. by injection H0 as <- <-.
  - intros c0 r0 H0. simpl in H0. apply app_inj_tail in H0 as [_ <-]. done.
Qed.

Lemma truthy_nonempty {A : Type} (l : list A) : Py.truthy l = true ↔ l <> [].
Proof. by destruct l. Qed.

End StripFacts.

(** X12. When the list file can be read, [_read_urls_file] returns, in file
    order, the stripped lines that are not blank and changes nothing: every
    URL it returns is non-empty, has no white space at either end, and is
    left alone by a further [strip]. *)
Theorem read_urls_file_returns_trimmed_lines
    (self : Processor) (s : State) (ls : list (list Z)) :
  text_files (fs s) !! urls_file_path self = Some (Lines ls) ->
  ∃ urls,
    VectorStoreBatchProcessor._read_urls_file self s = (Ok urls, s)
    ∧ urls = filter (fun u => u <> []) (map Py.strip ls)
    ∧ Forall trimmed urls
    ∧ Forall (fun u => Py.strip u = u) urls.
Proof.
  intros H. exists (stripped_lines ls).
  rewrite PipelineFacts.read_urls_file_run, H. split; [done |].
  assert (stripped_lines ls = filter (fun u => u <> []) (map Py.strip ls)) as E.
  { clear H. unfold stripped_lines. induction ls as [| l ls IH]; [done |].
    simpl. rewrite !filter_cons.
    destruct (decide (Py.truthy (Py.strip l) = true)) as [Ht | Ht];
      destruct (decide (Py.strip l <> [])) as [Hn | Hn].
    - simpl. by rewrite IH.
    - by apply StripFacts.truthy_nonempty in Ht.
    - by apply StripFacts.truthy_nonempty in Hn.
    - exact IH. }
  split; [exact E |]. rewrite E. split.
  - apply Forall_forall. intros u Hu.
    apply list_elem_of_filter in Hu as [Hne Hu].
    apply list_elem_of_fmap in Hu as (l & -> & _). by apply StripFacts.strip_trimmed.
  - apply Forall_forall. intros u Hu.
    apply list_elem_of_filter in Hu as [_ Hu].
    apply list_elem_of_fmap in Hu as (l & -> & _). apply StripFacts.strip_idempotent.
Qed.

Lemma read_urls_file_returns_trimmed_lines_witness :
  ∃ urls,
    VectorStoreBatchProcessor._read_urls_file (Scenario.processor 2)
      (Scenario.fresh Scenario.urls_1_1_2 ∅)
    = (Ok urls, Scenario.fresh Scenario.urls_1_1_2 ∅)
    ∧ urls = filter (fun u => u <> [])
               (map Py.strip [Scenario.line "https://a/1"; Scenario.line "https://a/1";
                              Scenario.line "https://a/2"])
    ∧ Forall trimmed urls
    ∧ Forall (fun u => Py.strip u = u) urls.
Proof.
  apply (read_urls_file_returns_trimmed_lines (Scenario.processor 2)
           (Scenario.fresh Scenario.urls_1_1_2 ∅)).
  reflexivity.
Defined.

Module UrlFacts.
Import IngestionHelper.

Lemma startswith_https url : Py.startswith (py "https:" ++ url) (py "http") = true.
Proof. reflexivity. Qed.

Lemma startswith_https_slashes url :
  Py.startswith (py "https://" ++ url) (py "http") = true.
Proof. reflexivity. Qed.

Lemma normalize_url_http W url base :
  Py.startswith url (py "http") = true -> normalize_url W url base = url.
Proof. unfold normalize_url. by intros ->. Qed.

End UrlFacts.

(** X13. [normalize_url] leaves a URL that starts with http as it is.  In
    every case but the one where it calls [urljoin] (a URL with one leading
    slash and a non-empty base) its result starts with http, so normalizing
    a second time changes nothing. *)
Theorem normalize_url_idempotent (W : World) (url : list Z) (base : option (list Z)) :
  Py.startswith url (py "http") = true
  ∨ Py.startswith url (py "//") = true
  ∨ Py.startswith url (py "/") = false
  ∨ base = None ∨ base = Some [] ->
  Py.startswith (IngestionHelper.normalize_url W url base) (py "http") = true
  ∧ IngestionHelper.normalize_url W (IngestionHelper.normalize_url W url base) base
    = IngestionHelper.normalize_url W url base.
Proof.
  intros H.
  assert (Py.startswith (IngestionHelper.normalize_url W url base) (py "http") = true) as Hs.
  { unfold IngestionHelper.normalize_url.
    destruct (Py.startswith url (py "http")) eqn:E1; simpl; [done |].
    destruct (Py.startswith url (py "//")) eqn:E2; [apply UrlFacts.startswith_https |].
    destruct (Py.startswith url (py "/")) eqn:E3;
      [| apply UrlFacts.startswith_https_slashes].
    destruct H as [H | [H | [H | [-> | ->]]]]; try done;
      apply UrlFacts.startswith_https. }
  split; [exact Hs |]. by apply UrlFacts.normalize_url_http.
Qed.

Lemma normalize_url_idempotent_witness :
  Py.startswith
    (IngestionHelper.normalize_url (Scenario.world Scenario.llm_ok)
       (py "www.deeplearning.ai/the-batch/") (Some (py "https://www.deeplearning.ai")))
    (py "http") = true
  ∧ IngestionHelper.normalize_url (Scenario.world Scenario.llm_ok)
      (IngestionHelper.normalize_url (Scenario.world Scenario.llm_ok)
         (py "www.deeplearning.ai/the-batch/") (Some (py "https://www.deeplearning.ai")))
      (Some (py "https://www.deeplearning.ai"))
    = IngestionHelper.normalize_url (Scenario.world Scenario.llm_ok)
        (py "www.deeplearning.ai/the-batch/") (Some (py "https://www.deeplearning.ai")).
Proof.
  apply (normalize_url_idempotent (Scenario.world Scenario.llm_ok)
           (py "www.deeplearning.ai/the-batch/") (Some (py "https://www.deeplearning.ai"))).
  right. right. left. reflexivity.
Defined.

(** * Properties of the scrapers *)

Module LimitFacts.

Lemma limit_reached_spec (l : Z) (n : nat) :
  l <> 0 -> (0 < n)%nat ->
  PyMore.limit_reached (Some l) n = bool_decide (Z.to_nat (Z.max l 1) ≤ n)%nat.
Proof.
  intros Hl Hn. unfold PyMore.limit_reached.
  destruct (Z.eqb_spec l 0); [done |]. simpl.
  case_bool_decide; [apply Z.leb_le | apply Z.leb_gt]; lia.
Qed.

Lemma limit_never (limit : option Z) (n : nat) :
  limit = None ∨ limit = Some 0 -> PyMore.limit_reached limit n = false.
Proof. by intros [-> | ->]. Qed.

End LimitFacts.

Module SitemapFacts.
Import TheBatchSitemapScraper.

Lemma filter_loop_step limit url r acc :
  filter_loop limit (url :: r) acc
  = if is_article url then
      if PyMore.limit_reached limit (length (acc ++ [url])) then acc ++ [url]
      else filter_loop limit r (acc ++ [url])
    else filter_loop limit r acc.
Proof.
  unfold is_article. simpl.
  destruct (PyMore.contains (py "/tag/") url); [done |].
  destruct (PyMore.contains (py "/page/") url); [done |].
  destruct (PyMore.contains (py "/category/") url); [done |].
  destruct (PyMore.contains (py "/author/") url); [done |].
  by destruct (PyMore.contains (py "/the-batch/") url).
Qed.

Lemma filter_loop_unlimited limit all : ∀ acc,
  limit = None ∨ limit = Some 0 ->
  filter_loop limit all acc = acc ++ filter (fun u => is_article u = true) all.
Proof.
  induction all as [| url r IH]; intros acc H.
  - simpl. by rewrite app_nil_r.
  - rewrite filter_loop_step, filter_cons, LimitFacts.limit_never by done.
    destruct (is_article url) eqn:E.
    + rewrite IH by done. rewrite decide_True by done. by rewrite <- app_assoc.
    + rewrite IH by done. by rewrite decide_False by done.
Qed.

Lemma filter_loop_limited (l : Z) all : ∀ acc,
  l <> 0 -> (length acc < Z.to_nat (Z.max l 1))%nat ->
  filter_loop (Some l) all acc
  = take (Z.to_nat (Z.max l 1)) (acc ++ filter (fun u => is_article u = true) all).
Proof.
  induction all as [| url r IH]; intros acc Hl Hacc.
  - simpl. rewrite app_nil_r. by rewrite take_ge by lia.
  - rewrite filter_loop_step, filter_cons.
    destruct (is_article url) eqn:E.
    + rewrite decide_True by done.
      rewrite LimitFacts.limit_reached_spec by (rewrite ?length_app; simpl; lia).
      rewrite length_app. simpl. case_bool_decide as Hm.
      * replace (acc ++ url :: filter (fun u => is_article u = true) r)
          with ((acc ++ [url]) ++ filter (fun u => is_article u = true) r)
          by (by rewrite <- app_assoc).
        symmetry. apply take_app_length'. rewrite length_app. simpl. lia.
      * rewrite IH by (rewrite ?length_app; simpl; lia). by rewrite <- app_assoc.
    + rewrite decide_False by done. by apply IH.
Qed.

End SitemapFacts.

(** X14. The loop of [save_all_article_urls] keeps, in order, the URLs that
    contain /the-batch/ and none of /tag/, /page/, /category/ and /author/.
    Without a limit, or with limit 0, it keeps all of them; with any other
    limit it keeps the first [limit] of them, and at least the first one,
    also for a negative limit. *)
Theorem filter_loop_keeps_first_articles (limit : option Z) (all : list (list Z)) :
  TheBatchSitemapScraper.filter_loop limit all []
  = limited limit (filter (fun u => is_article u = true) all).
Proof.
  unfold limited. destruct limit as [l |].
  - destruct (Z.eqb_spec l 0) as [-> | Hl].
    + rewrite SitemapFacts.filter_loop_unlimited by (by right). done.
    + rewrite SitemapFacts.filter_loop_limited by (simpl; lia). done.
  - rewrite SitemapFacts.filter_loop_unlimited by (by left). done.
Qed.

Module DirectoryFacts.
Section Facts.
Import ImageDirectory.

Variable os : ImageWorld.

Lemma scan_files_unlimited limit dirpath names : ∀ acc,
  limit = None ∨ limit = Some 0 ->
  scan_files os limit dirpath names acc = acc ++ images_of os (dirpath, names).
Proof.
  unfold images_of. simpl.
  induction names as [| name r IH]; intros acc H; simpl.
  - by rewrite app_nil_r.
  - rewrite filter_cons, LimitFacts.limit_never by done.
    destruct (is_image_name os name) eqn:E.
    + rewrite IH by done. rewrite decide_True by done. simpl. by rewrite <- app_assoc.
    + rewrite IH by done. by rewrite decide_False by done.
Qed.

Lemma scan_files_limited (l : Z) dirpath names : ∀ acc,
  l <> 0 -> (length acc < Z.to_nat (Z.max l 1))%nat ->
  scan_files os (Some l) dirpath names acc
  = take (Z.to_nat (Z.max l 1)) (acc ++ images_of os (dirpath, names)).
Proof.
  unfold images_of. simpl.
  induction names as [| name r IH]; intros acc Hl Hacc.
  - simpl. rewrite app_nil_r. by rewrite take_ge by lia.
  - simpl. rewrite filter_cons.
    destruct (is_image_name os name) eqn:E.
    + rewrite decide_True by done.
      rewrite LimitFacts.limit_reached_spec by (rewrite ?length_app; simpl; lia).
      rewrite length_app. simpl. case_bool_decide as Hm.
      * simpl.
        set (rest := map (PyMore.path_join dirpath)
                       (filter (fun n => is_image_name os n = true) r)).
        transitivity (take (Z.to_nat (Z.max l 1))
                        ((acc ++ [PyMore.path_join dirpath name]) ++ rest)).
        -- symmetry. apply take_app_length'. rewrite length_app. simpl. lia.
        -- by rewrite <- app_assoc.
      * rewrite IH by (rewrite ?length_app; simpl; lia). by rewrite <- app_assoc.
    + rewrite decide_False by done. by apply IH.
Qed.

Lemma scan_dirs_unlimited limit triples : ∀ acc,
  limit = None ∨ limit = Some 0 ->
  scan_dirs os limit triples acc = acc ++ flat_map (images_of os) triples.
Proof.
  induction triples as [| [dirpath names] r IH]; intros acc H; simpl.
  - by rewrite app_nil_r.
  - rewrite LimitFacts.limit_never by done.
    rewrite IH, scan_files_unlimited by done. by rewrite <- app_assoc.
Qed.

Lemma scan_dirs_limited (l : Z) triples : ∀ acc,
  1 <= l -> (length acc < Z.to_nat l)%nat ->
  scan_dirs os (Some l) triples acc
  = take (Z.to_nat l) (acc ++ flat_map (images_of os) triples).
Proof.
  induction triples as [| [dirpath names] r IH]; intros acc Hl Hacc; simpl.
  - rewrite app_nil_r. by rewrite take_ge by lia.
  - rewrite scan_files_limited by lia.
    replace (Z.max l 1) with l by lia.
    set (imgs := images_of os (dirpath, names)).
    destruct (decide (Z.to_nat l ≤ length (acc ++ imgs))%nat) as [Hge | Hlt].
    + assert (length (take (Z.to_nat l) (acc ++ imgs)) = Z.to_nat l) as Hlen
        by (rewrite length_take; lia).
      rewrite LimitFacts.limit_reached_spec by lia.
      rewrite bool_decide_eq_true_2 by lia.
      rewrite (app_assoc acc imgs). by rewrite (take_app_le (acc ++ imgs)) by lia.
    + rewrite (take_ge (acc ++ imgs)) by lia.
      destruct (decide (acc ++ imgs = [])) as [E | E].
      * assert (PyMore.limit_reached (Some l) 0 = false) as H0.
        { unfold PyMore.limit_reached. destruct (Z.eqb_spec l 0); [done |].
          simpl. apply Z.leb_gt. lia. }
        rewrite E. simpl length. rewrite H0, IH by (simpl; lia).
        by rewrite (app_assoc acc imgs), E.
      * assert (0 < length (acc ++ imgs))%nat
          by (destruct (acc ++ imgs); [done | simpl; lia]).
        rewrite LimitFacts.limit_reached_spec by lia.
        rewrite bool_decide_eq_false_2 by lia.
        rewrite IH by lia.
        by rewrite <- app_assoc.
Qed.

End Facts.
End DirectoryFacts.

(** X15. [index_images_in_directory] indexes the files whose lower-cased
    name ends in .jpg, .jpeg or .png, in walk order: all of them without a
    limit or with limit 0, the first [limit] of them for a positive limit,
    so never more than [limit] documents.  With a negative limit it looks
    at the first directory of the walk only and takes at most one image. *)
Theorem index_images_in_directory_limit (os : ImageWorld) (limit : option Z) (l : Z) :
  limit = None ∨ limit = Some l ->
  (limit = None ∨ 0 <= l ->
     ImageDirectory.index_images_in_directory os limit
     = imap (ImageDirectory.index_image os) (limited limit (all_images os)))
  ∧ (limit = Some l -> 1 <= l ->
     (length (ImageDirectory.index_images_in_directory os limit) ≤ Z.to_nat l)%nat)
  ∧ (limit = Some l -> l < 0 ->
     ImageDirectory.index_images_in_directory os limit
     = imap (ImageDirectory.index_image os)
         (take 1 (flat_map (images_of os) (take 1 (walk os))))).
Proof.
  intros Hlim.
  assert (limit = None ∨ 0 <= l ->
          ImageDirectory.scan_dirs os limit (walk os) []
          = limited limit (all_images os)) as Hscan.
  { intros Hok. unfold limited, all_images.
    destruct Hlim as [-> | ->].
    - by rewrite DirectoryFacts.scan_dirs_unlimited by (by left).
    - destruct Hok as [Hn | Hl]; [done |].
      destruct (Z.eqb_spec l 0) as [-> | Hne].
      + by rewrite DirectoryFacts.scan_dirs_unlimited by (by right).
      + rewrite DirectoryFacts.scan_dirs_limited by (simpl; lia).
        simpl. f_equal. lia. }
  split; [| split].
  - intros Hok. unfold ImageDirectory.index_images_in_directory. by rewrite Hscan.
  - intros -> Hl. unfold ImageDirectory.index_images_in_directory.
    rewrite length_imap, Hscan by (right; lia). unfold limited.
    destruct (Z.eqb_spec l 0); [lia |]. rewrite length_take. lia.
  - intros -> Hl. unfold ImageDirectory.index_images_in_directory. f_equal.
    destruct (walk os) as [| [dirpath names] r]; [done |]. simpl.
    rewrite DirectoryFacts.scan_files_limited by (simpl; lia).
    replace (Z.to_nat (Z.max l 1)) with 1%nat by lia. simpl.
    rewrite app_nil_r.
    set (imgs := images_of os (dirpath, names)).
    assert (PyMore.limit_reached (Some l) (length (take 1 imgs)) = true) as ->; [| done].
    unfold PyMore.limit_reached. destruct (Z.eqb_spec l 0); [lia |]. simpl.
    apply Z.leb_le. lia.
Qed.

Lemma index_images_in_directory_limit_witness :
  (length (ImageDirectory.index_images_in_directory ImageScenario.folder (Some 2%Z))
   ≤ Z.to_nat 2)%nat.
Proof.
  destruct (index_images_in_directory_limit ImageScenario.folder (Some 2) 2)
    as (_ & H & _); [by right |].
  apply H; [reflexivity | lia].
Defined.

(** * Properties of the image payload *)

Module Base16Facts.
Import ImageCaptioner Frontend.

Lemma b16_digit_ok d :
  0 <= d < 16 ->
  is_b16_digit (b16_digit d) = true
  ∧ b16_value (b16_digit d) = d
  ∧ 0 <= b16_digit d < 128.
Proof.
  intros Hd. unfold is_b16_digit, b16_value, b16_digit.
  destruct (Z.ltb_spec d 10).
  - replace (48 <=? 48 + d) with true by (symmetry; apply Z.leb_le; lia).
    replace (48 + d <=? 57) with true by (symmetry; apply Z.leb_le; lia).
    simpl. split; [done |]. split; lia.
  - replace (55 + d <=? 57) with false by (symmetry; apply Z.leb_gt; lia).
    replace (65 <=? 55 + d) with true by (symmetry; apply Z.leb_le; lia).
    replace (55 + d <=? 70) with true by (symmetry; apply Z.leb_le; lia).
    rewrite andb_false_r. simpl. split; [done |]. split; lia.
Qed.

Lemma nibbles b :
  octet b ->
  0 <= Z.shiftr b 4 < 16 ∧ 0 <= Z.land b 0xF < 16
  ∧ 16 * Z.shiftr b 4 + Z.land b 0xF = b.
Proof.
  unfold octet. intros Hb.
  rewrite PyStrFacts.land_15, PyStrFacts.shiftr_div by lia.
  change (2 ^ 4) with 16. Z.div_mod_to_equations. lia.
Qed.

Lemma b16encode_cons b data :
  b16encode (b :: data)
  = b16_digit (Z.shiftr b 4) :: b16_digit (Z.land b 0xF) :: b16encode data.
Proof. reflexivity. Qed.

Lemma b16encode_ascii data :
  Forall octet data -> Forall (fun x => 0 <= x < 128) (b16encode data).
Proof.
  induction 1 as [| b data Hb _ IH]; [constructor |].
  rewrite b16encode_cons. destruct (nibbles b Hb) as (Hh & Hl & _).
  constructor; [apply b16_digit_ok, Hh |].
  constructor; [apply b16_digit_ok, Hl | exact IH].
Qed.

Lemma b16encode_digits data :
  Forall octet data -> forallb is_b16_digit (b16encode data) = true.
Proof.
  induction 1 as [| b data Hb _ IH]; [done |].
  rewrite b16encode_cons. destruct (nibbles b Hb) as (Hh & Hl & _).
  simpl. rewrite (proj1 (b16_digit_ok _ Hh)), (proj1 (b16_digit_ok _ Hl)). exact IH.
Qed.

Lemma unhexlify_b16encode data :
  Forall octet data -> unhexlify (b16encode data) = Some data.
Proof.
  induction 1 as [| b data Hb _ IH]; [done |].
  rewrite b16encode_cons. destruct (nibbles b Hb) as (Hh & Hl & Hsum).
  simpl. rewrite IH.
  rewrite (proj1 (proj2 (b16_digit_ok _ Hh))), (proj1 (proj2 (b16_digit_ok _ Hl))).
  by rewrite Hsum.
Qed.

Lemma b16decode_b16encode data :
  Forall octet data -> b16decode (b16encode data) = inr data.
Proof.
  intros H. unfold b16decode.
  assert (forallb (fun c => (0 <=? c) && (c <? 128)) (b16encode data) = true) as ->.
  { apply forallb_forall. intros x Hx.
    pose proof (b16encode_ascii data H) as Ha. rewrite Forall_forall in Ha.
    apply list_elem_of_In in Hx. specialize (Ha x Hx).
    apply andb_true_iff. split; [apply Z.leb_le | apply Z.ltb_lt]; lia. }
  rewrite b16encode_digits by done. simpl.
  by rewrite unhexlify_b16encode.
Qed.

Lemma encoded_image_lookup description idx abs_path image_file :
  metadata (index_image_document description idx abs_path image_file)
    !! "encoded_image"%string
  = Some (VStr (_encode_image image_file)).
Proof.
  unfold index_image_document. simpl.
  rewrite !lookup_insert_ne by done. apply lookup_insert_eq.
Qed.

End Base16Facts.

(** X16. The result page gets back the image that was indexed: decoding the
    base16 text that [_encode_image] produced from the octets of a file
    yields those octets, and so does decoding the [encoded_image] field of
    the document that [index_image] built for that file. *)
Theorem encoded_image_round_trip
    (description idx abs_path : list Z) (data : list Z) :
  Forall (fun b => 0 <= b < 256) data ->
  Frontend.b16decode (ImageCaptioner.b16encode data) = inr data
  ∧ Frontend.image_bytes
      (ImageCaptioner.index_image_document description idx abs_path (Some data))
    = inr data.
Proof.
  intros H. split; [by apply Base16Facts.b16decode_b16encode |].
  unfold Frontend.image_bytes. rewrite Base16Facts.encoded_image_lookup. simpl.
  by apply Base16Facts.b16decode_b16encode.
Qed.

Lemma encoded_image_round_trip_witness :
  Frontend.b16decode (ImageCaptioner.b16encode [0xFF; 0xD8; 0xFF]) = inr [0xFF; 0xD8; 0xFF]
  ∧ Frontend.image_bytes Scenario.good_image = inr [0xFF; 0xD8; 0xFF].
Proof.
  apply (encoded_image_round_trip (py "a robot") (py "id-3") (py "/data/images/3.png")
           [0xFF; 0xD8; 0xFF]).
  repeat (constructor; [lia |]). constructor.
Defined.

(** X17. For image files that could be read, the image fingerprint is the
    md5 of the base16 text of the file, computed without raising; files with
    different octets are hashed from different text, and a file with at
    least one octet never has the empty payload that unreadable files
    share. *)
Theorem image_fingerprint_of_readable_files
    (d1 i1 p1 d2 i2 p2 : list Z) (data1 data2 : list Z) :
  Forall (fun b => 0 <= b < 256) data1 ->
  Forall (fun b => 0 <= b < 256) data2 ->
  IngestionHelper.compute_image_hash
    (ImageCaptioner.index_image_document d1 i1 p1 (Some data1))
  = Ok (MD5.hexdigest (ImageCaptioner.b16encode data1))
  ∧ (data1 <> data2 -> ImageCaptioner.b16encode data1 <> ImageCaptioner.b16encode data2)
  ∧ (data1 <> [] ->
     ¬ payload_missing (ImageCaptioner.index_image_document d1 i1 p1 (Some data1))).
Proof.
  intros H1 H2. split; [| split].
  - unfold IngestionHelper.compute_image_hash.
    rewrite Base16Facts.encoded_image_lookup. simpl.
    by rewrite JsonFacts.encode_utf8_ascii by (by apply Base16Facts.b16encode_ascii).
  - intros Hne E. apply Hne.
    pose proof (Base16Facts.b16decode_b16encode data1 H1) as R1.
    pose proof (Base16Facts.b16decode_b16encode data2 H2) as R2.
    rewrite E in R1. congruence.
  - intros Hne [Hm | Hm]; rewrite Base16Facts.encoded_image_lookup in Hm; [done |].
    injection Hm as Hm. destruct data1 as [| b data1]; [done |].
    by rewrite Base16Facts.b16encode_cons in Hm.
Qed.

Lemma image_fingerprint_of_readable_files_witness :
  IngestionHelper.compute_image_hash Scenario.good_image
  = Ok (MD5.hexdigest (ImageCaptioner.b16encode [0xFF; 0xD8; 0xFF]))
  ∧ ([0xFF; 0xD8; 0xFF] <> [0x89; 0x50] ->
     ImageCaptioner.b16encode [0xFF; 0xD8; 0xFF] <> ImageCaptioner.b16encode [0x89; 0x50])
  ∧ ([0xFF; 0xD8; 0xFF] <> [] -> ¬ payload_missing Scenario.good_image).
Proof.
  apply (image_fingerprint_of_readable_files (py "a robot") (py "id-3")
           (py "/data/images/3.png") [] [] [] [0xFF; 0xD8; 0xFF] [0x89; 0x50]).
  - repeat (constructor; [lia |]). constructor.
  - repeat (constructor; [lia |]). constructor.
Defined.

(** * Properties of the URL list file *)

Module UrlListFacts.
Import TheBatchSitemapScraper.

Lemma dict_fromkeys_from l : ∀ keys,
  NoDup keys ->
  ∃ ext,
    fold_left (fun keys x => if bool_decide (x ∈ keys) then keys else keys ++ [x]) l keys
    = keys ++ ext
    ∧ NoDup (keys ++ ext)
    ∧ ext `sublist_of` l
    ∧ (∀ x : list Z, x ∈ l -> x ∈ keys ++ ext).
Proof.
  induction l as [| x l IH]; intros keys Hk; simpl.
  - exists []. rewrite app_nil_r. split; [done |]. split; [done |]. split; [done |].
    intros x Hx. by inversion Hx.
  - case_bool_decide as Hx.
    + destruct (IH keys Hk) as (ext & E & Hn & Hs & Hin).
      exists ext. split; [done |]. split; [done |]. split; [by apply sublist_cons |].
      intros y Hy. apply elem_of_cons in Hy as [-> | Hy]; [| by apply Hin].
      apply elem_of_app. by left.
    + assert (NoDup (keys ++ [x])) as Hk'.
      { apply NoDup_app. split; [done |]. split; [| apply NoDup_singleton].
        intros y Hy Hy'. apply list_elem_of_singleton in Hy' as ->. done. }
      destruct (IH (keys ++ [x]) Hk') as (ext & E & Hn & Hs & Hin).
      exists (x :: ext). rewrite E, <- !app_assoc. simpl.
      split; [done |]. split; [by rewrite <- app_assoc in Hn |].
      split; [by apply sublist_skip |].
      intros y Hy. rewrite <- app_assoc in Hin. simpl in Hin.
      apply elem_of_cons in Hy as [-> | Hy]; [| by apply Hin].
      apply elem_of_app. right. apply list_elem_of_here.
Qed.

(** [list(dict.fromkeys(l))] has the elements of [l], each once, in the
    order of [l]. *)
Lemma dict_fromkeys_spec l :
  NoDup (PyMore.dict_fromkeys l)
  ∧ PyMore.dict_fromkeys l `sublist_of` l
  ∧ (∀ x, x ∈ PyMore.dict_fromkeys l ↔ x ∈ l).
Proof.
  unfold PyMore.dict_fromkeys.
  destruct (dict_fromkeys_from l [] (NoDup_nil_2)) as (ext & -> & Hn & Hs & Hin).
  simpl in *. split; [done |]. split; [done |].
  intros x. split; [| apply Hin]. intros Hx. by eapply elem_of_sublist.
Qed.

Lemma limited_sublist {A : Type} (limit : option Z) (l : list A) :
  limited limit l `sublist_of` l.
Proof.
  unfold limited. destruct limit as [n |]; [| done].
  destruct (n =? 0); [done | apply sublist_take].
Qed.

Lemma encode_utf8_scalar s :
  Forall PyStr.is_scalar s -> ∃ b, PyStr.encode_utf8 s = Ok b.
Proof.
  induction 1 as [| c s Hc _ [b IH]]; [by eexists |].
  simpl. rewrite IH.
  assert (∃ bs, PyStr.utf8_char c = Some bs) as [bs ->]; [| by eexists].
  unfold PyStr.utf8_char, PyStr.is_scalar in *.
  destruct (c <? 128); [by eexists |]. destruct (c <? 2048); [by eexists |].
  destruct (Z.leb_spec 55296 c), (Z.leb_spec c 57343); simpl; try lia;
    destruct (c <? 65536); by eexists.
Qed.

Lemma written_lines urls :
  Forall (fun u => Forall PyStr.is_scalar u) urls ->
  TextIO.written (map (fun url => url ++ [10]) urls)
  = (concat (map (fun url => url ++ [10]) urls), None).
Proof.
  induction 1 as [| u urls Hu _ IH]; [done |].
  simpl. rewrite IH.
  destruct (encode_utf8_scalar (u ++ [10])) as [b ->]; [| done].
  apply Forall_app. split; [done |]. apply Forall_singleton. left. lia.
Qed.

Lemma text_lines_from_line u : ∀ cur rest,
  one_line u ->
  PyMore.text_lines_from cur (u ++ 10 :: rest)
  = (cur ++ u ++ [10]) :: PyMore.text_lines_from [] rest.
Proof.
  induction u as [| c u IH]; intros cur rest [H10 H13]; [done |].
  simpl.
  destruct (Z.eqb_spec c 10) as [-> | ?]; [by destruct H10; left |].
  destruct (Z.eqb_spec c 13) as [-> | ?]; [by destruct H13; left |].
  rewrite IH.
  - by rewrite <- app_assoc.
  - split; intros Hin; [apply H10 | apply H13]; by right.
Qed.

Lemma text_lines_concat urls :
  Forall one_line urls ->
  PyMore.text_lines (concat (map (fun url => url ++ [10]) urls))
  = map (fun url => url ++ [10]) urls.
Proof.
  unfold PyMore.text_lines.
  induction 1 as [| u urls Hu _ IH]; [done |].
  simpl. rewrite <- app_assoc. simpl.
  by rewrite text_lines_from_line, IH by done.
Qed.

Lemma strip_line u : trimmed u -> Py.strip (u ++ [10]) = u.
Proof.
  intros (Hne & Hhead & Hlast). unfold Py.strip.
  destruct (rev u) as [| c' r'] eqn:Er.
  { apply (f_equal (@length Z)) in Er. rewrite length_rev in Er. by destruct u. }
  assert (u = rev r' ++ [c']) as Hu.
  { rewrite <- (rev_involutive u), Er. done. }
  destruct u as [| c r]; [done |].
  assert (Py.lstrip ((c :: r) ++ [10]) = (c :: r) ++ [10]) as ->.
  { apply (StripFacts.lstrip_fixed c (r ++ [10])). by apply (Hhead c r). }
  rewrite rev_app_distr, Er.
  change (rev [10] ++ c' :: r') with (10 :: c' :: r').
  change (Py.lstrip (10 :: c' :: r')) with (Py.lstrip (c' :: r')).
  rewrite StripFacts.lstrip_fixed by (by apply (Hlast c' (rev r'))).
  by rewrite <- Er, rev_involutive.
Qed.

Lemma stripped_written_lines urls :
  Forall trimmed urls -> stripped_lines (map (fun url => url ++ [10]) urls) = urls.
Proof.
  unfold stripped_lines.
  induction 1 as [| u urls Hu _ IH]; [done |].
  simpl. rewrite filter_cons, (strip_line u Hu).
  rewrite decide_True by (destruct Hu as (Hne & _); by destruct u).
  simpl. by rewrite (strip_line u Hu), IH.
Qed.

Lemma trimmed_of_ends (u : list Z) :
  match u with c :: _ => Py.isspace c | [] => true end = false ->
  match rev u with c :: _ => Py.isspace c | [] => true end = false ->
  trimmed u.
Proof.
  intros Hh Hl. split; [by destruct u |]. split.
  - intros c r ->. exact Hh.
  - intros c r ->. by rewrite rev_app_distr in Hl.
Qed.

End UrlListFacts.

Module SaveFacts.
Section Facts.
Import TheBatchSitemapScraper.

Variable self : Scraper.

Lemma kept_spec limit all :
  filter_loop limit all [] = limited limit (filter (fun u => is_article u = true) all).
Proof.
  unfold limited. destruct limit as [l |].
  - destruct (Z.eqb_spec l 0) as [-> | Hl].
    + rewrite SitemapFacts.filter_loop_unlimited by (by right). done.
    + rewrite SitemapFacts.filter_loop_limited by (simpl; lia). done.
  - rewrite SitemapFacts.filter_loop_unlimited by (by left). done.
Qed.

Lemma kept_sublist limit all : filter_loop limit all [] `sublist_of` all.
Proof.
  rewrite kept_spec. etrans; [apply UrlListFacts.limited_sublist |].
  apply sublist_filter.
Qed.

(** With a logger, a call of it is a step that changes nothing. *)
Lemma log_run s : is_Some (logger self) -> log self s = (Ok tt, s).
Proof. intros [lg E]. unfold log. by rewrite E. Qed.

Lemma fetch_sitemap_index_run s :
  is_Some (logger self) ->
  fetch_sitemap_index self s = (Ok (index_entries (site self)), s).
Proof.
  intros H. unfold fetch_sitemap_index, try_except, mbind, M_bind.
  by rewrite log_run.
Qed.

Lemma fetch_article_urls_run sitemap_url s :
  is_Some (logger self) ->
  fetch_article_urls_from_sitemap self sitemap_url s
  = (Ok (article_entries (site self) sitemap_url), s).
Proof.
  intros H. unfold fetch_article_urls_from_sitemap, try_except, mbind, M_bind.
  by rewrite log_run.
Qed.

Lemma articles_loop_run sitemap_urls : ∀ acc s,
  is_Some (logger self) ->
  articles_loop self sitemap_urls acc s
  = (Ok (acc ++ flat_map (article_entries (site self)) sitemap_urls), s).
Proof.
  induction sitemap_urls as [| u r IH]; intros acc s H; simpl.
  - by rewrite app_nil_r.
  - unfold mbind, M_bind. rewrite log_run, fetch_article_urls_run, log_run by done.
    rewrite IH by done. by rewrite <- app_assoc.
Qed.

(** With a logger, [get_articles_from_sitemap_index] returns the listed
    articles and changes nothing. *)
Lemma get_articles_run s :
  is_Some (logger self) ->
  get_articles_from_sitemap_index self s = (Ok (listed_articles (site self)), s).
Proof.
  intros H. unfold get_articles_from_sitemap_index, try_except, mbind, M_bind.
  rewrite fetch_sitemap_index_run, log_run, articles_loop_run by done.
  by rewrite !log_run by done.
Qed.

(** Without a logger every method raises AttributeError at once. *)
Lemma get_articles_bare s :
  logger self = None ->
  get_articles_from_sitemap_index self s = (Raise AttributeError, s).
Proof.
  intros H.
  unfold get_articles_from_sitemap_index, fetch_sitemap_index, log,
    try_except, mbind, M_bind, raise.
  by rewrite H.
Qed.

(** What [save_all_article_urls] does, with a logger, up to its try block. *)
Lemma save_urls_run (output_file : string) (limit : option Z) (s : State) :
  is_Some (logger self) ->
  save_all_article_urls self output_file limit s
  = try_except
      (TextIO.write_text_file output_file
         (map (fun url => url ++ [10])
            (filter_loop limit (listed_articles (site self)) []));;
       mret (filter_loop limit (listed_articles (site self)) []))
      (fun _ => mret []) s.
Proof.
  intros H. unfold save_all_article_urls.
  unfold mbind at 1, M_bind at 1. rewrite get_articles_run by done.
  unfold mbind at 1, M_bind at 1. rewrite log_run by done.
  unfold mbind at 1, M_bind at 1. rewrite log_run by done.
  unfold try_except, mbind, M_bind.
  destruct (TextIO.write_text_file _ _ s) as [[[] | e] s1]; by rewrite log_run.
Qed.

(** The same on a disk that takes the file, for URLs that can be encoded. *)
Lemma save_urls_written (output_file : string) (limit : option Z) (s : State) :
  is_Some (logger self) ->
  writable (fs s) = true ->
  Forall (fun u => Forall PyStr.is_scalar u)
    (filter_loop limit (listed_articles (site self)) []) ->
  save_all_article_urls self output_file limit s
  = (Ok (filter_loop limit (listed_articles (site self)) []),
     {| fs := {| text_files :=
                   <[output_file :=
                       Lines (PyMore.text_lines
                                (concat (map (fun url => url ++ [10])
                                   (filter_loop limit (listed_articles (site self)) []))))]>
                     (text_files (fs s));
                 index_dirs := index_dirs (fs s);
                 writable := writable (fs s) |};
        vector_store := vector_store s;
        trace := trace s |}).
Proof.
  intros H Hw Hs. rewrite save_urls_run by done.
  unfold TextIO.write_text_file, try_except, mbind, M_bind, get, set_fs, raise, mret, M_ret.
  simpl. rewrite Hw, (UrlListFacts.written_lines _ Hs). done.
Qed.

End Facts.
End SaveFacts.

(** X18. On a scraper that has a logger [save_all_article_urls] never
    raises.  What it returns has no URL twice, holds only article URLs (with
    /the-batch/ and without /tag/, /page/, /category/ and /author/), and
    keeps the order in which the sitemaps listed them; it is either the
    empty list or the list that the filter loop kept.  The store and the
    trace of the process are left alone, and on a disk that refuses writes
    the result is the empty list and nothing changes.  On a scraper built
    without a logger, the default of the constructor, the method raises
    AttributeError and nothing changes. *)
Theorem save_all_article_urls_result
    (self : Scraper) (output_file : string) (limit : option Z) (s : State) :
  (logger self = None ->
     TheBatchSitemapScraper.save_all_article_urls self output_file limit s
     = (Raise AttributeError, s))
  ∧ (is_Some (logger self) ->
     ∃ r s',
       TheBatchSitemapScraper.save_all_article_urls self output_file limit s = (Ok r, s')
       ∧ (r = [] ∨ r = limited limit (filter (fun u => is_article u = true)
                         (listed_articles (site self))))
       ∧ NoDup r
       ∧ Forall (fun u => is_article u = true) r
       ∧ r `sublist_of` flat_map (article_entries (site self)) (index_entries (site self))
       ∧ vector_store s' = vector_store s
       ∧ trace s' = trace s
       ∧ (writable (fs s) = false -> r = [] ∧ s' = s)).
Proof.
  split.
  { intros H. unfold TheBatchSitemapScraper.save_all_article_urls.
    unfold mbind at 1, M_bind at 1. by rewrite SaveFacts.get_articles_bare. }
  intros Hlog.
  pose proof (UrlListFacts.dict_fromkeys_spec
                (flat_map (article_entries (site self)) (index_entries (site self))))
    as (Hnd & Hsub & _).
  fold (listed_articles (site self)) in Hnd, Hsub.
  pose proof (SaveFacts.kept_spec limit (listed_articles (site self))) as Hk.
  pose proof (SaveFacts.kept_sublist limit (listed_articles (site self))) as Hks.
  assert (Forall (fun u => is_article u = true)
            (TheBatchSitemapScraper.filter_loop limit (listed_articles (site self)) []))
    as Hart.
  { rewrite Hk. apply Forall_forall. intros u Hu.
    eapply elem_of_sublist in Hu; [| apply UrlListFacts.limited_sublist].
    by apply list_elem_of_filter in Hu as [Hu _]. }
  rewrite SaveFacts.save_urls_run by done.
  unfold TextIO.write_text_file, try_except, mbind, M_bind, get, set_fs, raise, mret, M_ret.
  simpl. destruct (writable (fs s)) eqn:Hw.
  - destruct (TextIO.written _) as [content [e |]] eqn:Ew; simpl.
    + eexists [], _. split; [done |]. split; [by left |]. split; [constructor |].
      split; [constructor |]. split; [apply sublist_nil_l |]. done.
    + eexists _, _. split; [done |]. split; [right; exact Hk |].
      split; [by eapply sublist_NoDup |]. split; [exact Hart |].
      split; [by etrans |]. done.
  - exists [], s. split; [done |]. split; [by left |]. split; [constructor |].
    split; [constructor |]. split; [apply sublist_nil_l |]. done.
Qed.

Lemma save_all_article_urls_result_witness :
  TheBatchSitemapScraper.save_all_article_urls ImageScenario.bare_scraper "urls.txt" None
    (Scenario.fresh ∅ ∅)
  = (Raise AttributeError, Scenario.fresh ∅ ∅)
  ∧ ∃ r s',
      TheBatchSitemapScraper.save_all_article_urls ImageScenario.scraper "urls.txt" (Some 1)
        (MoreScenario.read_only ∅ ∅) = (Ok r, s')
      ∧ r = [] ∧ s' = MoreScenario.read_only ∅ ∅.
Proof.
  split.
  - apply (save_all_article_urls_result ImageScenario.bare_scraper "urls.txt" None
             (Scenario.fresh ∅ ∅)). reflexivity.
  - destruct (save_all_article_urls_result ImageScenario.scraper "urls.txt" (Some 1)
                (MoreScenario.read_only ∅ ∅)) as [_ H].
    destruct H as (r & s' & E & _ & _ & _ & _ & _ & _ & H); [by eexists |].
    exists r, s'. split; [exact E |]. apply H. reflexivity.
Defined.

(** X19. The list file that the scraper writes is the list file that the
    processor reads.  When the scraper has a logger, the disk takes the
    file and every kept URL is text of one line without white space at its
    ends, [save_all_article_urls] returns the kept URLs and
    [_read_urls_file] of a processor with the same path then returns the
    same URLs in the same order.  If moreover no base prefix is set or every
    kept URL starts with http, a run of [process_urls] without limits and
    with a positive batch size that returns a store has handed the web
    loader exactly the kept URLs, in order. *)
Theorem url_list_file_round_trip
    (scraper : Scraper) (self : Processor) (limit : option Z) (s : State)
    (kept : list (list Z)) :
  is_Some (logger scraper) ->
  writable (fs s) = true ->
  kept = limited limit (filter (fun u => is_article u = true)
           (listed_articles (site scraper))) ->
  Forall clean_url kept ->
  ∃ s1,
    TheBatchSitemapScraper.save_all_article_urls scraper (urls_file_path self) limit s
    = (Ok kept, s1)
    ∧ VectorStoreBatchProcessor._read_urls_file self s1 = (Ok kept, s1)
    ∧ ∀ W vs s2,
        0 < batch_size self ->
        base_url_prefix self = None
        ∨ Forall (fun u => Py.startswith u (py "http") = true) kept ->
        VectorStoreBatchProcessor.process_urls W self None None s1 = (Ok (Some vs), s2) ->
        ∃ t, trace s2 = trace s1 ++ t ∧ concat (web_loaded t) = kept.
Proof.
  intros Hlog Hw Hk Hc. rewrite <- SaveFacts.kept_spec in Hk.
  eexists. rewrite SaveFacts.save_urls_written; [| done | done |]; cycle 1.
  { rewrite <- Hk. eapply Forall_impl; [exact Hc |]. by intros u (_ & _ & Hu). }
  rewrite <- Hk.
  assert (stripped_lines
            (PyMore.text_lines (concat (map (fun url => url ++ [10]) kept))) = kept) as Hlines.
  { rewrite UrlListFacts.text_lines_concat.
    - apply UrlListFacts.stripped_written_lines.
      eapply Forall_impl; [exact Hc |]. by intros u (Hu & _).
    - eapply Forall_impl; [exact Hc |]. by intros u (_ & Hu & _). }
  split; [reflexivity |]. split.
  { rewrite PipelineFacts.read_urls_file_run. simpl.
    by rewrite lookup_insert_eq, Hlines. }
  intros W vs s2 HB Hpre Hrun.
  destruct (PipelineFacts.process_urls_batches W self _ _ _ _ _ HB Hrun)
    as (ls & t & new & Hf & Ht & Hceil & Htr & Hwl).
  simpl in Hf. rewrite lookup_insert_eq in Hf. injection Hf as <-.
  assert (source_urls W self
            (PyMore.text_lines (concat (map (fun url => url ++ [10]) kept))) None
          = kept) as Hsrc.
  { unfold source_urls. rewrite Hlines.
    destruct (base_url_prefix self) as [prefix |] eqn:Ep; [| done].
    destruct (Py.truthy prefix); [| done].
    destruct Hpre as [? | Hhttp]; [done |].
    clear -Hhttp. induction Hhttp as [| u us Hu _ IH]; [done |].
    simpl. by rewrite IH, UrlFacts.normalize_url_http. }
  rewrite Hsrc in *.
  exists new. split; [done |].
  rewrite Hwl. unfold Py.range. rewrite ProcessorFacts.batches_concat by done.
  apply take_ge. nia.
Qed.

Lemma url_list_file_round_trip_witness :
  ∃ s1,
    TheBatchSitemapScraper.save_all_article_urls ImageScenario.scraper
      (urls_file_path (Scenario.processor 2)) None (Scenario.fresh ∅ ∅)
    = (Ok [py "https://x/the-batch/issue-1/"; py "https://x/the-batch/issue-2/"], s1)
    ∧ VectorStoreBatchProcessor._read_urls_file (Scenario.processor 2) s1
      = (Ok [py "https://x/the-batch/issue-1/"; py "https://x/the-batch/issue-2/"], s1).
Proof.
  destruct (url_list_file_round_trip ImageScenario.scraper (Scenario.processor 2) None
              (Scenario.fresh ∅ ∅)
              [py "https://x/the-batch/issue-1/"; py "https://x/the-batch/issue-2/"])
    as (s1 & Hsave & Hread & _).
  - by eexists.
  - reflexivity.
  - vm_compute. reflexivity.
  - let l := eval vm_compute in
      [py "https://x/the-batch/issue-1/"; py "https://x/the-batch/issue-2/"] in
    change (Forall clean_url l).
    repeat (constructor;
      [split; [by apply UrlListFacts.trimmed_of_ends |];
       split; [split; apply (bool_decide_unpack _); vm_compute; exact I |];
       repeat (constructor; [left; lia |]); constructor |]).
    constructor.
  - exists s1. split; [exact Hsave | exact Hread].
Defined.

Module ContextFacts.
Section Facts.

Variable count_tokens : list Z -> Z.

Lemma context_loop_spec docs : ∀ i acc total,
  total <= Frontend.TOKEN_LIMIT ->
  ∃ n : nat,
    (n ≤ length docs)%nat
    ∧ Frontend.context_loop count_tokens docs i acc total
      = acc ++ take n (article_texts i docs)
    ∧ total + tokens_of count_tokens (take n (article_texts i docs)) <= Frontend.TOKEN_LIMIT
    ∧ ((n < length docs)%nat ->
       ∃ next, article_texts i docs !! n = Some next
         ∧ total + tokens_of count_tokens (take n (article_texts i docs))
             + count_tokens next > Frontend.TOKEN_LIMIT).
Proof.
  induction docs as [| doc r IH]; intros i acc total Ht.
  - exists 0%nat. simpl. rewrite app_nil_r. unfold tokens_of. simpl.
    split; [lia |]. split; [done |]. split; [lia |]. lia.
  - simpl.
    destruct (Z.gtb_spec (total + count_tokens (Frontend.doc_text i doc))
                Frontend.TOKEN_LIMIT) as [Hgt | Hle].
    + exists 0%nat. simpl. rewrite app_nil_r. unfold tokens_of. simpl.
      split; [lia |]. split; [done |]. split; [lia |].
      intros _. eexists. split; [done |]. lia.
    + destruct (IH (i + 1) (acc ++ [Frontend.doc_text i doc])
                  (total + count_tokens (Frontend.doc_text i doc)) Hle)
        as (n & Hn & E & Hb & Hmax).
      exists (S n). simpl. rewrite E, <- app_assoc. simpl.
      unfold tokens_of in *. simpl.
      split; [lia |]. split; [done |]. split; [lia |].
      intros Hlt. destruct Hmax as (next & Hnext & Hover); [lia |].
      exists next. split; [done |]. lia.
Qed.

Lemma tokens_of_prefix (texts : list (list Z)) : ∀ (n : nat) next,
  (∀ t, 0 <= count_tokens t) ->
  texts !! n = Some next ->
  tokens_of count_tokens (take n texts) + count_tokens next
  <= tokens_of count_tokens texts.
Proof.
  unfold tokens_of.
  induction texts as [| t texts IH]; intros n next Hpos Hn; [done |].
  destruct n as [| n]; simpl in *.
  - injection Hn as ->.
    assert (0 <= fold_right Z.add 0 (map count_tokens texts)); [| lia].
    clear IH. induction texts as [| t' texts IH']; simpl; [lia |].
    specialize (Hpos t'). lia.
  - specialize (IH n next Hpos Hn). lia.
Qed.

Lemma article_texts_length docs : ∀ i, length (article_texts i docs) = length docs.
Proof. induction docs as [| d r IH]; intros i; simpl; [done | by rewrite IH]. Qed.

End Facts.
End ContextFacts.

(** X20. [build_context] joins the texts of the first documents only: the
    longest run of leading documents whose token counts add up to at most
    TOKEN_LIMIT.  The counts of the texts it joins never add up to more
    than the limit, a document is left out only when the count of the first
    one left out would take the sum over it, and with token counts that are
    not negative and a total within the limit no document is left out. *)
Theorem build_context_token_budget
    (count_tokens : list Z -> Z) (docs : list Document) :
  ∃ n : nat,
    (n ≤ length docs)%nat
    ∧ Frontend.build_context count_tokens docs
      = PyMore.join [10; 10] (take n (article_texts 1 docs))
    ∧ tokens_of count_tokens (take n (article_texts 1 docs)) <= Frontend.TOKEN_LIMIT
    ∧ ((n < length docs)%nat ->
       ∃ next, article_texts 1 docs !! n = Some next
         ∧ tokens_of count_tokens (take n (article_texts 1 docs)) + count_tokens next
           > Frontend.TOKEN_LIMIT)
    ∧ ((∀ t, 0 <= count_tokens t) ->
       tokens_of count_tokens (article_texts 1 docs) <= Frontend.TOKEN_LIMIT ->
       Frontend.build_context count_tokens docs
       = PyMore.join [10; 10] (article_texts 1 docs)).
Proof.
  destruct (ContextFacts.context_loop_spec count_tokens docs 1 [] 0)
    as (n & Hn & E & Hb & Hmax); [unfold Frontend.TOKEN_LIMIT; lia |].
  exists n. unfold Frontend.build_context. rewrite E. simpl.
  split; [done |]. split; [done |]. split; [lia |]. split.
  - intros Hlt. destruct (Hmax Hlt) as (next & Hnext & Hover).
    exists next. split; [done |]. lia.
  - intros Hpos Hall.
    destruct (decide (n < length docs)%nat) as [Hlt | Hge].
    + destruct (Hmax Hlt) as (next & Hnext & Hover).
      pose proof (ContextFacts.tokens_of_prefix count_tokens _ n next Hpos Hnext). lia.
    + rewrite take_ge; [done |].
      rewrite ContextFacts.article_texts_length. lia.
Qed.

Lemma build_context_token_budget_witness :
  Frontend.build_context ImageScenario.count_chars
    [Scenario.good_image; Scenario.good_image]
  = PyMore.join [10; 10] (article_texts 1 [Scenario.good_image; Scenario.good_image]).
Proof.
  destruct (build_context_token_budget ImageScenario.count_chars
              [Scenario.good_image; Scenario.good_image])
    as (n & _ & _ & _ & _ & H).
  apply H.
  - intros t. unfold ImageScenario.count_chars. lia.
  - vm_compute. discriminate.
Defined.
